(** * Floating-IP lifecycle manager (nova/network/floating_ips.py)

    A shallow embedding of the [FloatingIP] manager mixin: allocation,
    deallocation, association, disassociation and the two migration phases,
    together with the properties of the specification that concern them.

    The manager is effectful Python: every method talks to external
    collaborators (the database API [self.db], [QUOTAS], [self.l3driver],
    the notifier, the network RPC API, the DNS managers, the service group
    API) and may raise.  Methods are therefore embedded as computations of a
    state-and-exception monad over a [World] that holds the store and the
    chronological trace of every call made to a collaborator.  State changes
    made before an exception is raised are kept, as in Python. *)

From Stdlib Require Import ZArith List String Bool.
Import ListNotations.

Local Open Scope string_scope.
Local Open Scope list_scope.
Local Open Scope Z_scope.

(** ** Python values *)

(** Truthiness of a [str] and of a value that may be [None]. *)
Definition truthy_str (s : string) : bool :=
  match s with EmptyString => false | String _ _ => true end.

Definition truthy_opt_str (o : option string) : bool :=
  match o with Some s => truthy_str s | None => false end.

Definition truthy_int (n : Z) : bool := negb (n =? 0).

Definition truthy_opt_int (o : option Z) : bool :=
  match o with Some n => truthy_int n | None => false end.

Definition truthy_list {A} (l : list A) : bool :=
  match l with [] => false | _ :: _ => true end.

Definition truthy_opt_list {A} (o : option (list A)) : bool :=
  match o with Some l => truthy_list l | None => false end.

(** [a or b] where [a] is a configured string and [b] may be [None]. *)
Definition str_or (a : string) (b : option string) : option string :=
  if truthy_str a then Some a else b.

(** [a or b] where [a] may be [None] and [b] is a configured string. *)
Definition opt_or_str (a : option string) (b : string) : string :=
  match a with
  | Some s => if truthy_str s then s else b
  | None => b
  end.

Definition opt_str_eqb (a b : option string) : bool :=
  match a, b with
  | Some x, Some y => String.eqb x y
  | None, None => true
  | _, _ => false
  end.

Definition opt_int_eqb (a b : option Z) : bool :=
  match a, b with
  | Some x, Some y => Z.eqb x y
  | None, None => true
  | _, _ => false
  end.

(** [needle in hay] on strings. *)
Fixpoint str_contains (needle hay : string) : bool :=
  String.prefix needle hay ||
  match hay with
  | EmptyString => false
  | String _ rest => str_contains needle rest
  end.

Definition str_in (x : string) (l : list string) : bool :=
  existsb (String.eqb x) l.

(** ** Data model: the rows the manager reads and writes *)

Record Context := mkContext {
  is_admin : bool;
  project_id : option string
}.

(** [context.elevated()]: an admin copy of the context. *)
Definition elevated (ctx : Context) : Context :=
  {| is_admin := true; project_id := project_id ctx |}.

Record Network := mkNetwork {
  nw_id : Z;
  nw_host : option string;
  nw_multi_host : bool
}.

Record FixedIp := mkFixedIp {
  fx_id : Z;
  fx_address : string;
  fx_instance_uuid : option string;
  fx_network_id : option Z
}.

Record FloatingIp := mkFloatingIp {
  fl_address : string;
  fl_pool : string;
  fl_project_id : option string;
  fl_fixed_ip_id : option Z;
  fl_auto_assigned : bool;
  fl_host : option string;
  fl_interface : option string
}.

Record Instance := mkInstance {
  in_uuid : string;
  in_host : option string
}.

Record Service := mkService {
  sv_host : option string;
  sv_topic : string
}.

Record DnsDomain := mkDnsDomain {
  dd_domain : string;
  dd_scope : string;
  dd_availability_zone : option string;
  dd_project_id : option string
}.

(** The store: one list of rows per table. *)
Record Store := mkStore {
  floating_ips : list FloatingIp;
  fixed_ips : list FixedIp;
  networks : list Network;
  instances : list Instance;
  services : list Service;
  dnsdomains : list DnsDomain
}.

(** ** Exceptions *)

Inductive exn : Type :=
| NotAuthorized
| OverQuota
| FloatingIpLimitExceeded
| NoMoreFloatingIps
| FloatingIpNotFoundForAddress (address : string)
| FloatingIpAssociated (address : string)
| FloatingIpNotAssociated (address : string)
| CannotDisassociateAutoAssignedFloatingIP
| NoFloatingIpInterface (interface : option string)
| ProcessExecutionError (message : string)
| FixedIpNotFound (id : option Z)
| FixedIpNotFoundForAddress (address : string)
| NetworkNotFound (id : option Z)
| InstanceNotFound (uuid : option string)
| UnboundLocalError (name : string)
| ClientException (inner : exn)
| OtherError (name : string).

Inductive Res (A : Type) : Type :=
| Ok (a : A)
| Raise (e : exn).
Arguments Ok {A} a.
Arguments Raise {A} e.

Definition raised {A} (r : Res A) : option exn :=
  match r with Ok _ => None | Raise e => Some e end.

(** ** Calls to collaborators and the trace of them *)

Inductive DbCall : Type :=
| Db_floating_ip_get_by_address (address : string)
| Db_floating_ip_allocate_address (project : option string) (pool : string)
| Db_floating_ip_deallocate (address : string)
| Db_floating_ip_fixed_ip_associate
    (floating_address fixed_address : string) (host : option string)
| Db_floating_ip_disassociate (address : string)
| Db_floating_ip_update (address : string) (host : option string)
| Db_fixed_ip_get (id : option Z) (get_network : bool)
| Db_fixed_ip_get_by_address (address : string)
| Db_network_get (id : option Z)
| Db_instance_get_by_uuid (uuid : option string)
| Db_service_get_by_host_and_topic (host : option string) (topic : string)
| Db_dnsdomain_list
| Db_dnsdomain_get (domain : string).

Inductive L3Call : Type :=
| L3_add_floating_ip
    (floating_address fixed_address : string) (interface : option string)
    (network : option Network)
| L3_remove_floating_ip
    (floating_address fixed_address : string) (interface : option string)
    (network : option Network)
| L3_clean_conntrack (fixed_address : string).

Inductive RpcCall : Type :=
| Rpc_associate_floating_ip
    (floating_address fixed_address : string) (interface host : option string)
    (instance_uuid : option string)
| Rpc_disassociate_floating_ip
    (address : string) (interface host : option string)
    (instance_uuid : option string).

Inductive DnsCall : Type :=
| Dns_floating_get_domains
| Dns_instance_get_domains
| Dns_floating_get_entries_by_address (address domain : string)
| Dns_floating_delete_entry (name domain : string).

Inductive LogLevel : Type := LogInfo | LogWarn | LogError | LogException.

(** The reservation handle returned by [QUOTAS.reserve]: a list of
    reservation identifiers. *)
Definition Handle := list string.

Inductive Event : Type :=
| EvDb (ctx : Context) (call : DbCall) (failure : option exn)
| EvQuotaReserve (ctx : Context) (delta : Z) (result : Res Handle)
| EvQuotaCommit (ctx : Context) (reservations : Handle) (failure : option exn)
| EvQuotaRollback (ctx : Context) (reservations : Handle)
    (failure : option exn)
| EvL3 (call : L3Call) (failure : option exn)
| EvNotify (event_type : string) (payload : list (string * option string))
    (failure : option exn)
| EvRpc (call : RpcCall) (failure : option exn)
| EvDns (call : DnsCall) (failure : option exn)
| EvLog (level : LogLevel) (message : string) (args : list (option string)).

Record World := mkWorld {
  w_store : Store;
  w_trace : list Event
}.

Definition emit (e : Event) (w : World) : World :=
  {| w_store := w_store w; w_trace := w_trace w ++ [e] |}.

Definition set_store (st : Store) (w : World) : World :=
  {| w_store := st; w_trace := w_trace w |}.

(** The events a run added to the trace, given the worlds before and after. *)
Definition events_since (w w' : World) : list Event :=
  skipn (List.length (w_trace w)) (w_trace w').

(** ** The monad *)

Definition M (A : Type) : Type := World -> Res A * World.

Definition ret {A} (a : A) : M A := fun w => (Ok a, w).

Definition raise {A} (e : exn) : M A := fun w => (Raise e, w).

Definition bind {A B} (m : M A) (k : A -> M B) : M B :=
  fun w =>
    match m w with
    | (Ok a, w') => k a w'
    | (Raise e, w') => (Raise e, w')
    end.

(** [try: body except <handler>]: the handler decides, per exception,
    whether it catches it ([Some]) or lets it through ([None]). *)
Definition try_except {A} (body : M A) (handler : exn -> option (M A)) : M A :=
  fun w =>
    match body w with
    | (Ok a, w') => (Ok a, w')
    | (Raise e, w') =>
        match handler e with
        | Some h => h w'
        | None => (Raise e, w')
        end
    end.

Declare Scope py_scope.
Delimit Scope py_scope with py.
Notation "x <- c1 ;; c2" := (bind c1 (fun x => c2))
  (at level 61, c1 at next level, right associativity) : py_scope.
Notation "c1 ;; c2" := (bind c1 (fun _ => c2))
  (at level 61, right associativity) : py_scope.
Local Open Scope py_scope.

(** [for x in l: body x]. *)
Fixpoint for_each {A} (l : list A) (body : A -> M unit) : M unit :=
  match l with
  | [] => ret tt
  | x :: rest => body x ;; for_each rest body
  end.

(** Logging never raises; it only shows in the trace. *)
Definition LOG (level : LogLevel) (message : string)
    (args : list (option string)) : M unit :=
  fun w => (Ok tt, emit (EvLog level message args) w).

(** ** The Store Gateway *)

(** Modelled from the spec: the Store Gateway (the [nova.db] API, which is
    not part of these sources) is "an abstract key/record store" (§1) with
    the operations of §6: get a floating IP by address,
    allocate-address-from-pool ("an unowned address in [pool]; assign it to
    [projectId]", §4.1), release ("owning-project cleared by deallocate",
    §3), atomic bind ("set the store binding floating->fixed, tagging it
    with this host", reporting when the address was already bound, §4.2) and
    unbind ("clear the store binding", §4.3), update(host=...), get fixed IP
    by id or address (optionally joined with its network), get network, get
    instance by uuid, get service by host and topic, and the DNS domain
    table.  A lookup of a missing row raises the not-found error of its
    kind; the service lookup and the unbind return none instead. *)
Module StoreGateway.

Definition with_floating_ips (st : Store) (l : list FloatingIp) : Store :=
  {| floating_ips := l;
     fixed_ips := fixed_ips st;
     networks := networks st;
     instances := instances st;
     services := services st;
     dnsdomains := dnsdomains st |}.

Definition find_floating (st : Store) (address : string)
  : option FloatingIp :=
  find (fun f => String.eqb (fl_address f) address) (floating_ips st).

Definition update_floating (address : string)
    (upd : FloatingIp -> FloatingIp) (st : Store) : Store :=
  with_floating_ips st
    (map (fun f => if String.eqb (fl_address f) address then upd f else f)
         (floating_ips st)).

Definition set_project (p : option string) (f : FloatingIp) : FloatingIp :=
  {| fl_address := fl_address f; fl_pool := fl_pool f;
     fl_project_id := p; fl_fixed_ip_id := fl_fixed_ip_id f;
     fl_auto_assigned := fl_auto_assigned f; fl_host := fl_host f;
     fl_interface := fl_interface f |}.

Definition set_host (h : option string) (f : FloatingIp) : FloatingIp :=
  {| fl_address := fl_address f; fl_pool := fl_pool f;
     fl_project_id := fl_project_id f; fl_fixed_ip_id := fl_fixed_ip_id f;
     fl_auto_assigned := fl_auto_assigned f; fl_host := h;
     fl_interface := fl_interface f |}.

Definition set_binding (fixed : option Z) (h : option string)
    (f : FloatingIp) : FloatingIp :=
  {| fl_address := fl_address f; fl_pool := fl_pool f;
     fl_project_id := fl_project_id f; fl_fixed_ip_id := fixed;
     fl_auto_assigned := fl_auto_assigned f; fl_host := h;
     fl_interface := fl_interface f |}.

Definition find_fixed (st : Store) (id : option Z) : option FixedIp :=
  match id with
  | Some i => find (fun x => Z.eqb (fx_id x) i) (fixed_ips st)
  | None => None
  end.

Definition find_fixed_by_address (st : Store) (address : string)
  : option FixedIp :=
  find (fun x => String.eqb (fx_address x) address) (fixed_ips st).

Definition find_network (st : Store) (id : option Z) : option Network :=
  match id with
  | Some i => find (fun n => Z.eqb (nw_id n) i) (networks st)
  | None => None
  end.

(** A fixed IP row together with its [network] relation. *)
Definition with_network (st : Store) (x : FixedIp)
  : FixedIp * option Network :=
  (x, find_network st (fx_network_id x)).

Definition floating_ip_get_by_address (st : Store) (address : string)
  : Res FloatingIp :=
  match find_floating st address with
  | Some f => Ok f
  | None => Raise (FloatingIpNotFoundForAddress address)
  end.

Definition unowned_in (pool : string) (f : FloatingIp) : bool :=
  String.eqb (fl_pool f) pool &&
  match fl_project_id f with None => true | Some _ => false end.

Definition floating_ip_allocate_address (st : Store)
    (project : option string) (pool : string) : Res string * Store :=
  match find (unowned_in pool) (floating_ips st) with
  | Some f =>
      (Ok (fl_address f),
       update_floating (fl_address f) (set_project project) st)
  | None => (Raise NoMoreFloatingIps, st)
  end.

Definition floating_ip_deallocate (st : Store) (address : string)
  : Res unit * Store :=
  (Ok tt, update_floating address (set_project None) st).

Definition floating_ip_fixed_ip_associate (st : Store)
    (floating_address fixed_address : string) (host : option string)
  : Res (option (FixedIp * option Network)) * Store :=
  match find_floating st floating_address with
  | None => (Raise (FloatingIpNotFoundForAddress floating_address), st)
  | Some f =>
      match find_fixed_by_address st fixed_address with
      | None => (Raise (FixedIpNotFoundForAddress fixed_address), st)
      | Some x =>
          if opt_int_eqb (fl_fixed_ip_id f) (Some (fx_id x))
          then (Ok None, st)
          else (Ok (Some (with_network st x)),
                update_floating floating_address
                  (set_binding (Some (fx_id x)) host) st)
      end
  end.

Definition floating_ip_disassociate (st : Store) (address : string)
  : Res (option (FixedIp * option Network)) * Store :=
  match find_floating st address with
  | None => (Raise (FloatingIpNotFoundForAddress address), st)
  | Some f =>
      (Ok (option_map (with_network st) (find_fixed st (fl_fixed_ip_id f))),
       update_floating address (set_binding None None) st)
  end.

Definition floating_ip_update (st : Store) (address : string)
    (host : option string) : Res unit * Store :=
  match find_floating st address with
  | None => (Raise (FloatingIpNotFoundForAddress address), st)
  | Some _ => (Ok tt, update_floating address (set_host host) st)
  end.

Definition fixed_ip_get (st : Store) (id : option Z)
  : Res (FixedIp * option Network) :=
  match find_fixed st id with
  | Some x => Ok (with_network st x)
  | None => Raise (FixedIpNotFound id)
  end.

Definition fixed_ip_get_by_address (st : Store) (address : string)
  : Res FixedIp :=
  match find_fixed_by_address st address with
  | Some x => Ok x
  | None => Raise (FixedIpNotFoundForAddress address)
  end.

Definition network_get (st : Store) (id : option Z) : Res Network :=
  match find_network st id with
  | Some n => Ok n
  | None => Raise (NetworkNotFound id)
  end.

Definition instance_get_by_uuid (st : Store) (uuid : option string)
  : Res Instance :=
  match find (fun i => opt_str_eqb (Some (in_uuid i)) uuid) (instances st)
  with
  | Some i => Ok i
  | None => Raise (InstanceNotFound uuid)
  end.

Definition service_get_by_host_and_topic (st : Store)
    (host : option string) (topic : string) : Res (option Service) :=
  Ok (find (fun s => opt_str_eqb (sv_host s) host &&
                     String.eqb (sv_topic s) topic) (services st)).

Definition dnsdomain_list (st : Store) : Res (list string) :=
  Ok (map dd_domain (dnsdomains st)).

Definition dnsdomain_get (st : Store) (domain : string)
  : Res (option DnsDomain) :=
  Ok (find (fun d => String.eqb (dd_domain d) domain) (dnsdomains st)).

End StoreGateway.

(** ** The collaborators of a manager *)

(** Everything the manager is configured with or calls out to.  The store's
    answers are those of [StoreGateway]; [db_fault] lets any store call
    raise instead (a lost connection, an access check of the database
    layer), deciding from the whole history.  The other collaborators are
    arbitrary functions of the call and of the world at the time of the
    call. *)
Record Env := mkEnv {
  (** [self.host] ([None] for the [LocalManager]) *)
  self_host : option string;
  (** [CONF.public_interface], [CONF.default_floating_pool],
      [CONF.network_topic] *)
  CONF_public_interface : string;
  CONF_default_floating_pool : string;
  CONF_network_topic : string;
  db_fault : Context -> DbCall -> World -> option exn;
  (** [QUOTAS.reserve], [QUOTAS.commit], [QUOTAS.rollback] *)
  quota_reserve : Context -> Z -> World -> Res Handle;
  quota_commit : Context -> Handle -> World -> option exn;
  quota_rollback : Context -> Handle -> World -> option exn;
  (** Modelled from the spec: the L3 driver (§6), whose "failures surface
      as a generic process-execution error whose message may contain an
      interface-not-found signal": [Some msg] is a [ProcessExecutionError]
      whose [str] is [msg]. *)
  l3driver_call : L3Call -> World -> option string;
  notifier_notify :
    Context -> string -> list (string * option string) -> World -> option exn;
  (** a call to a peer manager, which may change the store *)
  network_rpcapi_call : Context -> RpcCall -> World -> option exn * Store;
  dns_call : DnsCall -> World -> Res (list string);
  (** [self.servicegroup_api.service_is_up] *)
  service_is_up : Service -> World -> bool;
  (** what [rpc_common.client_exceptions] raises in place of an exception
      of one of the listed types *)
  client_exception : exn -> exn
}.

(** ** The manager *)

Section Manager.

Variable env : Env.

(** *** Calls to the collaborators

    Each call appends one event to the trace, with its outcome. *)

Definition outcome (failure : option exn) : Res unit :=
  match failure with None => Ok tt | Some e => Raise e end.

Definition db_read {A} (ctx : Context) (call : DbCall)
    (answer : Store -> Res A) : M A :=
  fun w =>
    match db_fault env ctx call w with
    | Some e => (Raise e, emit (EvDb ctx call (Some e)) w)
    | None =>
        let r := answer (w_store w) in
        (r, emit (EvDb ctx call (raised r)) w)
    end.

Definition db_write {A} (ctx : Context) (call : DbCall)
    (answer : Store -> Res A * Store) : M A :=
  fun w =>
    match db_fault env ctx call w with
    | Some e => (Raise e, emit (EvDb ctx call (Some e)) w)
    | None =>
        let '(r, st) := answer (w_store w) in
        (r, emit (EvDb ctx call (raised r)) (set_store st w))
    end.

Definition db_floating_ip_get_by_address (ctx : Context) (address : string)
  : M FloatingIp :=
  db_read ctx (Db_floating_ip_get_by_address address)
    (fun st => StoreGateway.floating_ip_get_by_address st address).

Definition db_floating_ip_allocate_address (ctx : Context)
    (project : option string) (pool : string) : M string :=
  db_write ctx (Db_floating_ip_allocate_address project pool)
    (fun st => StoreGateway.floating_ip_allocate_address st project pool).

Definition db_floating_ip_deallocate (ctx : Context) (address : string)
  : M unit :=
  db_write ctx (Db_floating_ip_deallocate address)
    (fun st => StoreGateway.floating_ip_deallocate st address).

Definition db_floating_ip_fixed_ip_associate (ctx : Context)
    (floating_address fixed_address : string) (host : option string)
  : M (option (FixedIp * option Network)) :=
  db_write ctx
    (Db_floating_ip_fixed_ip_associate floating_address fixed_address host)
    (fun st =>
       StoreGateway.floating_ip_fixed_ip_associate st floating_address
         fixed_address host).

Definition db_floating_ip_disassociate (ctx : Context) (address : string)
  : M (option (FixedIp * option Network)) :=
  db_write ctx (Db_floating_ip_disassociate address)
    (fun st => StoreGateway.floating_ip_disassociate st address).

Definition db_floating_ip_update (ctx : Context) (address : string)
    (host : option string) : M unit :=
  db_write ctx (Db_floating_ip_update address host)
    (fun st => StoreGateway.floating_ip_update st address host).

Definition db_fixed_ip_get (ctx : Context) (id : option Z)
    (get_network : bool) : M (FixedIp * option Network) :=
  db_read ctx (Db_fixed_ip_get id get_network)
    (fun st => StoreGateway.fixed_ip_get st id).

Definition db_fixed_ip_get_by_address (ctx : Context) (address : string)
  : M FixedIp :=
  db_read ctx (Db_fixed_ip_get_by_address address)
    (fun st => StoreGateway.fixed_ip_get_by_address st address).

Definition db_network_get (ctx : Context) (id : option Z) : M Network :=
  db_read ctx (Db_network_get id)
    (fun st => StoreGateway.network_get st id).

Definition db_instance_get_by_uuid (ctx : Context) (uuid : option string)
  : M Instance :=
  db_read ctx (Db_instance_get_by_uuid uuid)
    (fun st => StoreGateway.instance_get_by_uuid st uuid).

Definition db_service_get_by_host_and_topic (ctx : Context)
    (host : option string) (topic : string) : M (option Service) :=
  db_read ctx (Db_service_get_by_host_and_topic host topic)
    (fun st => StoreGateway.service_get_by_host_and_topic st host topic).

Definition db_dnsdomain_list (ctx : Context) : M (list string) :=
  db_read ctx Db_dnsdomain_list StoreGateway.dnsdomain_list.

Definition db_dnsdomain_get (ctx : Context) (domain : string)
  : M (option DnsDomain) :=
  db_read ctx (Db_dnsdomain_get domain)
    (fun st => StoreGateway.dnsdomain_get st domain).

Definition QUOTAS_reserve (ctx : Context) (floating_ips : Z) : M Handle :=
  fun w =>
    let r := quota_reserve env ctx floating_ips w in
    (r, emit (EvQuotaReserve ctx floating_ips r) w).

Definition QUOTAS_commit (ctx : Context) (reservations : Handle) : M unit :=
  fun w =>
    let o := quota_commit env ctx reservations w in
    (outcome o, emit (EvQuotaCommit ctx reservations o) w).

Definition QUOTAS_rollback (ctx : Context) (reservations : Handle) : M unit :=
  fun w =>
    let o := quota_rollback env ctx reservations w in
    (outcome o, emit (EvQuotaRollback ctx reservations o) w).

Definition l3driver (call : L3Call) : M unit :=
  fun w =>
    let o := option_map ProcessExecutionError (l3driver_call env call w) in
    (outcome o, emit (EvL3 call o) w).

Definition notify (ctx : Context) (event_type : string)
    (payload : list (string * option string)) : M unit :=
  fun w =>
    let o := notifier_notify env ctx event_type payload w in
    (outcome o, emit (EvNotify event_type payload o) w).

Definition network_rpcapi (ctx : Context) (call : RpcCall) : M unit :=
  fun w =>
    let '(o, st) := network_rpcapi_call env ctx call w in
    (outcome o, emit (EvRpc call o) (set_store st w)).

Definition dns_manager (call : DnsCall) : M (list string) :=
  fun w =>
    let r := dns_call env call w in
    (r, emit (EvDns call (raised r)) w).

Definition servicegroup_api_service_is_up (service : Service) : M bool :=
  fun w => (Ok (service_is_up env service w), w).

(** The decorator [@rpc_common.client_exceptions(expected...)]. *)
Definition client_exceptions {A} (expected : exn -> bool) (method : M A)
  : M A :=
  fun w =>
    match method w with
    | (Raise e, w') =>
        if expected e then (Raise (client_exception env e), w')
        else (Raise e, w')
    | r => r
    end.

Definition is_FloatingIpNotFoundForAddress (e : exn) : bool :=
  match e with FloatingIpNotFoundForAddress _ => true | _ => false end.

(** Reading a local variable that is only bound on some paths. *)
Definition local {A} (name : string) (value : option A) : M A :=
  match value with
  | Some a => ret a
  | None => raise (UnboundLocalError name)
  end.

(** [for x in l: acc = body acc x], for loops that build a value. *)
Fixpoint fold_m {A S} (l : list A) (acc : S) (body : S -> A -> M S) : M S :=
  match l with
  | [] => ret acc
  | x :: rest => acc' <- body acc x ;; fold_m rest acc' body
  end.

(** *** Ownership *)

(** [_floating_ip_owned_by_project]: raises if the floating ip does not
    belong to the caller's project. *)
Definition _floating_ip_owned_by_project (ctx : Context)
    (floating_ip : FloatingIp) : M unit :=
  if is_admin ctx then ret tt
  else if negb (opt_str_eqb (fl_project_id floating_ip) (project_id ctx))
  then
    match fl_project_id floating_ip with
    | None =>
        LOG LogWarn "Address |%(address)s| is not allocated"
          [Some (fl_address floating_ip)] ;;
        raise NotAuthorized
    | Some _ =>
        LOG LogWarn
          "Address |%(address)s| is not allocated to your project |%(project)s|"
          [Some (fl_address floating_ip); project_id ctx] ;;
        raise NotAuthorized
    end
  else ret tt.

(** *** Allocation *)

(** [allocate_floating_ip]: gets a floating ip from the pool. *)
Definition allocate_floating_ip (ctx : Context) (project : option string)
    (auto_assigned : bool) (pool : option string) : M string :=
  let pool := opt_or_str pool (CONF_default_floating_pool env) in
  let use_quota := negb auto_assigned in
  reservations <-
    try_except
      (if use_quota
       then r <- QUOTAS_reserve ctx 1 ;; ret (Some r)
       else ret None)
      (fun e =>
         match e with
         | OverQuota =>
             Some (LOG LogWarn
                     "Quota exceeded for %(pid)s, tried to allocate floating IP"
                     [project_id ctx] ;;
                   raise FloatingIpLimitExceeded)
         | _ => None
         end) ;;
  floating_ip <-
    try_except
      (floating_ip <- db_floating_ip_allocate_address ctx project pool ;;
       notify ctx "network.floating_ip.allocate"
         [("project_id", project); ("floating_ip", Some floating_ip)] ;;
       (if use_quota
        then r <- local "reservations" reservations ;; QUOTAS_commit ctx r
        else ret tt) ;;
       ret floating_ip)
      (fun e =>
         (* with excutils.save_and_reraise_exception(): *)
         Some ((if use_quota
                then r <- local "reservations" reservations ;;
                     QUOTAS_rollback ctx r
                else ret tt) ;;
               raise e)) ;;
  ret floating_ip.

(** *** DNS entries *)

Inductive DomainEntry : Type :=
| PrivateDomain (domain scope : string) (availability_zone : option string)
| PublicDomain (domain scope : string) (project : option string).

Definition de_domain (d : DomainEntry) : string :=
  match d with
  | PrivateDomain domain _ _ => domain
  | PublicDomain domain _ _ => domain
  end.

Definition _prepare_domain_entry (ctx : Context) (domain : string)
  : M DomainEntry :=
  domainref <- db_dnsdomain_get ctx domain ;;
  match domainref with
  | None => raise (OtherError "TypeError")
  | Some domainref =>
      let scope := dd_scope domainref in
      if String.eqb scope "private"
      then ret (PrivateDomain domain scope (dd_availability_zone domainref))
      else ret (PublicDomain domain scope (dd_project_id domainref))
  end.

Definition get_dns_domains (ctx : Context) : M (list DomainEntry) :=
  db_domain_list <- db_dnsdomain_list ctx ;;
  floating_driver_domain_list <- dns_manager Dns_floating_get_domains ;;
  instance_driver_domain_list <- dns_manager Dns_instance_get_domains ;;
  fold_m db_domain_list []
    (fun domains db_domain =>
       if str_in db_domain floating_driver_domain_list
          || str_in db_domain instance_driver_domain_list
       then
         domain_entry <- _prepare_domain_entry ctx db_domain ;;
         (* [if domain_entry:] holds, the entry is a non-empty dict *)
         ret (domains ++ [domain_entry])
       else
         LOG LogWarn
           "Database inconsistency: DNS domain |%s| is registered in the Nova db but not visible to either the floating or instance DNS driver. It will be ignored."
           [Some db_domain] ;;
         ret domains).

Definition get_dns_entries_by_address (ctx : Context)
    (address domain : string) : M (list string) :=
  dns_manager (Dns_floating_get_entries_by_address address domain).

Definition delete_dns_entry (ctx : Context) (name domain : string) : M unit :=
  dns_manager (Dns_floating_delete_entry name domain) ;; ret tt.

Definition _delete_all_entries_for_ip (ctx : Context) (address : string)
  : M unit :=
  domain_list <- get_dns_domains ctx ;;
  for_each domain_list
    (fun domain =>
       names <- get_dns_entries_by_address ctx address (de_domain domain) ;;
       for_each names
         (fun name => delete_dns_entry ctx name (de_domain domain))).

(** *** Deallocation *)

(** [deallocate_floating_ip]: returns a floating ip to the pool. *)
Definition deallocate_floating_ip (ctx : Context) (address : string)
    (affect_auto_assigned : bool) : M unit :=
  client_exceptions is_FloatingIpNotFoundForAddress
    (floating_ip <- db_floating_ip_get_by_address ctx address ;;
     (* handle auto_assigned *)
     if negb affect_auto_assigned && fl_auto_assigned floating_ip
     then ret tt
     else
       let use_quota := negb (fl_auto_assigned floating_ip) in
       (* make sure project owns this floating ip (allocated) *)
       _floating_ip_owned_by_project ctx floating_ip ;;
       (* make sure floating ip is not associated *)
       if truthy_opt_int (fl_fixed_ip_id floating_ip)
       then raise (FloatingIpAssociated (fl_address floating_ip))
       else
         (* clean up any associated DNS entries *)
         _delete_all_entries_for_ip ctx (fl_address floating_ip) ;;
         notify ctx "network.floating_ip.deallocate"
           [("project_id", fl_project_id floating_ip);
            ("floating_ip", Some (fl_address floating_ip))] ;;
         (* Get reservations... *)
         reservations <-
           try_except
             (if use_quota
              then r <- QUOTAS_reserve ctx (-1) ;; ret (Some r)
              else ret None)
             (fun _ =>
                Some (LOG LogException
                        "Failed to update usages deallocating floating IP" [] ;;
                      ret None)) ;;
         db_floating_ip_deallocate ctx address ;;
         (* Commit the reservations *)
         if truthy_opt_list reservations
         then r <- local "reservations" reservations ;; QUOTAS_commit ctx r
         else ret tt).

(** *** Disassociation *)

(** [_disassociate_floating_ip]: performs db and driver calls to
    disassociate floating ip.  The body runs under
    [@utils.synchronized(unicode(address))], which has no effect in a
    sequential run. *)
Definition _disassociate_floating_ip (ctx : Context) (address : string)
    (interface : option string) (instance_uuid : option string) : M unit :=
  let interface := str_or (CONF_public_interface env) interface in
  fixed <- db_floating_ip_disassociate ctx address ;;
  match fixed with
  | None =>
      (* NOTE(vish): ip was already disassociated *)
      ret tt
  | Some (fixed, network) =>
      (if truthy_opt_str interface
       then
         (* go go driver time *)
         l3driver
           (L3_remove_floating_ip address (fx_address fixed) interface network)
       else ret tt) ;;
      notify ctx "network.floating_ip.disassociate"
        [("project_id", project_id ctx); ("instance_id", instance_uuid);
         ("floating_ip", Some address)]
  end.

(** [disassociate_floating_ip]: disassociates a floating ip from its fixed
    ip, rpc'ing to the correct host if this manager is not it. *)
Definition disassociate_floating_ip (ctx : Context) (address : string)
    (affect_auto_assigned : bool) : M unit :=
  client_exceptions is_FloatingIpNotFoundForAddress
    (floating_ip <- db_floating_ip_get_by_address ctx address ;;
     (* handle auto assigned *)
     if negb affect_auto_assigned && fl_auto_assigned floating_ip
     then raise CannotDisassociateAutoAssignedFloatingIP
     else
       (* make sure project owns this floating ip (allocated) *)
       _floating_ip_owned_by_project ctx floating_ip ;;
       (* make sure floating ip is associated *)
       if negb (truthy_opt_int (fl_fixed_ip_id floating_ip))
       then raise (FloatingIpNotAssociated (fl_address floating_ip))
       else
         fixed_ip <- db_fixed_ip_get ctx (fl_fixed_ip_id floating_ip) false ;;
         let fixed_ip := fst fixed_ip in
         (* send to correct host, unless i'm the correct host *)
         network <- db_network_get (elevated ctx) (fx_network_id fixed_ip) ;;
         let interface := fl_interface floating_ip in
         target <-
           (if nw_multi_host network
            then
              instance <-
                db_instance_get_by_uuid ctx (fx_instance_uuid fixed_ip) ;;
              service <-
                db_service_get_by_host_and_topic (elevated ctx)
                  (in_host instance) (CONF_network_topic env) ;;
              up <-
                match service with
                | Some service => servicegroup_api_service_is_up service
                | None => ret false
                end ;;
              if up
              then ret (in_host instance, interface)
              else
                (* NOTE(vish): if the service is down just deallocate the
                   data locally. Set the host to local so the call will not
                   go over rpc and set interface to None so the teardown in
                   the driver does not happen. *)
                ret (self_host env, None)
            else ret (nw_host network, interface)) ;;
         let '(host, interface) := target in
         if opt_str_eqb host (self_host env)
         then
           (* i'm the correct host *)
           _disassociate_floating_ip ctx address interface
             (fx_instance_uuid fixed_ip)
         else
           (* send to correct host *)
           network_rpcapi ctx
             (Rpc_disassociate_floating_ip address interface host
                (fx_instance_uuid fixed_ip))).

(** *** Association *)

(** [_associate_floating_ip]: performs db and driver calls to associate
    floating ip and fixed ip, under
    [@utils.synchronized(unicode(floating_address))]. *)
Definition _associate_floating_ip (ctx : Context)
    (floating_address fixed_address : string) (interface : option string)
    (instance_uuid : option string) : M unit :=
  let interface := str_or (CONF_public_interface env) interface in
  (* associate floating ip *)
  fixed <-
    db_floating_ip_fixed_ip_associate ctx floating_address fixed_address
      (self_host env) ;;
  match fixed with
  | None =>
      (* NOTE(vish): ip was already associated *)
      ret tt
  | Some (_, network) =>
      try_except
        (* gogo driver time *)
        (l3driver
           (L3_add_floating_ip floating_address fixed_address interface
              network))
        (fun e =>
           match e with
           | ProcessExecutionError message =>
               Some (db_floating_ip_disassociate ctx floating_address ;;
                     if str_contains "Cannot find device" message
                     then
                       LOG LogError "Interface %(interface)s not found"
                         [interface] ;;
                       raise (NoFloatingIpInterface interface)
                     else raise e)
           | _ => None
           end) ;;
      notify ctx "network.floating_ip.associate"
        [("project_id", project_id ctx); ("instance_id", instance_uuid);
         ("floating_ip", Some floating_address)]
  end.

(** [associate_floating_ip]: associates a floating ip with a fixed ip,
    rpc'ing to the correct host if this manager is not it.  Returns the
    uuid of the instance the floating ip was associated with before. *)
Definition associate_floating_ip (ctx : Context)
    (floating_address fixed_address : string) (affect_auto_assigned : bool)
  : M (option string) :=
  client_exceptions is_FloatingIpNotFoundForAddress
    (floating_ip <- db_floating_ip_get_by_address ctx floating_address ;;
     (* handle auto_assigned *)
     if negb affect_auto_assigned && fl_auto_assigned floating_ip
     then ret None
     else
       (* make sure project owns this floating ip (allocated) *)
       _floating_ip_owned_by_project ctx floating_ip ;;
       (* the method from [fixed_ip = fixed_ip_get_by_address(...)] on *)
       let bind_to_fixed (orig_instance_uuid : option string)
         : M (option string) :=
         fixed_ip <- db_fixed_ip_get_by_address ctx fixed_address ;;
         (* send to correct host, unless i'm the correct host *)
         network <- db_network_get (elevated ctx) (fx_network_id fixed_ip) ;;
         host <-
           (if nw_multi_host network
            then
              instance <-
                db_instance_get_by_uuid ctx (fx_instance_uuid fixed_ip) ;;
              ret (in_host instance)
            else ret (nw_host network)) ;;
         let interface := fl_interface floating_ip in
         (if opt_str_eqb host (self_host env)
          then
            (* i'm the correct host *)
            _associate_floating_ip ctx floating_address fixed_address
              interface (fx_instance_uuid fixed_ip)
          else
            (* send to correct host *)
            network_rpcapi ctx
              (Rpc_associate_floating_ip floating_address fixed_address
                 interface host (fx_instance_uuid fixed_ip))) ;;
         ret orig_instance_uuid
       in
       (* disassociate any already associated *)
       if truthy_opt_int (fl_fixed_ip_id floating_ip)
       then
         (* find previously associated instance *)
         fixed_ip <- db_fixed_ip_get ctx (fl_fixed_ip_id floating_ip) false ;;
         let fixed_ip := fst fixed_ip in
         if String.eqb (fx_address fixed_ip) fixed_address
         then
           (* NOTE(vish): already associated to this address *)
           ret None
         else
           disassociate_floating_ip ctx floating_address false ;;
           bind_to_fixed (fx_instance_uuid fixed_ip)
       else bind_to_fixed None).

(** *** Migration *)

Definition _is_stale_floating_ip_address (ctx : Context)
    (floating_ip : FloatingIp) : M bool :=
  not_owned <-
    try_except
      (_floating_ip_owned_by_project ctx floating_ip ;; ret false)
      (fun e =>
         match e with
         | NotAuthorized => Some (ret true)
         | _ => None
         end) ;;
  if not_owned
  then ret true
  else ret (if truthy_opt_int (fl_fixed_ip_id floating_ip)
            then false else true).

(** The test both migration phases start with:
    [not floating_addresses or (source and source == dest)]. *)
Definition nothing_to_migrate (floating_addresses : list string)
    (source dest : option string) : bool :=
  negb (truthy_list floating_addresses)
  || (truthy_opt_str source && opt_str_eqb source dest).

(** The warnings of the two phases for an address they skip. *)
Definition stale_warning_start : string :=
  "Floating ip address |%(address)s| no longer belongs to instance %(instance_uuid)s. Will notmigrate it ".

Definition stale_warning_finish : string :=
  "Floating ip address |%(address)s| no longer belongs to instance %(instance_uuid)s. Will notsetup it.".

(** The body of the loop of [migrate_instance_start], for one address. *)
Definition migrate_instance_start_address (ctx : Context)
    (instance_uuid : string) (address : string) : M unit :=
  floating_ip <- db_floating_ip_get_by_address ctx address ;;
  stale <- _is_stale_floating_ip_address ctx floating_ip ;;
  if stale
  then
    LOG LogWarn stale_warning_start [Some address; Some instance_uuid]
    (* continue *)
  else
    let interface :=
      str_or (CONF_public_interface env) (fl_interface floating_ip) in
    fixed_ip <- db_fixed_ip_get ctx (fl_fixed_ip_id floating_ip) true ;;
    let '(fixed_ip, network) := fixed_ip in
    l3driver
      (L3_remove_floating_ip (fl_address floating_ip) (fx_address fixed_ip)
         interface network) ;;
    (* NOTE(ivoks): Destroy conntrack entries on source compute host. *)
    l3driver (L3_clean_conntrack (fx_address fixed_ip)) ;;
    (* NOTE(wenjianhn): Make this address will not be bound to public
       interface when restarts nova-network on dest compute node *)
    db_floating_ip_update ctx (fl_address floating_ip) None.

(** [migrate_instance_start]; the arguments [rxtx_factor] and [project_id]
    are not used by the method and are left out. *)
Definition migrate_instance_start (ctx : Context) (instance_uuid : string)
    (floating_addresses : list string) (source dest : option string)
  : M unit :=
  (* We only care if floating_addresses are provided and we're switching
     hosts *)
  if nothing_to_migrate floating_addresses source dest
  then ret tt
  else
    LOG LogInfo "Starting migration network for instance %(instance_uuid)s"
      [Some instance_uuid] ;;
    for_each floating_addresses
      (migrate_instance_start_address ctx instance_uuid).

(** The body of the loop of [migrate_instance_finish], for one address. *)
Definition migrate_instance_finish_address (ctx : Context)
    (instance_uuid : string) (dest : option string) (address : string)
  : M unit :=
  floating_ip <- db_floating_ip_get_by_address ctx address ;;
  stale <- _is_stale_floating_ip_address ctx floating_ip ;;
  if stale
  then
    LOG LogWarn stale_warning_finish [Some address; Some instance_uuid]
    (* continue *)
  else
    db_floating_ip_update ctx (fl_address floating_ip) dest ;;
    let interface :=
      str_or (CONF_public_interface env) (fl_interface floating_ip) in
    fixed_ip <- db_fixed_ip_get ctx (fl_fixed_ip_id floating_ip) true ;;
    let '(fixed_ip, network) := fixed_ip in
    l3driver
      (L3_add_floating_ip (fl_address floating_ip) (fx_address fixed_ip)
         interface network).

(** [migrate_instance_finish]; [rxtx_factor] and [project_id] are left out
    as above. *)
Definition migrate_instance_finish (ctx : Context) (instance_uuid : string)
    (floating_addresses : list string) (host source dest : option string)
  : M unit :=
  let dest :=
    if truthy_opt_str host && negb (truthy_opt_str dest) then host else dest
  in
  if nothing_to_migrate floating_addresses source dest
  then ret tt
  else
    LOG LogInfo "Finishing migration network for instance %(instance_uuid)s"
      [Some instance_uuid] ;;
    for_each floating_addresses
      (migrate_instance_finish_address ctx instance_uuid dest).

End Manager.

(** ** Reading runs: what a trace and a store show *)

(** The result and the final world of a run. *)
Definition result_of {A} (run : Res A * World) : Res A := fst run.
Definition world_of {A} (run : Res A * World) : World := snd run.

(** The calls made to the L3 driver, in order. *)
Definition driver_calls (evs : list Event) : list L3Call :=
  flat_map (fun e => match e with EvL3 c _ => [c] | _ => [] end) evs.

(** The floating addresses for which [add_floating_ip] was called. *)
Definition added_addresses (evs : list Event) : list string :=
  flat_map
    (fun e =>
       match e with
       | EvL3 (L3_add_floating_ip a _ _ _) _ => [a]
       | _ => []
       end) evs.

(** The floating addresses for which [remove_floating_ip] was called. *)
Definition removed_addresses (evs : list Event) : list string :=
  flat_map
    (fun e =>
       match e with
       | EvL3 (L3_remove_floating_ip a _ _ _) _ => [a]
       | _ => []
       end) evs.

(** The store calls of a trace. *)
Definition store_calls (evs : list Event) : list DbCall :=
  flat_map (fun e => match e with EvDb _ c _ => [c] | _ => [] end) evs.

(** The quota calls of a trace that settle a reservation: commits that
    returned, and rollbacks. *)
Definition commits_of (h : Handle) (evs : list Event) : nat :=
  List.length
    (filter
       (fun e =>
          match e with
          | EvQuotaCommit _ h' None =>
              if list_eq_dec string_dec h h' then true else false
          | _ => false
          end) evs).

Definition rollbacks_of (h : Handle) (evs : list Event) : nat :=
  List.length
    (filter
       (fun e =>
          match e with
          | EvQuotaRollback _ h' _ =>
              if list_eq_dec string_dec h h' then true else false
          | _ => false
          end) evs).

(** The addresses a migration phase skipped with its warning: the
    [LOG.warn] calls with that message, whose first argument is the
    address. *)
Definition skipped_addresses (warning : string) (evs : list Event)
  : list string :=
  flat_map
    (fun e =>
       match e with
       | EvLog LogWarn message (Some a :: _) =>
           if String.eqb message warning then [a] else []
       | _ => []
       end) evs.

(** What [_floating_ip_owned_by_project] checks, and what
    [_is_stale_floating_ip_address] answers, as functions of the record. *)
Definition owned_by (ctx : Context) (floating_ip : FloatingIp) : bool :=
  is_admin ctx || opt_str_eqb (fl_project_id floating_ip) (project_id ctx).

Definition stale (ctx : Context) (floating_ip : FloatingIp) : bool :=
  negb (owned_by ctx floating_ip)
  || negb (truthy_opt_int (fl_fixed_ip_id floating_ip)).

(** Staleness of an address in a store; an address without a record is
    not stale (its lookup raises). *)
Definition stale_address (ctx : Context) (st : Store) (address : string)
  : bool :=
  match StoreGateway.find_floating st address with
  | Some f => stale ctx f
  | None => false
  end.

(** Two stores that differ at most in the [host] of floating IPs. *)
Definition same_but_hosts (st st' : Store) : Prop :=
  fixed_ips st' = fixed_ips st /\
  networks st' = networks st /\
  forall a,
    option_map (StoreGateway.set_host None) (StoreGateway.find_floating st' a)
    = option_map (StoreGateway.set_host None)
        (StoreGateway.find_floating st a).

(** The store has a record for the address and, when the record is not
    stale for the caller, the fixed IP it is bound to. *)
Definition recorded (ctx : Context) (st : Store) (address : string) : Prop :=
  exists f,
    StoreGateway.find_floating st address = Some f /\
    (stale ctx f = false ->
     exists x, StoreGateway.find_fixed st (fl_fixed_ip_id f) = Some x).

(** The [host] field the store records for an address. *)
Definition recorded_host (st : Store) (address : string)
  : option (option string) :=
  option_map fl_host (StoreGateway.find_floating st address).

(** The store answers every call as [StoreGateway] does. *)
Definition db_reliable (env : Env) : Prop :=
  forall ctx call w, db_fault env ctx call w = None.

(** The L3 driver accepts every call. *)
Definition driver_reliable (env : Env) : Prop :=
  forall call w, l3driver_call env call w = None.

(** ** A small deployment, for concrete runs *)

Module Example.

Definition projA : Context := {| is_admin := false; project_id := Some "projA" |}.
Definition projB : Context := {| is_admin := false; project_id := Some "projB" |}.
Definition nobody : Context := {| is_admin := false; project_id := None |}.

Definition store : Store :=
  {| floating_ips :=
       [ mkFloatingIp "172.24.4.1" "nova" (Some "projA") (Some 1) false
           (Some "host1") None;
         mkFloatingIp "172.24.4.2" "nova" (Some "projA") None false None None;
         mkFloatingIp "172.24.4.3" "nova" None None false None None;
         mkFloatingIp "172.24.4.4" "nova" (Some "projA") (Some 2) true
           (Some "host1") None;
         mkFloatingIp "172.24.4.5" "nova" (Some "projA") (Some 3) false
           (Some "host2") None ];
     fixed_ips :=
       [ mkFixedIp 1 "10.0.0.5" (Some "uuid-1") (Some 1);
         mkFixedIp 2 "10.0.0.6" (Some "uuid-2") (Some 1);
         mkFixedIp 3 "10.0.1.7" (Some "uuid-3") (Some 2);
         mkFixedIp 4 "10.0.0.8" (Some "uuid-1") (Some 1) ];
     networks :=
       [ mkNetwork 1 (Some "host1") false;
         mkNetwork 2 None true ];
     instances :=
       [ mkInstance "uuid-1" (Some "host1");
         mkInstance "uuid-2" (Some "host1");
         mkInstance "uuid-3" (Some "host2") ];
     services := [ mkService (Some "host2") "network" ];
     dnsdomains := [] |}.

Definition world : World := {| w_store := store; w_trace := [] |}.

(** A manager on [host1] whose collaborators behave as given. *)
Definition manager (public_interface : string)
    (fault : Context -> DbCall -> World -> option exn)
    (reserve : Context -> Z -> World -> Res Handle)
    (l3 : L3Call -> World -> option string)
    (up : bool) : Env :=
  {| self_host := Some "host1";
     CONF_public_interface := public_interface;
     CONF_default_floating_pool := "nova";
     CONF_network_topic := "network";
     db_fault := fault;
     quota_reserve := reserve;
     quota_commit := fun _ _ _ => None;
     quota_rollback := fun _ _ _ => None;
     l3driver_call := l3;
     notifier_notify := fun _ _ _ _ => None;
     network_rpcapi_call := fun _ _ w => (None, w_store w);
     dns_call := fun _ _ => Ok [];
     service_is_up := fun _ _ => up;
     client_exception := ClientException |}.

Definition no_fault (ctx : Context) (call : DbCall) (w : World)
  : option exn := None.

Definition reserve_ok (ctx : Context) (delta : Z) (w : World) : Res Handle :=
  Ok ["reservation-1"].

Definition reserve_over_quota (ctx : Context) (delta : Z) (w : World)
  : Res Handle := Raise OverQuota.

Definition l3_ok (call : L3Call) (w : World) : option string := None.

(** Everything works; [CONF.public_interface] has its default. *)
Definition healthy : Env := manager "eth0" no_fault reserve_ok l3_ok true.

(** The project is at its quota. *)
Definition at_quota : Env :=
  manager "eth0" no_fault reserve_over_quota l3_ok true.

(** The store fails the release of an address. *)
Definition release_fails : Env :=
  manager "eth0"
    (fun _ call _ =>
       match call with
       | Db_floating_ip_deallocate _ => Some (OtherError "DBError")
       | _ => None
       end)
    reserve_ok l3_ok true.

(** The public interface does not exist on the host. *)
Definition no_device : Env :=
  manager "eth0" no_fault reserve_ok
    (fun call _ =>
       match call with
       | L3_add_floating_ip _ _ _ _ =>
           Some "Unexpected error while running command. Stderr: Cannot find device eth0"
       | _ => None
       end)
    true.

(** The network service of every other host is down. *)
Definition peers_down : Env := manager "eth0" no_fault reserve_ok l3_ok false.

(** As [peers_down], with no public interface configured. *)
Definition peers_down_unconfigured : Env :=
  manager EmptyString no_fault reserve_ok l3_ok false.

End Example.

(** ** More ways to read a run *)

(** The calls to the quota engine. *)
Definition is_quota_event (e : Event) : bool :=
  match e with
  | EvQuotaReserve _ _ _ | EvQuotaCommit _ _ _ | EvQuotaRollback _ _ _ => true
  | _ => false
  end.

(** What the DNS cleanup may do: call the DNS managers, read the domain
    table, and log. *)
Definition is_dns_event (e : Event) : bool :=
  match e with
  | EvDns _ _ | EvLog _ _ _ => true
  | EvDb _ Db_dnsdomain_list _ | EvDb _ (Db_dnsdomain_get _) _ => true
  | _ => false
  end.

(** A computation that leaves the store alone and adds to the trace only
    events of one kind. *)
Definition emits_only {A} (kind : Event -> bool) (m : M A) : Prop :=
  forall w,
    exists r evs,
      m w = (r, {| w_store := w_store w; w_trace := w_trace w ++ evs |}) /\
      forallb kind evs = true.

(** What [LOG.debug] is given: the message and the value it shows. *)
Inductive DebugRecord : Type :=
| DebugFixedIpNotFound (fixed_ip_id : option Z)
| DebugInterfaceNotFound (interface : option string).

(** ** More deployments, for concrete runs *)

Module Scenario.

Definition with_notifier
    (notifier :
       Context -> string -> list (string * option string) -> World ->
       option exn)
    (env : Env) : Env :=
  {| self_host := self_host env;
     CONF_public_interface := CONF_public_interface env;
     CONF_default_floating_pool := CONF_default_floating_pool env;
     CONF_network_topic := CONF_network_topic env;
     db_fault := db_fault env;
     quota_reserve := quota_reserve env;
     quota_commit := quota_commit env;
     quota_rollback := quota_rollback env;
     l3driver_call := l3driver_call env;
     notifier_notify := notifier;
     network_rpcapi_call := network_rpcapi_call env;
     dns_call := dns_call env;
     service_is_up := service_is_up env;
     client_exception := client_exception env |}.

Definition with_host (host : option string) (env : Env) : Env :=
  {| self_host := host;
     CONF_public_interface := CONF_public_interface env;
     CONF_default_floating_pool := CONF_default_floating_pool env;
     CONF_network_topic := CONF_network_topic env;
     db_fault := db_fault env;
     quota_reserve := quota_reserve env;
     quota_commit := quota_commit env;
     quota_rollback := quota_rollback env;
     l3driver_call := l3driver_call env;
     notifier_notify := notifier_notify env;
     network_rpcapi_call := network_rpcapi_call env;
     dns_call := dns_call env;
     service_is_up := service_is_up env;
     client_exception := client_exception env |}.

Definition with_driver (l3 : L3Call -> World -> option string) (env : Env)
  : Env :=
  {| self_host := self_host env;
     CONF_public_interface := CONF_public_interface env;
     CONF_default_floating_pool := CONF_default_floating_pool env;
     CONF_network_topic := CONF_network_topic env;
     db_fault := db_fault env;
     quota_reserve := quota_reserve env;
     quota_commit := quota_commit env;
     quota_rollback := quota_rollback env;
     l3driver_call := l3;
     notifier_notify := notifier_notify env;
     network_rpcapi_call := network_rpcapi_call env;
     dns_call := dns_call env;
     service_is_up := service_is_up env;
     client_exception := client_exception env |}.

Definition with_dns (dns : DnsCall -> World -> Res (list string)) (env : Env)
  : Env :=
  {| self_host := self_host env;
     CONF_public_interface := CONF_public_interface env;
     CONF_default_floating_pool := CONF_default_floating_pool env;
     CONF_network_topic := CONF_network_topic env;
     db_fault := db_fault env;
     quota_reserve := quota_reserve env;
     quota_commit := quota_commit env;
     quota_rollback := quota_rollback env;
     l3driver_call := l3driver_call env;
     notifier_notify := notifier_notify env;
     network_rpcapi_call := network_rpcapi_call env;
     dns_call := dns;
     service_is_up := service_is_up env;
     client_exception := client_exception env |}.

Definition with_quota (reserve : Context -> Z -> World -> Res Handle)
    (env : Env) : Env :=
  {| self_host := self_host env;
     CONF_public_interface := CONF_public_interface env;
     CONF_default_floating_pool := CONF_default_floating_pool env;
     CONF_network_topic := CONF_network_topic env;
     db_fault := db_fault env;
     quota_reserve := reserve;
     quota_commit := quota_commit env;
     quota_rollback := quota_rollback env;
     l3driver_call := l3driver_call env;
     notifier_notify := notifier_notify env;
     network_rpcapi_call := network_rpcapi_call env;
     dns_call := dns_call env;
     service_is_up := service_is_up env;
     client_exception := client_exception env |}.

(** The notifier is unreachable. *)
Definition notifier_down : Env :=
  with_notifier (fun _ _ _ _ => Some (OtherError "NotifierError"))
    Example.healthy.

(** The quota engine is unreachable. *)
Definition quota_down : Env :=
  with_quota (fun _ _ _ => Raise (OtherError "QuotaError")) Example.healthy.

(** The driver fails every removal of a floating IP. *)
Definition remove_fails : Env :=
  with_driver
    (fun call _ =>
       match call with
       | L3_remove_floating_ip _ _ _ _ => Some "Unexpected error while running command."
       | _ => None
       end)
    Example.healthy.

(** A manager on another host of the deployment. *)
Definition on_host2 : Env := with_host (Some "host2") Example.healthy.

(** The deployment with one more floating IP: auto-assigned, owned by
    projA and not bound. *)
Definition world_with_idle_auto : World :=
  {| w_store :=
       StoreGateway.with_floating_ips Example.store
         (floating_ips Example.store ++
          [mkFloatingIp "172.24.4.6" "nova" (Some "projA") None true None
             None]);
     w_trace := [] |}.

(** The deployment with three registered DNS domains. *)
Definition world_with_domains : World :=
  {| w_store :=
       {| floating_ips := floating_ips Example.store;
          fixed_ips := fixed_ips Example.store;
          networks := networks Example.store;
          instances := instances Example.store;
          services := services Example.store;
          dnsdomains :=
            [mkDnsDomain "example.org" "public" None (Some "projA");
             mkDnsDomain "stale.org" "public" None (Some "projB");
             mkDnsDomain "internal" "private" (Some "nova") None] |};
     w_trace := [] |}.

(** The floating DNS driver lists [example.org], where the address
    172.24.4.1 has two entries; the instance DNS driver lists [internal]. *)
Definition dns_listing : Env :=
  with_dns
    (fun call _ =>
       match call with
       | Dns_floating_get_domains => Ok ["example.org"]
       | Dns_instance_get_domains => Ok ["internal"]
       | Dns_floating_get_entries_by_address address domain =>
           if String.eqb address "172.24.4.1"
              && String.eqb domain "example.org"
           then Ok ["www"; "mail"]
           else Ok []
       | Dns_floating_delete_entry _ _ => Ok []
       end)
    Example.healthy.

(** The entries [dns_listing] gives for an address in a domain. *)
Definition dns_listing_entries (address domain : string) : list string :=
  if String.eqb address "172.24.4.1" && String.eqb domain "example.org"
  then ["www"; "mail"]
  else [].

(** The driver fails every [add_floating_ip], with a message that does
    not name a missing device. *)
Definition add_fails : Env :=
  with_driver
    (fun call _ =>
       match call with
       | L3_add_floating_ip _ _ _ _ => Some "Unexpected error while running command."
       | _ => None
       end)
    Example.healthy.

(** The deployment with one more floating IP on host1, bound to a fixed
    IP that the store does not have. *)
Definition world_with_dangling : World :=
  {| w_store :=
       StoreGateway.with_floating_ips Example.store
         (floating_ips Example.store ++
          [mkFloatingIp "172.24.4.7" "nova" (Some "projB") (Some 9) false
             (Some "host1") (Some "eth1")]);
     w_trace := [] |}.

(** An admin context. *)
Definition admin : Context := {| is_admin := true; project_id := None |}.

(** A listing of the floating IPs of a host, read off the store. *)
Definition list_by_host (ctx : Context) (host : option string)
  : M (list FloatingIp) :=
  fun w =>
    (Ok (filter (fun f => opt_str_eqb (fl_host f) host)
           (floating_ips (w_store w))), w).

(** The exceptions that say that a row is missing. *)
Definition row_missing (e : exn) : bool :=
  match e with
  | FloatingIpNotFoundForAddress _ | FixedIpNotFound _
  | FixedIpNotFoundForAddress _ | NetworkNotFound _ | InstanceNotFound _ =>
      true
  | _ => false
  end.

(** Debug lines that are not kept. *)
Definition debug_dropped (record : DebugRecord) : M unit := ret tt.

End Scenario.

(** A computation that adds to the trace only events of one kind; the
    store may change. *)
Definition traces_only {A} (kind : Event -> bool) (m : M A) : Prop :=
  forall w,
    exists r st evs,
      m w = (r, {| w_store := st; w_trace := w_trace w ++ evs |}) /\
      forallb kind evs = true.

(** The calls [deallocate_floating_ip] may make for an address: reads of
    the record and of the domain table, the DNS managers, the notifier, the
    log, a reservation and its commit, and the release of that address. *)
Definition deallocation_call (address : string) (e : Event) : bool :=
  match e with
  | EvDb _ (Db_floating_ip_get_by_address _) _ => true
  | EvDb _ Db_dnsdomain_list _ => true
  | EvDb _ (Db_dnsdomain_get _) _ => true
  | EvDb _ (Db_floating_ip_deallocate a) _ => String.eqb a address
  | EvDb _ _ _ => false
  | EvQuotaRollback _ _ _ => false
  | EvL3 _ _ => false
  | EvRpc _ _ => false
  | _ => true
  end.

(** The calls association and disassociation may make for a floating
    address: reads, the bind and unbind of that address, the driver's add
    and remove for it, rpc, the notifier and the log; never the quota
    engine, never an allocation, a release or an update. *)
Definition association_call (address : string) (e : Event) : bool :=
  match e with
  | EvDb _ (Db_floating_ip_fixed_ip_associate a _ _) _ => String.eqb a address
  | EvDb _ (Db_floating_ip_disassociate a) _ => String.eqb a address
  | EvDb _ (Db_floating_ip_allocate_address _ _) _ => false
  | EvDb _ (Db_floating_ip_deallocate _) _ => false
  | EvDb _ (Db_floating_ip_update _ _) _ => false
  | EvDb _ _ _ => true
  | EvL3 (L3_add_floating_ip a _ _ _) _ => String.eqb a address
  | EvL3 (L3_remove_floating_ip a _ _ _) _ => String.eqb a address
  | EvL3 (L3_clean_conntrack _) _ => false
  | EvQuotaReserve _ _ _ | EvQuotaCommit _ _ _ | EvQuotaRollback _ _ _ => false
  | EvDns _ _ => false
  | _ => true
  end.

(** The calls a migration phase may make: reads, the update of a [host]
    field to the given value, the log, and the driver calls of the phase
    ([removal]: remove and clean-conntrack; otherwise add). *)
Definition migration_call (removal : bool) (host : option string)
    (e : Event) : bool :=
  match e with
  | EvDb _ (Db_floating_ip_get_by_address _) _ => true
  | EvDb _ (Db_fixed_ip_get _ _) _ => true
  | EvDb _ (Db_floating_ip_update _ h) _ => opt_str_eqb h host
  | EvDb _ _ _ => false
  | EvL3 (L3_add_floating_ip _ _ _ _) _ => negb removal
  | EvL3 _ _ => removal
  | EvLog _ _ _ => true
  | _ => false
  end.

(** The calls to the rpc API, in order. *)
Definition rpc_calls (evs : list Event) : list RpcCall :=
  flat_map (fun e => match e with EvRpc c _ => [c] | _ => [] end) evs.

(** The peer managers answer every rpc call. *)
Definition rpc_reliable (env : Env) : Prop :=
  forall ctx call w, fst (network_rpcapi_call env ctx call w) = None.

(** The notifier takes every notification. *)
Definition notifier_reliable (env : Env) : Prop :=
  forall ctx event_type payload w,
    notifier_notify env ctx event_type payload w = None.

(** ** Reading the DNS side of a run *)

(** [db_domain in floating_driver_domain_list or db_domain in
    instance_driver_domain_list]. *)
Definition domain_visible (floating_domains instance_domains : list string)
    (domain : string) : bool :=
  str_in domain floating_domains || str_in domain instance_domains.

(** The warnings logged. *)
Definition warnings (evs : list Event) : list (list (option string)) :=
  flat_map
    (fun e => match e with EvLog LogWarn _ args => [args] | _ => [] end) evs.

(** The DNS entries deleted, as (name, domain). *)
Definition dns_deletions (evs : list Event) : list (string * string) :=
  flat_map
    (fun e =>
       match e with
       | EvDns (Dns_floating_delete_entry name domain) _ => [(name, domain)]
       | _ => []
       end) evs.

(** The domains the floating DNS manager was asked for the entries of an
    address. *)
Definition dns_lookups (evs : list Event) : list string :=
  flat_map
    (fun e =>
       match e with
       | EvDns (Dns_floating_get_entries_by_address _ domain) _ => [domain]
       | _ => []
       end) evs.

(** ** Setting up the floating IPs of a host *)

Section HostSetup.

Variable env : Env.

(** [context.get_admin_context()] *)
Variable admin_context : Context.

(** [self.db.floating_ip_get_all_by_host] *)
Variable db_floating_ip_get_all_by_host :
  Context -> option string -> M (list FloatingIp).

(** whether an exception is an [exception.NotFound] *)
Variable is_NotFound : exn -> bool.

(** [LOG.debug] *)
Variable LOG_debug : DebugRecord -> M unit.

(** The body of the loop of [init_host_floating_ips], for one floating
    IP. *)
Definition init_host_floating_ip (floating_ip : FloatingIp) : M unit :=
  let fixed_ip_id := fl_fixed_ip_id floating_ip in
  if truthy_opt_int fixed_ip_id
  then
    found <-
      try_except
        (fixed_ip <- db_fixed_ip_get env admin_context fixed_ip_id true ;;
         ret (Some fixed_ip))
        (fun e =>
           match e with
           | FixedIpNotFound _ =>
               Some (LOG_debug (DebugFixedIpNotFound fixed_ip_id) ;;
                     ret None)
           | _ => None
           end) ;;
    match found with
    | None => ret tt (* continue *)
    | Some (fixed_ip, network) =>
        let interface :=
          str_or (CONF_public_interface env) (fl_interface floating_ip) in
        try_except
          (l3driver env
             (L3_add_floating_ip (fl_address floating_ip)
                (fx_address fixed_ip) interface network))
          (fun e =>
             match e with
             | ProcessExecutionError _ =>
                 Some (LOG_debug (DebugInterfaceNotFound interface) ;;
                       raise (NoFloatingIpInterface interface))
             | _ => None
             end)
    end
  else ret tt.

(** [init_host_floating_ips]: configures floating ips owned by host. *)
Definition init_host_floating_ips : M unit :=
  listed <-
    try_except
      (floating_ips <-
         db_floating_ip_get_all_by_host admin_context (self_host env) ;;
       ret (Some floating_ips))
      (fun e => if is_NotFound e then Some (ret None) else None) ;;
  match listed with
  | None => ret tt (* return *)
  | Some floating_ips => for_each floating_ips init_host_floating_ip
  end.

End HostSetup.

(** A computation that returns, leaves the store alone and adds only log
    lines to the trace. *)
Definition is_log_event (e : Event) : bool :=
  match e with EvLog _ _ _ => true | _ => false end.

Definition only_logs {A} (m : M A) : Prop :=
  forall w,
    exists a evs,
      m w = (Ok a, {| w_store := w_store w; w_trace := w_trace w ++ evs |}) /\
      forallb is_log_event evs = true.

(** The driver call [init_host_floating_ips] owes a floating IP: an
    [add_floating_ip] when the floating IP is bound to a fixed IP that the
    store has, on the configured public interface or else the floating IP's
    own. *)
Definition host_setup_calls (env : Env) (st : Store) (f : FloatingIp)
  : list L3Call :=
  if truthy_opt_int (fl_fixed_ip_id f)
  then
    match StoreGateway.find_fixed st (fl_fixed_ip_id f) with
    | Some x =>
        [L3_add_floating_ip (fl_address f) (fx_address x)
           (str_or (CONF_public_interface env) (fl_interface f))
           (StoreGateway.find_network st (fx_network_id x))]
    | None => []
    end
  else [].

(** * Properties *)

(** ** Running the monad *)

Lemma bind_ok {A B} (m : M A) (k : A -> M B) (w w' : World) (a : A) :
  m w = (Ok a, w') -> bind m k w = k a w'.
Proof. unfold bind; intros ->; reflexivity. Qed.

Lemma bind_assoc {A B C} (m : M A) (k1 : A -> M B) (k2 : B -> M C)
    (w0 : World) :
  bind (bind m k1) k2 w0 = bind m (fun a => bind (k1 a) k2) w0.
Proof. unfold bind. destruct (m w0) as [[a|e] w1]; reflexivity. Qed.

Lemma bind_raise {A B} (m : M A) (k : A -> M B) (w w' : World) (e : exn) :
  m w = (Raise e, w') -> bind m k w = (Raise e, w').
Proof. unfold bind; intros ->; reflexivity. Qed.

Lemma events_since_app (w : World) (st : Store) (evs : list Event) :
  events_since w {| w_store := st; w_trace := w_trace w ++ evs |} = evs.
Proof.
  unfold events_since; simpl.
  rewrite skipn_app, skipn_all, Nat.sub_diag; reflexivity.
Qed.

Lemma events_since_refl (w : World) : events_since w w = [].
Proof. unfold events_since; apply skipn_all. Qed.

Lemma events_since_emit (w : World) (e : Event) :
  events_since w (emit e w) = [e].
Proof. unfold emit; apply events_since_app. Qed.

Lemma opt_str_eqb_eq (a b : option string) :
  opt_str_eqb a b = true <-> a = b.
Proof.
  destruct a as [x|], b as [y|]; simpl; split; intro H;
    try discriminate; try reflexivity.
  - apply String.eqb_eq in H; congruence.
  - injection H as ->; apply String.eqb_refl.
Qed.

Lemma opt_str_eqb_neq (a b : option string) :
  opt_str_eqb a b = false <-> a <> b.
Proof.
  rewrite <- opt_str_eqb_eq.
  destruct (opt_str_eqb a b); split; congruence.
Qed.

(** Normalises the worlds produced by a run. *)
Ltac tidy :=
  unfold LOG, emit, set_store, ret, raise; simpl;
  rewrite <- ?app_assoc; simpl.

(** ** The store calls *)

Section Steps.

Variable env : Env.

Lemma db_read_answer {A} (ctx : Context) (call : DbCall)
    (answer : Store -> Res A) (w : World) :
  db_fault env ctx call w = None ->
  db_read env ctx call answer w =
    (answer (w_store w), emit (EvDb ctx call (raised (answer (w_store w)))) w).
Proof. unfold db_read; intros ->; reflexivity. Qed.

Lemma fetch_floating_ip (ctx : Context) (address : string) (w : World)
    (f : FloatingIp) :
  db_fault env ctx (Db_floating_ip_get_by_address address) w = None ->
  StoreGateway.find_floating (w_store w) address = Some f ->
  db_floating_ip_get_by_address env ctx address w =
    (Ok f, emit (EvDb ctx (Db_floating_ip_get_by_address address) None) w).
Proof.
  intros Hf Hs. unfold db_floating_ip_get_by_address.
  rewrite db_read_answer by assumption.
  unfold StoreGateway.floating_ip_get_by_address; rewrite Hs; reflexivity.
Qed.

Lemma fetch_fixed_ip (ctx : Context) (id : option Z) (get_network : bool)
    (w : World) (x : FixedIp) :
  db_fault env ctx (Db_fixed_ip_get id get_network) w = None ->
  StoreGateway.find_fixed (w_store w) id = Some x ->
  db_fixed_ip_get env ctx id get_network w =
    (Ok (StoreGateway.with_network (w_store w) x),
     emit (EvDb ctx (Db_fixed_ip_get id get_network) None) w).
Proof.
  intros Hf Hs. unfold db_fixed_ip_get.
  rewrite db_read_answer by assumption.
  unfold StoreGateway.fixed_ip_get; rewrite Hs; reflexivity.
Qed.

(** ** The ownership check *)

Lemma owner_passes (ctx : Context) (f : FloatingIp) (w : World) :
  owned_by ctx f = true ->
  _floating_ip_owned_by_project ctx f w = (Ok tt, w).
Proof.
  unfold owned_by, _floating_ip_owned_by_project.
  destruct (is_admin ctx); simpl; [reflexivity|].
  intros ->; reflexivity.
Qed.

Lemma stranger_fails (ctx : Context) (f : FloatingIp) (w : World) :
  owned_by ctx f = false ->
  exists message args,
    _floating_ip_owned_by_project ctx f w =
      (Raise NotAuthorized, emit (EvLog LogWarn message args) w).
Proof.
  unfold owned_by, _floating_ip_owned_by_project.
  destruct (is_admin ctx); simpl; [discriminate|].
  intros ->; simpl.
  destruct (fl_project_id f); eexists; eexists; reflexivity.
Qed.

(** ** The auto-assigned guard of disassociation *)

Lemma disassociate_guard_raises (ctx : Context) (address : string)
    (w : World) (fip : FloatingIp) :
  db_fault env ctx (Db_floating_ip_get_by_address address) w = None ->
  StoreGateway.find_floating (w_store w) address = Some fip ->
  fl_auto_assigned fip = true ->
  disassociate_floating_ip env ctx address false w =
    (Raise CannotDisassociateAutoAssignedFloatingIP,
     emit (EvDb ctx (Db_floating_ip_get_by_address address) None) w).
Proof.
  intros Hfault Hfip Hauto.
  unfold disassociate_floating_ip, client_exceptions.
  rewrite (bind_ok _ _ _ _ _ (fetch_floating_ip ctx address w fip Hfault Hfip)).
  rewrite Hauto; reflexivity.
Qed.

End Steps.

(** ** Allocation at quota *)

(** C2: if the quota reservation of [allocate_floating_ip] fails with
    [OverQuota], the call raises [FloatingIpLimitExceeded]; the store is
    left as it was, and the only collaborator called is the quota engine
    (the store is not called at all), so no floating IP becomes allocated
    to the project. *)
Theorem allocate_over_quota_leaves_store (env : Env) (ctx : Context)
    (project : option string) (pool : option string) (w : World)
    (Hquota : quota_reserve env ctx 1 w = Raise OverQuota) :
  let run := allocate_floating_ip env ctx project false pool w in
  result_of run = Raise FloatingIpLimitExceeded /\
  w_store (world_of run) = w_store w /\
  events_since w (world_of run) =
    [EvQuotaReserve ctx 1 (Raise OverQuota);
     EvLog LogWarn "Quota exceeded for %(pid)s, tried to allocate floating IP"
       [project_id ctx]] /\
  store_calls (events_since w (world_of run)) = [].
Proof.
  unfold allocate_floating_ip, bind, try_except, QUOTAS_reserve; simpl.
  rewrite Hquota; tidy.
  unfold result_of, world_of; simpl.
  rewrite events_since_app; auto.
Qed.

Lemma allocate_over_quota_leaves_store_witness :
  let run :=
    allocate_floating_ip Example.at_quota Example.projA (Some "projA") false
      None Example.world in
  result_of run = Raise FloatingIpLimitExceeded /\
  w_store (world_of run) = Example.store /\
  events_since Example.world (world_of run) =
    [EvQuotaReserve Example.projA 1 (Raise OverQuota);
     EvLog LogWarn "Quota exceeded for %(pid)s, tried to allocate floating IP"
       [Some "projA"]] /\
  store_calls (events_since Example.world (world_of run)) = [].
Proof.
  apply (allocate_over_quota_leaves_store Example.at_quota Example.projA
           (Some "projA") None Example.world).
  reflexivity.
Defined.

(** C7, as the code has it: [disassociate_floating_ip] on an auto-assigned
    floating IP without [affect_auto_assigned] raises
    [CannotDisassociateAutoAssignedFloatingIP]; it has only read the
    record, so the store is unchanged and no driver was called. *)
Theorem disassociate_auto_assigned_raises (env : Env) (ctx : Context)
    (address : string) (w : World) (fip : FloatingIp)
    (Hfault : db_fault env ctx (Db_floating_ip_get_by_address address) w = None)
    (Hfip : StoreGateway.find_floating (w_store w) address = Some fip)
    (Hauto : fl_auto_assigned fip = true) :
  disassociate_floating_ip env ctx address false w =
    (Raise CannotDisassociateAutoAssignedFloatingIP,
     emit (EvDb ctx (Db_floating_ip_get_by_address address) None) w).
Proof.
  apply (disassociate_guard_raises env ctx address w fip); assumption.
Qed.

Lemma disassociate_auto_assigned_raises_witness :
  disassociate_floating_ip Example.healthy Example.projA "172.24.4.4" false
    Example.world =
    (Raise CannotDisassociateAutoAssignedFloatingIP,
     emit (EvDb Example.projA (Db_floating_ip_get_by_address "172.24.4.4") None)
       Example.world).
Proof.
  apply (disassociate_auto_assigned_raises Example.healthy Example.projA
           "172.24.4.4" Example.world
           (mkFloatingIp "172.24.4.4" "nova" (Some "projA") (Some 2) true
              (Some "host1") None));
    reflexivity.
Defined.

(** C7, as stated, fails: on the auto-assigned address 172.24.4.4 the call
    without [affect_auto_assigned] is not a silent success, it raises. *)
Lemma disassociate_auto_assigned_not_silent :
  option_map fl_auto_assigned
    (StoreGateway.find_floating Example.store "172.24.4.4") = Some true /\
  result_of
    (disassociate_floating_ip Example.healthy Example.projA "172.24.4.4"
       false Example.world)
  <> Ok tt.
Proof. split; [reflexivity | discriminate]. Qed.

(** ** Ownership *)

(** C5, as the code has it: for a non-admin caller whose project differs
    from the record's owning project (so also for a caller with a project
    and a record without owner), the ownership check raises
    [NotAuthorized]; and [deallocate_floating_ip], [associate_floating_ip]
    and [disassociate_floating_ip] on such a record raise [NotAuthorized]
    with the store unchanged, provided the auto-assigned guard, which comes
    first, does not apply.  When the guard applies (the record is
    auto-assigned and [affect_auto_assigned] is not set) it answers first:
    deallocate and associate return without an error and disassociate
    raises [CannotDisassociateAutoAssignedFloatingIP], with the store
    unchanged as well. *)
Theorem stranger_not_authorized (env : Env) (ctx : Context)
    (address fixed_address : string) (affect_auto_assigned : bool)
    (w : World) (fip : FloatingIp)
    (Hadmin : is_admin ctx = false)
    (Hproject : fl_project_id fip <> project_id ctx)
    (Hfault : db_fault env ctx (Db_floating_ip_get_by_address address) w = None)
    (Hfip : StoreGateway.find_floating (w_store w) address = Some fip) :
  let guarded := negb affect_auto_assigned && fl_auto_assigned fip in
  result_of (_floating_ip_owned_by_project ctx fip w) = Raise NotAuthorized /\
  (let run := deallocate_floating_ip env ctx address affect_auto_assigned w in
   result_of run = (if guarded then Ok tt else Raise NotAuthorized) /\
   w_store (world_of run) = w_store w) /\
  (let run :=
     associate_floating_ip env ctx address fixed_address affect_auto_assigned
       w in
   result_of run = (if guarded then Ok None else Raise NotAuthorized) /\
   w_store (world_of run) = w_store w) /\
  (let run :=
     disassociate_floating_ip env ctx address affect_auto_assigned w in
   result_of run
   = (if guarded then Raise CannotDisassociateAutoAssignedFloatingIP
      else Raise NotAuthorized) /\
   w_store (world_of run) = w_store w).
Proof.
  intros guarded.
  assert (Hnot : owned_by ctx fip = false).
  { unfold owned_by; rewrite Hadmin; simpl.
    apply opt_str_eqb_neq; assumption. }
  pose proof (fetch_floating_ip env ctx address w fip Hfault Hfip) as Hfetch.
  split.
  { destruct (stranger_fails ctx fip w Hnot) as (m & a & ->); reflexivity. }
  destruct (stranger_fails ctx fip
              (emit (EvDb ctx (Db_floating_ip_get_by_address address) None) w)
              Hnot) as (m & a & Hcheck).
  subst guarded.
  destruct (negb affect_auto_assigned && fl_auto_assigned fip) eqn:Hguard.
  - repeat split.
    all: unfold deallocate_floating_ip, associate_floating_ip,
           disassociate_floating_ip, client_exceptions;
         rewrite (bind_ok _ _ _ _ _ Hfetch), Hguard; reflexivity.
  - repeat split.
    all: unfold deallocate_floating_ip, associate_floating_ip,
           disassociate_floating_ip, client_exceptions;
         rewrite (bind_ok _ _ _ _ _ Hfetch), Hguard;
         rewrite (bind_raise _ _ _ _ _ Hcheck); reflexivity.
Qed.

Lemma stranger_not_authorized_witness :
  (result_of
     (deallocate_floating_ip Example.healthy Example.projB "172.24.4.2" false
        Example.world) = Raise NotAuthorized /\
   result_of
     (associate_floating_ip Example.healthy Example.projB "172.24.4.2"
        "10.0.0.8" false Example.world) = Raise NotAuthorized /\
   result_of
     (disassociate_floating_ip Example.healthy Example.projB "172.24.4.2"
        false Example.world) = Raise NotAuthorized) /\
  (result_of
     (deallocate_floating_ip Example.healthy Example.projB "172.24.4.4" false
        Example.world) = Ok tt /\
   result_of
     (associate_floating_ip Example.healthy Example.projB "172.24.4.4"
        "10.0.0.8" false Example.world) = Ok None /\
   result_of
     (disassociate_floating_ip Example.healthy Example.projB "172.24.4.4"
        false Example.world)
   = Raise CannotDisassociateAutoAssignedFloatingIP).
Proof.
  split.
  - destruct (stranger_not_authorized Example.healthy Example.projB
                "172.24.4.2" "10.0.0.8" false Example.world
                (mkFloatingIp "172.24.4.2" "nova" (Some "projA") None false
                   None None))
      as (_ & (Hd & _) & (Ha & _) & (Hs & _));
      try reflexivity; try discriminate.
    repeat split; assumption.
  - destruct (stranger_not_authorized Example.healthy Example.projB
                "172.24.4.4" "10.0.0.8" false Example.world
                (mkFloatingIp "172.24.4.4" "nova" (Some "projA") (Some 2) true
                   (Some "host1") None))
      as (_ & (Hd & _) & (Ha & _) & (Hs & _));
      try reflexivity; try discriminate.
    repeat split; assumption.
Defined.

(** C5, as stated, fails twice.  The auto-assigned guard answers before
    the ownership check: on 172.24.4.4, which belongs to projA and is
    auto-assigned, a non-admin caller of projB gets a silent return from
    deallocate and from associate, and
    [CannotDisassociateAutoAssignedFloatingIP] from disassociate.  And the
    ownership check lets a non-admin caller without project through on the
    unowned 172.24.4.3. *)
Lemma stranger_meets_auto_assigned_guard :
  (is_admin Example.projB = false /\
   option_map fl_project_id
     (StoreGateway.find_floating Example.store "172.24.4.4")
   = Some (Some "projA") /\
   result_of
     (deallocate_floating_ip Example.healthy Example.projB "172.24.4.4" false
        Example.world) = Ok tt /\
   result_of
     (associate_floating_ip Example.healthy Example.projB "172.24.4.4"
        "10.0.0.8" false Example.world) = Ok None /\
   result_of
     (disassociate_floating_ip Example.healthy Example.projB "172.24.4.4"
        false Example.world)
   = Raise CannotDisassociateAutoAssignedFloatingIP) /\
  (is_admin Example.nobody = false /\
   result_of
     (_floating_ip_owned_by_project Example.nobody
        (mkFloatingIp "172.24.4.3" "nova" None None false None None)
        Example.world) = Ok tt).
Proof. repeat split. Qed.

(** ** Association *)

(** C4: [associate_floating_ip] on a floating IP that is already bound to
    the fixed address asked for, by a caller that passes the auto-assigned
    guard and the ownership check, returns no previous instance, leaves
    the store unchanged and calls only the store, for two reads: no driver
    call, no rpc, no notification. *)
Theorem associate_same_pair_is_noop (env : Env) (ctx : Context)
    (floating_address fixed_address : string) (affect_auto_assigned : bool)
    (w : World) (fip : FloatingIp) (fixed : FixedIp)
    (Hdb : db_reliable env)
    (Hfip : StoreGateway.find_floating (w_store w) floating_address = Some fip)
    (Hguard : negb affect_auto_assigned && fl_auto_assigned fip = false)
    (Howned : owned_by ctx fip = true)
    (Hbound : truthy_opt_int (fl_fixed_ip_id fip) = true)
    (Hfixed : StoreGateway.find_fixed (w_store w) (fl_fixed_ip_id fip)
              = Some fixed)
    (Hsame : fx_address fixed = fixed_address) :
  let run :=
    associate_floating_ip env ctx floating_address fixed_address
      affect_auto_assigned w in
  result_of run = Ok None /\
  w_store (world_of run) = w_store w /\
  events_since w (world_of run) =
    [EvDb ctx (Db_floating_ip_get_by_address floating_address) None;
     EvDb ctx (Db_fixed_ip_get (fl_fixed_ip_id fip) false) None] /\
  driver_calls (events_since w (world_of run)) = [].
Proof.
  unfold associate_floating_ip, client_exceptions.
  rewrite (bind_ok _ _ _ _ _
             (fetch_floating_ip env ctx floating_address w fip (Hdb _ _ _) Hfip)).
  rewrite Hguard.
  rewrite (bind_ok _ _ _ _ _ (owner_passes ctx fip _ Howned)).
  cbv zeta; rewrite Hbound.
  rewrite (bind_ok _ _ _ _ _
             (fetch_fixed_ip env ctx _ false
                (emit (EvDb ctx (Db_floating_ip_get_by_address floating_address)
                         None) w)
                fixed (Hdb _ _ _) Hfixed)).
  simpl. rewrite Hsame, String.eqb_refl. tidy.
  unfold result_of, world_of; simpl.
  rewrite events_since_app; auto.
Qed.

Lemma associate_same_pair_is_noop_witness :
  let run :=
    associate_floating_ip Example.healthy Example.projA "172.24.4.1"
      "10.0.0.5" false Example.world in
  result_of run = Ok None /\
  w_store (world_of run) = Example.store /\
  events_since Example.world (world_of run) =
    [EvDb Example.projA (Db_floating_ip_get_by_address "172.24.4.1") None;
     EvDb Example.projA (Db_fixed_ip_get (Some 1) false) None] /\
  driver_calls (events_since Example.world (world_of run)) = [].
Proof.
  apply (associate_same_pair_is_noop Example.healthy Example.projA
           "172.24.4.1" "10.0.0.5" false Example.world
           (mkFloatingIp "172.24.4.1" "nova" (Some "projA") (Some 1) false
              (Some "host1") None)
           (mkFixedIp 1 "10.0.0.5" (Some "uuid-1") (Some 1)));
    try reflexivity.
  intros ctx call w; reflexivity.
Defined.

(** C10: [associate_floating_ip] on an auto-assigned floating IP that is
    bound to another fixed address calls [disassociate_floating_ip] without
    [affect_auto_assigned]; so, even for a caller that passed
    [affect_auto_assigned=True] and owns the address, the call raises
    [CannotDisassociateAutoAssignedFloatingIP] and nothing is rebound: the
    store is unchanged and was only read. *)
Theorem associate_rebind_auto_assigned_raises (env : Env) (ctx : Context)
    (floating_address fixed_address : string) (w : World) (fip : FloatingIp)
    (fixed : FixedIp)
    (Hdb : db_reliable env)
    (Hfip : StoreGateway.find_floating (w_store w) floating_address = Some fip)
    (Hauto : fl_auto_assigned fip = true)
    (Howned : owned_by ctx fip = true)
    (Hbound : truthy_opt_int (fl_fixed_ip_id fip) = true)
    (Hfixed : StoreGateway.find_fixed (w_store w) (fl_fixed_ip_id fip)
              = Some fixed)
    (Hother : fx_address fixed <> fixed_address) :
  let run :=
    associate_floating_ip env ctx floating_address fixed_address true w in
  result_of run = Raise CannotDisassociateAutoAssignedFloatingIP /\
  w_store (world_of run) = w_store w /\
  events_since w (world_of run) =
    [EvDb ctx (Db_floating_ip_get_by_address floating_address) None;
     EvDb ctx (Db_fixed_ip_get (fl_fixed_ip_id fip) false) None;
     EvDb ctx (Db_floating_ip_get_by_address floating_address) None].
Proof.
  unfold associate_floating_ip, client_exceptions.
  rewrite (bind_ok _ _ _ _ _
             (fetch_floating_ip env ctx floating_address w fip (Hdb _ _ _) Hfip)).
  cbn [negb andb].
  rewrite (bind_ok _ _ _ _ _ (owner_passes ctx fip _ Howned)).
  cbv zeta; rewrite Hbound.
  rewrite (bind_ok _ _ _ _ _
             (fetch_fixed_ip env ctx _ false
                (emit (EvDb ctx (Db_floating_ip_get_by_address floating_address)
                         None) w)
                fixed (Hdb _ _ _) Hfixed)).
  unfold StoreGateway.with_network; cbn [fst].
  apply String.eqb_neq in Hother; rewrite Hother.
  rewrite (bind_raise _ _ _ _ CannotDisassociateAutoAssignedFloatingIP
             (disassociate_guard_raises env ctx floating_address
                (emit (EvDb ctx (Db_fixed_ip_get (fl_fixed_ip_id fip) false)
                         None)
                   (emit (EvDb ctx
                            (Db_floating_ip_get_by_address floating_address)
                            None) w))
                fip (Hdb _ _ _) Hfip Hauto)).
  tidy. unfold result_of, world_of; simpl.
  rewrite events_since_app; auto.
Qed.

Lemma associate_rebind_auto_assigned_raises_witness :
  let run :=
    associate_floating_ip Example.healthy Example.projA "172.24.4.4"
      "10.0.0.8" true Example.world in
  result_of run = Raise CannotDisassociateAutoAssignedFloatingIP /\
  w_store (world_of run) = Example.store /\
  events_since Example.world (world_of run) =
    [EvDb Example.projA (Db_floating_ip_get_by_address "172.24.4.4") None;
     EvDb Example.projA (Db_fixed_ip_get (Some 2) false) None;
     EvDb Example.projA (Db_floating_ip_get_by_address "172.24.4.4") None].
Proof.
  apply (associate_rebind_auto_assigned_raises Example.healthy Example.projA
           "172.24.4.4" "10.0.0.8" Example.world
           (mkFloatingIp "172.24.4.4" "nova" (Some "projA") (Some 2) true
              (Some "host1") None)
           (mkFixedIp 2 "10.0.0.6" (Some "uuid-2") (Some 1)));
    try reflexivity.
  - intros ctx call w; reflexivity.
  - discriminate.
Defined.

(** ** The store model *)

Lemma find_floating_update (a b : string) (upd : FloatingIp -> FloatingIp)
    (st : Store) :
  (forall f, fl_address (upd f) = fl_address f) ->
  StoreGateway.find_floating (StoreGateway.update_floating b upd st) a =
    if String.eqb a b
    then option_map upd (StoreGateway.find_floating st a)
    else StoreGateway.find_floating st a.
Proof.
  intros Hkeep.
  unfold StoreGateway.find_floating, StoreGateway.update_floating; simpl.
  induction (floating_ips st) as [|f l IH]; simpl.
  - destruct (String.eqb a b); reflexivity.
  - destruct (String.eqb (fl_address f) b) eqn:Hfb.
    + rewrite Hkeep.
      destruct (String.eqb (fl_address f) a) eqn:Hfa.
      * apply String.eqb_eq in Hfb, Hfa.
        assert (Hab : a = b) by congruence.
        rewrite Hab, String.eqb_refl; reflexivity.
      * exact IH.
    + destruct (String.eqb (fl_address f) a) eqn:Hfa.
      * apply String.eqb_eq in Hfa. subst a. rewrite Hfb; reflexivity.
      * exact IH.
Qed.

Lemma set_binding_address (x : option Z) (h : option string) (f : FloatingIp) :
  fl_address (StoreGateway.set_binding x h f) = fl_address f.
Proof. reflexivity. Qed.

Lemma set_host_address (h : option string) (f : FloatingIp) :
  fl_address (StoreGateway.set_host h f) = fl_address f.
Proof. reflexivity. Qed.

(** ** Local association *)

(** C3: in [_associate_floating_ip], when the driver's [add_floating_ip]
    fails (the run's trace shows the failed call; it is made only after
    the store has set the binding) and the store serves the undo, the very
    next call is the store's [floating_ip_disassociate] of the address,
    before anything is raised; the error raised is [NoFloatingIpInterface]
    when the driver's message contains "Cannot find device" and the
    driver's own error otherwise; and afterwards the store has the
    floating IP unbound. *)
Theorem associate_driver_failure_is_undone (env : Env) (ctx : Context)
    (floating_address fixed_address : string) (interface : option string)
    (instance_uuid : option string) (w : World) (network : option Network)
    (message : string) :
  let device := str_or (CONF_public_interface env) interface in
  let run :=
    _associate_floating_ip env ctx floating_address fixed_address interface
      instance_uuid w in
  In (EvL3
        (L3_add_floating_ip floating_address fixed_address device network)
        (Some (ProcessExecutionError message)))
     (events_since w (world_of run)) ->
  (forall w1,
     db_fault env ctx (Db_floating_ip_disassociate floating_address) w1
     = None) ->
  events_since w (world_of run) =
    [EvDb ctx
       (Db_floating_ip_fixed_ip_associate floating_address fixed_address
          (self_host env)) None;
     EvL3
       (L3_add_floating_ip floating_address fixed_address device network)
       (Some (ProcessExecutionError message));
     EvDb ctx (Db_floating_ip_disassociate floating_address) None]
    ++ (if str_contains "Cannot find device" message
        then [EvLog LogError "Interface %(interface)s not found" [device]]
        else []) /\
  result_of run =
    Raise (if str_contains "Cannot find device" message
           then NoFloatingIpInterface device
           else ProcessExecutionError message) /\
  exists f,
    StoreGateway.find_floating (w_store (world_of run)) floating_address
    = Some f /\
    fl_fixed_ip_id f = None.
Proof.
  intros device run Hfail Hundo. subst run.
  revert Hfail.
  unfold _associate_floating_ip, db_floating_ip_fixed_ip_associate,
    db_floating_ip_disassociate, db_write, bind, try_except, l3driver, notify.
  fold device.
  destruct (db_fault env ctx
              (Db_floating_ip_fixed_ip_associate floating_address
                 fixed_address (self_host env)) w) as [e|].
  { unfold world_of; simpl; rewrite events_since_emit.
    intros [H|[]]; discriminate. }
  unfold StoreGateway.floating_ip_fixed_ip_associate.
  destruct (StoreGateway.find_floating (w_store w) floating_address)
    as [f|] eqn:Hf;
    [| unfold world_of; tidy; rewrite events_since_app;
       intros [H|[]]; discriminate].
  destruct (StoreGateway.find_fixed_by_address (w_store w) fixed_address)
    as [x|];
    [| unfold world_of; tidy; rewrite events_since_app;
       intros [H|[]]; discriminate].
  destruct (opt_int_eqb (fl_fixed_ip_id f) (Some (fx_id x)));
    [ unfold world_of; tidy; rewrite events_since_app;
      intros [H|[]]; discriminate |].
  unfold StoreGateway.with_network.
  cbv beta iota zeta.
  match goal with
  | |- context [l3driver_call env ?c ?w1] =>
      destruct (l3driver_call env c w1) as [msg|]
  end.
  2:{ unfold world_of; tidy.
      destruct (notifier_notify env ctx _ _ _); tidy;
        rewrite events_since_app;
        intros [H|[H|[H|[]]]]; discriminate. }
  cbn [option_map outcome].
  rewrite Hundo.
  unfold StoreGateway.floating_ip_disassociate.
  tidy.
  rewrite find_floating_update by apply set_binding_address.
  rewrite String.eqb_refl, Hf. tidy.
  assert (Hunbound :
    exists f',
      StoreGateway.find_floating
        (StoreGateway.update_floating floating_address
           (StoreGateway.set_binding None None)
           (StoreGateway.update_floating floating_address
              (StoreGateway.set_binding (Some (fx_id x)) (self_host env))
              (w_store w))) floating_address = Some f' /\
      fl_fixed_ip_id f' = None).
  { rewrite !find_floating_update by apply set_binding_address.
    rewrite String.eqb_refl, Hf. simpl. eexists; split; reflexivity. }
  destruct (str_contains "Cannot find device" msg) eqn:Hc;
    unfold world_of, result_of; tidy; rewrite events_since_app;
    (intros [H|[H|Hrest]];
     [ discriminate H
     | injection H as Hn Hm; subst; rewrite Hc;
       split; [reflexivity | split; [reflexivity | exact Hunbound]]
     | exfalso;
       repeat (destruct Hrest as [H|Hrest]; [discriminate H|]);
       exact Hrest ]).
Qed.

Lemma associate_driver_failure_is_undone_witness :
  let run :=
    _associate_floating_ip Example.no_device Example.projA "172.24.4.2"
      "10.0.0.8" None (Some "uuid-1") Example.world in
  result_of run = Raise (NoFloatingIpInterface (Some "eth0")) /\
  option_map fl_fixed_ip_id
    (StoreGateway.find_floating (w_store (world_of run)) "172.24.4.2")
  = Some None /\
  store_calls (w_trace (world_of run)) =
    [Db_floating_ip_fixed_ip_associate "172.24.4.2" "10.0.0.8" (Some "host1");
     Db_floating_ip_disassociate "172.24.4.2"].
Proof.
  destruct (associate_driver_failure_is_undone Example.no_device
              Example.projA "172.24.4.2" "10.0.0.8" None (Some "uuid-1")
              Example.world (Some (mkNetwork 1 (Some "host1") false))
              "Unexpected error while running command. Stderr: Cannot find device eth0")
    as (Hevents & Hresult & f & Hf & Hunbound).
  - vm_compute; right; left; reflexivity.
  - intros w1; reflexivity.
  - split; [exact Hresult | split; reflexivity].
Defined.

(** ** Quota reservations *)


(** C1 fails on the deallocation path.  The store fails the release of
    172.24.4.2 after [QUOTAS.reserve] has handed out a reservation: the
    error leaves [deallocate_floating_ip] with the reservation neither
    committed nor rolled back. *)
Theorem deallocate_release_failure_leaks_reservation :
  let run :=
    deallocate_floating_ip Example.release_fails Example.projA "172.24.4.2"
      false Example.world in
  result_of run = Raise (OtherError "DBError") /\
  w_trace (world_of run) =
    [EvDb Example.projA (Db_floating_ip_get_by_address "172.24.4.2") None;
     EvDb Example.projA Db_dnsdomain_list None;
     EvDns Dns_floating_get_domains None;
     EvDns Dns_instance_get_domains None;
     EvNotify "network.floating_ip.deallocate"
       [("project_id", Some "projA"); ("floating_ip", Some "172.24.4.2")] None;
     EvQuotaReserve Example.projA (-1) (Ok ["reservation-1"]);
     EvDb Example.projA (Db_floating_ip_deallocate "172.24.4.2")
       (Some (OtherError "DBError"))] /\
  commits_of ["reservation-1"] (w_trace (world_of run)) = 0%nat /\
  rollbacks_of ["reservation-1"] (w_trace (world_of run)) = 0%nat.
Proof. repeat split; vm_compute; reflexivity. Qed.

(** ** Disassociation when the instance's host is down *)

(** C6 fails when [CONF.public_interface] is set, as it is by default:
    [disassociate_floating_ip] passes no interface, but
    [_disassociate_floating_ip] replaces it by the configured one.  On the
    multi-host network of 172.24.4.5, with the network service of the
    instance's host down, the call runs locally, clears the binding, and
    calls the driver's [remove_floating_ip] on eth0. *)
Theorem disassociate_host_down_calls_driver :
  let run :=
    disassociate_floating_ip Example.peers_down Example.projA "172.24.4.5"
      false Example.world in
  result_of run = Ok tt /\
  option_map fl_fixed_ip_id
    (StoreGateway.find_floating (w_store (world_of run)) "172.24.4.5")
  = Some None /\
  driver_calls (w_trace (world_of run)) =
    [L3_remove_floating_ip "172.24.4.5" "10.0.1.7" (Some "eth0")
       (Some (mkNetwork 2 None true))].
Proof. repeat split; vm_compute; reflexivity. Qed.

(** The interface that [disassociate_floating_ip] suppresses comes back
    in [_disassociate_floating_ip] whenever [CONF.public_interface] is
    set: the driver is left alone only when it is empty. *)
Lemma suppressed_interface_is_overridden (env : Env) (ctx : Context)
    (address : string) (instance_uuid : option string) (w : World)
    (f : FloatingIp) (x : FixedIp) :
  db_fault env ctx (Db_floating_ip_disassociate address) w = None ->
  StoreGateway.find_floating (w_store w) address = Some f ->
  StoreGateway.find_fixed (w_store w) (fl_fixed_ip_id f) = Some x ->
  driver_calls
    (events_since w
       (world_of (_disassociate_floating_ip env ctx address None
                    instance_uuid w))) =
    if truthy_str (CONF_public_interface env)
    then [L3_remove_floating_ip address (fx_address x)
            (Some (CONF_public_interface env))
            (StoreGateway.find_network (w_store w) (fx_network_id x))]
    else [].
Proof.
  intros Hfault Hf Hx.
  unfold _disassociate_floating_ip, db_floating_ip_disassociate, db_write,
    bind, l3driver, notify, world_of, str_or.
  rewrite Hfault.
  unfold StoreGateway.floating_ip_disassociate; rewrite Hf, Hx.
  cbn [option_map StoreGateway.with_network].
  destruct (truthy_str (CONF_public_interface env)) eqn:Ht; tidy.
  - rewrite Ht.
    destruct (l3driver_call env _ _); tidy;
      [| destruct (notifier_notify env ctx _ _ _); tidy];
      rewrite events_since_app; reflexivity.
  - destruct (notifier_notify env ctx _ _ _); tidy;
      rewrite events_since_app; reflexivity.
Qed.

(** ** Migration *)

Lemma find_floating_address (st : Store) (a : string) (f : FloatingIp) :
  StoreGateway.find_floating st a = Some f -> fl_address f = a.
Proof.
  unfold StoreGateway.find_floating; intros H.
  apply find_some in H; destruct H as [_ H].
  apply String.eqb_eq; exact H.
Qed.

Lemma same_but_hosts_refl (st : Store) : same_but_hosts st st.
Proof. repeat split. Qed.

Lemma same_but_hosts_update (st st' : Store) (b : string)
    (h : option string) :
  same_but_hosts st st' ->
  same_but_hosts st
    (StoreGateway.update_floating b (StoreGateway.set_host h) st').
Proof.
  intros (Hx & Hn & Hf); repeat split; try assumption.
  intros a. rewrite find_floating_update by apply set_host_address.
  destruct (String.eqb a b); [|apply Hf].
  rewrite <- Hf.
  destruct (StoreGateway.find_floating st' a); reflexivity.
Qed.

Lemma same_but_hosts_find (st st' : Store) (a : string) (f : FloatingIp) :
  same_but_hosts st st' ->
  StoreGateway.find_floating st a = Some f ->
  exists f',
    StoreGateway.find_floating st' a = Some f' /\
    fl_address f' = fl_address f /\
    fl_project_id f' = fl_project_id f /\
    fl_fixed_ip_id f' = fl_fixed_ip_id f /\
    fl_interface f' = fl_interface f.
Proof.
  intros (_ & _ & Hf) Ha. specialize (Hf a). rewrite Ha in Hf.
  destruct (StoreGateway.find_floating st' a) as [f'|]; [|discriminate].
  exists f'. simpl in Hf. injection Hf as H1 H2 H3 H4 H5 H6. auto.
Qed.

Lemma same_but_hosts_fixed (st st' : Store) (id : option Z) :
  same_but_hosts st st' ->
  StoreGateway.find_fixed st' id = StoreGateway.find_fixed st id /\
  forall n, StoreGateway.find_network st' n = StoreGateway.find_network st n.
Proof.
  intros (Hx & Hn & _).
  unfold StoreGateway.find_fixed, StoreGateway.find_network.
  rewrite Hx, Hn; split; reflexivity.
Qed.

Lemma is_stale_answer (ctx : Context) (f : FloatingIp) (w : World) :
  exists evs,
    _is_stale_floating_ip_address ctx f w =
      (Ok (stale ctx f),
       {| w_store := w_store w; w_trace := w_trace w ++ evs |}) /\
    (forall warning,
       String.eqb warning stale_warning_start
       || String.eqb warning stale_warning_finish = true ->
       skipped_addresses warning evs = []) /\
    driver_calls evs = [] /\
    added_addresses evs = [] /\
    removed_addresses evs = [].
Proof.
  unfold _is_stale_floating_ip_address, stale, owned_by,
    _floating_ip_owned_by_project, bind, try_except.
  destruct (is_admin ctx); simpl.
  - exists []. rewrite app_nil_r. destruct w.
    destruct (truthy_opt_int (fl_fixed_ip_id f)); auto.
  - destruct (opt_str_eqb (fl_project_id f) (project_id ctx)); simpl.
    + exists []. rewrite app_nil_r. destruct w.
      destruct (truthy_opt_int (fl_fixed_ip_id f)); auto.
    + destruct (fl_project_id f); tidy; eexists; (split; [reflexivity|]);
        (split; [|auto]); intros warning Hw; cbn [skipped_addresses flat_map];
        match goal with
        | |- context [String.eqb ?m warning] =>
            destruct (String.eqb m warning) eqn:He
        end; try reflexivity;
        apply String.eqb_eq in He; subst warning; discriminate Hw.
Qed.

Lemma stale_same (ctx : Context) (f f' : FloatingIp) :
  fl_project_id f' = fl_project_id f ->
  fl_fixed_ip_id f' = fl_fixed_ip_id f ->
  stale ctx f' = stale ctx f.
Proof. unfold stale, owned_by; intros -> ->; reflexivity. Qed.

Lemma same_but_hosts_stale (ctx : Context) (st st' : Store) (a : string) :
  same_but_hosts st st' ->
  stale_address ctx st' a = stale_address ctx st a.
Proof.
  intros H. unfold stale_address.
  destruct (StoreGateway.find_floating st a) as [f|] eqn:Hf.
  - destruct (same_but_hosts_find st st' a f H Hf)
      as (f' & -> & _ & Hp & Hx & _).
    apply stale_same; assumption.
  - destruct H as (_ & _ & H). specialize (H a). rewrite Hf in H.
    destruct (StoreGateway.find_floating st' a); [discriminate|reflexivity].
Qed.

Lemma added_addresses_app (l1 l2 : list Event) :
  added_addresses (l1 ++ l2) = added_addresses l1 ++ added_addresses l2.
Proof. apply flat_map_app. Qed.

Lemma removed_addresses_app (l1 l2 : list Event) :
  removed_addresses (l1 ++ l2) = removed_addresses l1 ++ removed_addresses l2.
Proof. apply flat_map_app. Qed.

Lemma skipped_addresses_app (warning : string) (l1 l2 : list Event) :
  skipped_addresses warning (l1 ++ l2) =
  skipped_addresses warning l1 ++ skipped_addresses warning l2.
Proof. apply flat_map_app. Qed.

Ltac observe :=
  unfold removed_addresses, skipped_addresses, added_addresses in *;
  cbn [flat_map app]; rewrite ?flat_map_app; cbn [flat_map app].

Section Migration.

Variable env : Env.
Variable ctx : Context.
Variable instance_uuid : string.
Hypothesis Hdb : db_reliable env.
Hypothesis Hl3 : driver_reliable env.

Lemma l3driver_accepts (call : L3Call) (w : World) :
  l3driver env call w = (Ok tt, emit (EvL3 call None) w).
Proof. unfold l3driver; rewrite Hl3; reflexivity. Qed.

Lemma update_host (address : string) (h : option string) (w : World)
    (f : FloatingIp) :
  StoreGateway.find_floating (w_store w) address = Some f ->
  db_floating_ip_update env ctx address h w =
    (Ok tt,
     emit (EvDb ctx (Db_floating_ip_update address h) None)
       (set_store
          (StoreGateway.update_floating address (StoreGateway.set_host h)
             (w_store w)) w)).
Proof.
  intros Hf. unfold db_floating_ip_update, db_write.
  rewrite Hdb. unfold StoreGateway.floating_ip_update; rewrite Hf.
  reflexivity.
Qed.

(** One round of the loop of [migrate_instance_start]. *)
Lemma start_address_step (a : string) (w : World) (f : FloatingIp) :
  StoreGateway.find_floating (w_store w) a = Some f ->
  (stale ctx f = false ->
   exists x, StoreGateway.find_fixed (w_store w) (fl_fixed_ip_id f) = Some x) ->
  exists evs,
    migrate_instance_start_address env ctx instance_uuid a w =
      (Ok tt,
       {| w_store :=
            if stale ctx f then w_store w
            else StoreGateway.update_floating a (StoreGateway.set_host None)
                   (w_store w);
          w_trace := w_trace w ++ evs |}) /\
    removed_addresses evs = (if stale ctx f then [] else [a]) /\
    skipped_addresses stale_warning_start evs
    = (if stale ctx f then [a] else []) /\
    added_addresses evs = [].
Proof.
  intros Hf Hx.
  pose proof (find_floating_address _ _ _ Hf) as Ha.
  unfold migrate_instance_start_address.
  rewrite (bind_ok _ _ _ _ _ (fetch_floating_ip env ctx a w f (Hdb _ _ _) Hf)).
  destruct (is_stale_answer ctx f
              (emit (EvDb ctx (Db_floating_ip_get_by_address a) None) w))
    as (evs & Hs & Hskip & _ & Hadd & Hrem).
  rewrite (bind_ok _ _ _ _ _ Hs).
  destruct (stale ctx f) eqn:Hst.
  - tidy. eexists; split; [reflexivity|].
    specialize (Hskip stale_warning_start eq_refl).
    observe. rewrite Hrem, Hadd, Hskip, String.eqb_refl. repeat split.
  - destruct (Hx eq_refl) as (x & Hfx).
    rewrite (bind_ok _ _ _ _ _
               (fetch_fixed_ip env ctx _ true
                  {| w_store := w_store w;
                     w_trace := w_trace
                       (emit (EvDb ctx (Db_floating_ip_get_by_address a) None)
                          w) ++ evs |}
                  x (Hdb _ _ _) Hfx)).
    unfold StoreGateway.with_network.
    rewrite (bind_ok _ _ _ _ _ (l3driver_accepts _ _)).
    rewrite (bind_ok _ _ _ _ _ (l3driver_accepts _ _)).
    rewrite Ha.
    rewrite (update_host a None _ f) by exact Hf.
    tidy. eexists; split; [reflexivity|].
    specialize (Hskip stale_warning_start eq_refl).
    observe. rewrite Hrem, Hadd, Hskip, ?Ha. repeat split.
Qed.

(** One round of the loop of [migrate_instance_finish]. *)
Lemma finish_address_step (dest : option string) (a : string) (w : World)
    (f : FloatingIp) :
  StoreGateway.find_floating (w_store w) a = Some f ->
  (stale ctx f = false ->
   exists x, StoreGateway.find_fixed (w_store w) (fl_fixed_ip_id f) = Some x) ->
  exists evs,
    migrate_instance_finish_address env ctx instance_uuid dest a w =
      (Ok tt,
       {| w_store :=
            if stale ctx f then w_store w
            else StoreGateway.update_floating a (StoreGateway.set_host dest)
                   (w_store w);
          w_trace := w_trace w ++ evs |}) /\
    added_addresses evs = (if stale ctx f then [] else [a]) /\
    skipped_addresses stale_warning_finish evs
    = (if stale ctx f then [a] else []) /\
    removed_addresses evs = [].
Proof.
  intros Hf Hx.
  pose proof (find_floating_address _ _ _ Hf) as Ha.
  unfold migrate_instance_finish_address.
  rewrite (bind_ok _ _ _ _ _ (fetch_floating_ip env ctx a w f (Hdb _ _ _) Hf)).
  destruct (is_stale_answer ctx f
              (emit (EvDb ctx (Db_floating_ip_get_by_address a) None) w))
    as (evs & Hs & Hskip & _ & Hadd & Hrem).
  rewrite (bind_ok _ _ _ _ _ Hs).
  destruct (stale ctx f) eqn:Hst.
  - tidy. eexists; split; [reflexivity|].
    specialize (Hskip stale_warning_finish (orb_true_r _)).
    observe. rewrite Hrem, Hadd, Hskip, String.eqb_refl. repeat split.
  - destruct (Hx eq_refl) as (x & Hfx).
    rewrite Ha.
    rewrite (bind_ok _ _ _ _ _
               (update_host a dest
                  {| w_store := w_store w;
                     w_trace := w_trace
                       (emit (EvDb ctx (Db_floating_ip_get_by_address a) None)
                          w) ++ evs |} f Hf)).
    assert (Hfx' :
      StoreGateway.find_fixed
        (StoreGateway.update_floating a (StoreGateway.set_host dest)
           (w_store w)) (fl_fixed_ip_id f) = Some x) by exact Hfx.
    match goal with
    | |- context [bind (db_fixed_ip_get env ctx ?i true) ?k ?w1] =>
        rewrite (bind_ok _ k _ _ _
                   (fetch_fixed_ip env ctx i true w1 x (Hdb _ _ _) Hfx'))
    end.
    unfold StoreGateway.with_network.
    rewrite l3driver_accepts.
    tidy. eexists; split; [reflexivity|].
    specialize (Hskip stale_warning_finish (orb_true_r _)).
    observe. rewrite Hrem, Hadd, Hskip, ?Ha. repeat split.
Qed.

Lemma recorded_now (st0 st : Store) (a : string) :
  same_but_hosts st0 st ->
  recorded ctx st0 a ->
  exists f,
    StoreGateway.find_floating st a = Some f /\
    stale ctx f = stale_address ctx st0 a /\
    (stale ctx f = false ->
     exists x, StoreGateway.find_fixed st (fl_fixed_ip_id f) = Some x).
Proof.
  intros Hsame (f0 & Hf0 & Hx0).
  destruct (same_but_hosts_find st0 st a f0 Hsame Hf0)
    as (f & Hf & _ & Hp & Hi & _).
  exists f. split; [exact Hf|].
  assert (Hst : stale ctx f = stale ctx f0) by (apply stale_same; assumption).
  split.
  - unfold stale_address; rewrite Hf0; exact Hst.
  - intros H. rewrite Hst in H. destruct (Hx0 H) as (x & Hx).
    exists x. rewrite Hi.
    rewrite (proj1 (same_but_hosts_fixed st0 st _ Hsame)); exact Hx.
Qed.

(** The loop of [migrate_instance_start]. *)
Lemma start_loop (st0 : Store) (addrs : list string) :
  forall w,
    same_but_hosts st0 (w_store w) ->
    Forall (recorded ctx st0) addrs ->
    exists st' evs,
      for_each addrs (migrate_instance_start_address env ctx instance_uuid) w
      = (Ok tt, {| w_store := st'; w_trace := w_trace w ++ evs |}) /\
      same_but_hosts st0 st' /\
      removed_addresses evs
      = filter (fun a => negb (stale_address ctx st0 a)) addrs /\
      skipped_addresses stale_warning_start evs
      = filter (stale_address ctx st0) addrs /\
      added_addresses evs = [].
Proof.
  induction addrs as [|a rest IH]; intros w Hsame Hrec.
  - exists (w_store w), []. rewrite app_nil_r. destruct w.
    split; [reflexivity|]. split; [exact Hsame|]. repeat split.
  - inversion Hrec as [|? ? Ha Hrest]; subst.
    destruct (recorded_now st0 (w_store w) a Hsame Ha) as (f & Hf & Hst & Hx).
    destruct (start_address_step a w f Hf Hx)
      as (evs1 & Hstep & Hrem1 & Hskip1 & Hadd1).
    cbn [for_each]. rewrite (bind_ok _ _ _ _ _ Hstep).
    match type of Hstep with _ = (_, ?x) => set (w1 := x) in * end.
    assert (Hsame1 : same_but_hosts st0 (w_store w1)).
    { subst w1; simpl. destruct (stale ctx f); [exact Hsame|].
      apply same_but_hosts_update; exact Hsame. }
    destruct (IH w1 Hsame1 Hrest)
      as (st' & evs2 & Hloop & Hsame' & Hrem2 & Hskip2 & Hadd2).
    exists st', (evs1 ++ evs2).
    split; [rewrite Hloop; subst w1; simpl; rewrite <- app_assoc; reflexivity|].
    split; [exact Hsame'|].
    rewrite removed_addresses_app, skipped_addresses_app, added_addresses_app.
    rewrite Hrem1, Hrem2, Hskip1, Hskip2, Hadd1, Hadd2.
    cbn [filter]. rewrite <- Hst.
    destruct (stale ctx f); repeat split.
Qed.

(** The loop of [migrate_instance_finish]. *)
Lemma finish_loop (dest : option string) (st0 : Store)
    (addrs : list string) :
  forall w,
    same_but_hosts st0 (w_store w) ->
    Forall (recorded ctx st0) addrs ->
    exists st' evs,
      for_each addrs
        (migrate_instance_finish_address env ctx instance_uuid dest) w
      = (Ok tt, {| w_store := st'; w_trace := w_trace w ++ evs |}) /\
      same_but_hosts st0 st' /\
      added_addresses evs
      = filter (fun a => negb (stale_address ctx st0 a)) addrs /\
      skipped_addresses stale_warning_finish evs
      = filter (stale_address ctx st0) addrs /\
      removed_addresses evs = [] /\
      forall b,
        (In b addrs /\ stale_address ctx st0 b = false) \/
        recorded_host (w_store w) b = Some dest ->
        recorded_host st' b = Some dest.
Proof.
  induction addrs as [|a rest IH]; intros w Hsame Hrec.
  - exists (w_store w), []. rewrite app_nil_r. destruct w.
    split; [reflexivity|]. split; [exact Hsame|]. repeat split.
    intros b [[[] _]|H]; exact H.
  - inversion Hrec as [|? ? Ha Hrest]; subst.
    destruct (recorded_now st0 (w_store w) a Hsame Ha) as (f & Hf & Hst & Hx).
    destruct (finish_address_step dest a w f Hf Hx)
      as (evs1 & Hstep & Hadd1 & Hskip1 & Hrem1).
    cbn [for_each]. rewrite (bind_ok _ _ _ _ _ Hstep).
    match type of Hstep with _ = (_, ?x) => set (w1 := x) in * end.
    assert (Hsame1 : same_but_hosts st0 (w_store w1)).
    { subst w1; simpl. destruct (stale ctx f); [exact Hsame|].
      apply same_but_hosts_update; exact Hsame. }
    destruct (IH w1 Hsame1 Hrest)
      as (st' & evs2 & Hloop & Hsame' & Hadd2 & Hskip2 & Hrem2 & Hhost).
    exists st', (evs1 ++ evs2).
    split; [rewrite Hloop; subst w1; simpl; rewrite <- app_assoc; reflexivity|].
    split; [exact Hsame'|].
    rewrite removed_addresses_app, skipped_addresses_app, added_addresses_app.
    rewrite Hrem1, Hrem2, Hskip1, Hskip2, Hadd1, Hadd2.
    cbn [filter]. rewrite <- Hst.
    assert (Hkeep : forall b,
              (b = a /\ stale ctx f = false) \/
              recorded_host (w_store w) b = Some dest ->
              recorded_host (w_store w1) b = Some dest).
    { intros b Hb. subst w1; simpl. unfold recorded_host in *.
      destruct (stale ctx f) eqn:Hs.
      - destruct Hb as [[_ H]|H]; [discriminate|exact H].
      - rewrite find_floating_update by apply set_host_address.
        destruct (String.eqb b a) eqn:Hba.
        + apply String.eqb_eq in Hba; subst b. rewrite Hf; reflexivity.
        + destruct Hb as [[H _]|H]; [|exact H].
          subst b. rewrite String.eqb_refl in Hba; discriminate. }
    split; [|split; [|split]]; try (destruct (stale ctx f); reflexivity).
    intros b [[[<-|Hin] Hb]|Hb]; apply Hhost.
    + right. apply Hkeep. left. split; [reflexivity|].
      rewrite Hst; exact Hb.
    + left; split; assumption.
    + right. apply Hkeep. right; exact Hb.
Qed.

End Migration.

Lemma something_to_migrate (addrs : list string) (source dest : option string) :
  addrs <> [] -> source <> dest ->
  nothing_to_migrate addrs source dest = false.
Proof.
  intros Hsome Hmove. unfold nothing_to_migrate.
  destruct addrs; [contradiction|]. simpl.
  apply opt_str_eqb_neq in Hmove. rewrite Hmove. apply andb_false_r.
Qed.

Lemma events_since_trace (w : World) (st : Store) (t evs : list Event) :
  t = w_trace w ++ evs ->
  events_since w {| w_store := st; w_trace := t |} = evs.
Proof. intros ->; apply events_since_app. Qed.

(** * Further properties of the manager *)

Lemma bind_inv {A B} (m : M A) (k : A -> M B) (w : World) (b : B) :
  result_of (bind m k w) = Ok b ->
  exists a w', m w = (Ok a, w') /\ result_of (k a w') = Ok b.
Proof.
  unfold bind, result_of.
  destruct (m w) as [[a|e] w']; simpl; intros H; [|discriminate].
  exists a, w'; split; [reflexivity | exact H].
Qed.

Lemma client_exceptions_ok {A} (env : Env) (expected : exn -> bool)
    (m : M A) (w : World) (a : A) :
  result_of (client_exceptions env expected m w) = Ok a ->
  result_of (m w) = Ok a.
Proof.
  unfold client_exceptions, result_of.
  destruct (m w) as [[x|e] w']; simpl; [auto|].
  destruct (expected e); discriminate.
Qed.

Lemma client_exceptions_passes {A} (env : Env) (expected : exn -> bool)
    (m : M A) (w w' : World) (r : Res A) :
  m w = (r, w') ->
  match r with Ok _ => true | Raise e => negb (expected e) end = true ->
  client_exceptions env expected m w = (r, w').
Proof.
  unfold client_exceptions; intros -> H.
  destruct r as [a|e]; [reflexivity|].
  apply negb_true_iff in H; rewrite H; reflexivity.
Qed.

(** ** Allocation *)

(** An auto-assigned allocation is outside the quota: whatever the
    collaborators answer, [allocate_floating_ip] with [auto_assigned=True]
    makes no call to the quota engine. *)
Theorem allocate_auto_assigned_skips_quota (env : Env) (ctx : Context)
    (project pool : option string) (w : World) :
  forallb (fun e => negb (is_quota_event e))
    (events_since w
       (world_of (allocate_floating_ip env ctx project true pool w)))
  = true.
Proof.
  unfold allocate_floating_ip, db_floating_ip_allocate_address, db_write,
    notify, bind, try_except, world_of; cbn [negb]; tidy.
  destruct (db_fault env ctx _ _); tidy;
    [rewrite events_since_app; reflexivity|].
  destruct (StoreGateway.floating_ip_allocate_address _ _ _) as [[a|e] st];
    tidy; [|rewrite events_since_app; reflexivity].
  destruct (notifier_notify env ctx _ _ _); tidy;
    rewrite events_since_app; reflexivity.
Qed.


(** A notifier that fails after the store has assigned the address makes
    [allocate_floating_ip] raise (and roll the reservation back), but the
    store assignment is not undone: the address stays allocated to the
    project. *)
Theorem allocate_notifier_failure_keeps_address (env : Env) (ctx : Context)
    (project pool : option string) (auto_assigned : bool) (w : World)
    (address : string) (e : exn) :
  let run := allocate_floating_ip env ctx project auto_assigned pool w in
  In (EvNotify "network.floating_ip.allocate"
        [("project_id", project); ("floating_ip", Some address)] (Some e))
     (events_since w (world_of run)) ->
  raised (result_of run) <> None /\
  option_map fl_project_id
    (StoreGateway.find_floating (w_store (world_of run)) address)
  = Some project.
Proof.
  unfold allocate_floating_ip, db_floating_ip_allocate_address, db_write,
    QUOTAS_reserve, QUOTAS_commit, QUOTAS_rollback, notify, local, bind,
    try_except, world_of, result_of.
  assert (Hstore : forall st pool' f,
            find (StoreGateway.unowned_in pool') (floating_ips st) = Some f ->
            option_map fl_project_id
              (StoreGateway.find_floating
                 (StoreGateway.update_floating (fl_address f)
                    (StoreGateway.set_project project) st) (fl_address f))
            = Some project).
  { intros st pool' f Hf.
    rewrite find_floating_update by reflexivity.
    rewrite String.eqb_refl.
    destruct (StoreGateway.find_floating st (fl_address f)) eqn:Hn;
      [reflexivity|].
    exfalso. apply find_some in Hf. destruct Hf as [Hin _].
    unfold StoreGateway.find_floating in Hn.
    apply (find_none _ _ Hn) in Hin.
    rewrite String.eqb_refl in Hin; discriminate. }
  unfold StoreGateway.floating_ip_allocate_address.
  destruct auto_assigned; cbn [negb]; tidy.
  - destruct (db_fault env ctx _ _); tidy;
      [rewrite events_since_app; intros [H|[]]; discriminate|].
    destruct (find _ _) as [f|] eqn:Hf; tidy;
      [|rewrite events_since_app; intros [H|[]]; discriminate].
    destruct (notifier_notify env ctx _ _ _) eqn:Hn; tidy;
      rewrite events_since_app;
      (intros [H|[H|[]]]; try discriminate H).
    injection H as Ha He. rewrite <- Ha.
    split; [discriminate | apply (Hstore _ _ _ Hf)].
  - destruct (quota_reserve env ctx 1 w) as [h|e0]; tidy.
    2:{ destruct e0; tidy; rewrite events_since_app;
          (intros [H|Hrest]; [discriminate H|]);
          repeat (destruct Hrest as [H|Hrest]; [discriminate H|]);
          destruct Hrest. }
    destruct (db_fault env ctx _ _); tidy.
    { destruct (quota_rollback env ctx h _); tidy;
        rewrite events_since_app;
        (intros [H|Hrest]; [discriminate H|]);
        repeat (destruct Hrest as [H|Hrest]; [discriminate H|]);
        destruct Hrest. }
    destruct (find _ _) as [f|] eqn:Hf; tidy.
    2:{ destruct (quota_rollback env ctx h _); tidy;
        rewrite events_since_app;
        (intros [H|Hrest]; [discriminate H|]);
        repeat (destruct Hrest as [H|Hrest]; [discriminate H|]);
        destruct Hrest. }
    destruct (notifier_notify env ctx _ _ _) eqn:Hn; tidy.
    + destruct (quota_rollback env ctx h _); tidy;
        rewrite events_since_app;
        (intros [H|[H|[H|Hrest]]]; try discriminate H;
         [ injection H as Ha He; rewrite <- Ha;
           split; [discriminate | apply (Hstore _ _ _ Hf)]
         | repeat (destruct Hrest as [H|Hrest]; [discriminate H|]);
           destruct Hrest ]).
    + destruct (quota_commit env ctx h _); tidy;
        [destruct (quota_rollback env ctx h _); tidy|];
        rewrite events_since_app;
        (intros [H|Hrest]; [discriminate H|]);
        repeat (destruct Hrest as [H|Hrest]; [discriminate H|]);
        destruct Hrest.
Qed.

Lemma allocate_notifier_failure_keeps_address_witness :
  let run :=
    allocate_floating_ip Scenario.notifier_down Example.projA (Some "projA")
      false None Example.world in
  raised (result_of run) <> None /\
  option_map fl_project_id
    (StoreGateway.find_floating (w_store (world_of run)) "172.24.4.3")
  = Some (Some "projA").
Proof.
  apply (allocate_notifier_failure_keeps_address Scenario.notifier_down
           Example.projA (Some "projA") None false Example.world
           "172.24.4.3" (OtherError "NotifierError")).
  vm_compute; right; right; left; reflexivity.
Defined.

(** ** Which calls a computation can make *)

Section Frames.

Variable env : Env.
Variable kind : Event -> bool.

Lemma traces_only_ret {A} (a : A) : traces_only kind (ret a).
Proof.
  intros w. exists (Ok a), (w_store w), []. rewrite app_nil_r.
  destruct w; split; reflexivity.
Qed.

Lemma traces_only_raise {A} (e : exn) : traces_only kind (@raise A e).
Proof.
  intros w. exists (Raise e), (w_store w), []. rewrite app_nil_r.
  destruct w; split; reflexivity.
Qed.

Lemma traces_only_bind {A B} (m : M A) (k : A -> M B) :
  traces_only kind m -> (forall a, traces_only kind (k a)) ->
  traces_only kind (bind m k).
Proof.
  intros Hm Hk w. unfold bind.
  destruct (Hm w) as (r & st & evs & -> & He).
  destruct r as [a|e].
  - destruct (Hk a {| w_store := st; w_trace := w_trace w ++ evs |})
      as (r' & st' & evs' & -> & He').
    exists r', st', (evs ++ evs'). simpl. rewrite <- app_assoc.
    split; [reflexivity|]. rewrite forallb_app, He, He'; reflexivity.
  - exists (Raise e), st, evs. split; [reflexivity | exact He].
Qed.

Lemma traces_only_try_except {A} (body : M A) (handler : exn -> option (M A)) :
  traces_only kind body ->
  (forall e h, handler e = Some h -> traces_only kind h) ->
  traces_only kind (try_except body handler).
Proof.
  intros Hm Hk w. unfold try_except.
  destruct (Hm w) as (r & st & evs & -> & He).
  destruct r as [a|e].
  - exists (Ok a), st, evs. split; [reflexivity | exact He].
  - destruct (handler e) as [h|] eqn:Hh.
    + destruct (Hk e h Hh {| w_store := st; w_trace := w_trace w ++ evs |})
        as (r' & st' & evs' & -> & He').
      exists r', st', (evs ++ evs'). simpl. rewrite <- app_assoc.
      split; [reflexivity|]. rewrite forallb_app, He, He'; reflexivity.
    + exists (Raise e), st, evs. split; [reflexivity | exact He].
Qed.

Lemma traces_only_client_exceptions {A} (expected : exn -> bool) (m : M A) :
  traces_only kind m -> traces_only kind (client_exceptions env expected m).
Proof.
  intros Hm w. unfold client_exceptions.
  destruct (Hm w) as (r & st & evs & -> & He).
  destruct r as [a|e]; [|destruct (expected e)];
    eexists; exists st, evs; (split; [reflexivity | exact He]).
Qed.

Lemma traces_only_for_each {A} (l : list A) (body : A -> M unit) :
  (forall a, traces_only kind (body a)) ->
  traces_only kind (for_each l body).
Proof.
  intros Hb. induction l as [|a l IH]; cbn [for_each].
  - apply traces_only_ret.
  - apply traces_only_bind; [apply Hb | intros _; exact IH].
Qed.

Lemma traces_only_fold_m {A S} (l : list A) (body : S -> A -> M S) :
  (forall s a, traces_only kind (body s a)) ->
  forall acc, traces_only kind (fold_m l acc body).
Proof.
  intros Hb. induction l as [|a l IH]; intros acc; cbn [fold_m].
  - apply traces_only_ret.
  - apply traces_only_bind; [apply Hb | intros s; apply IH].
Qed.

Lemma traces_only_local {A} (name : string) (v : option A) :
  traces_only kind (local name v).
Proof.
  destruct v; [apply traces_only_ret | apply traces_only_raise].
Qed.

(** One call: one event. *)
Lemma traces_only_event {A} (m : M A) :
  (forall w, exists r st e,
      m w = (r, emit e (set_store st w)) /\ kind e = true) ->
  traces_only kind m.
Proof.
  intros H w. destruct (H w) as (r & st & e & -> & He).
  exists r, st, [e]. split; [reflexivity|]. simpl; rewrite He; reflexivity.
Qed.

Lemma traces_only_LOG (level : LogLevel) (message : string)
    (args : list (option string)) :
  kind (EvLog level message args) = true ->
  traces_only kind (LOG level message args).
Proof.
  intros Hk. apply traces_only_event. intros w.
  exists (Ok tt), (w_store w), (EvLog level message args).
  destruct w; split; [reflexivity | exact Hk].
Qed.

Lemma traces_only_db_read {A} (ctx : Context) (call : DbCall)
    (answer : Store -> Res A) :
  (forall o, kind (EvDb ctx call o) = true) ->
  traces_only kind (db_read env ctx call answer).
Proof.
  intros Hk. apply traces_only_event. intros w. unfold db_read.
  destruct (db_fault env ctx call w);
    eexists; exists (w_store w); eexists;
    (split; [destruct w; reflexivity | apply Hk]).
Qed.

Lemma traces_only_db_write {A} (ctx : Context) (call : DbCall)
    (answer : Store -> Res A * Store) :
  (forall o, kind (EvDb ctx call o) = true) ->
  traces_only kind (db_write env ctx call answer).
Proof.
  intros Hk. apply traces_only_event. intros w. unfold db_write.
  destruct (db_fault env ctx call w).
  - eexists; exists (w_store w); eexists;
      (split; [destruct w; reflexivity | apply Hk]).
  - destruct (answer (w_store w)) as [r st].
    exists r, st; eexists; (split; [reflexivity | apply Hk]).
Qed.

Lemma traces_only_reserve (ctx : Context) (delta : Z) :
  (forall r, kind (EvQuotaReserve ctx delta r) = true) ->
  traces_only kind (QUOTAS_reserve env ctx delta).
Proof.
  intros Hk. apply traces_only_event. intros w. unfold QUOTAS_reserve.
  eexists; exists (w_store w); eexists;
    (split; [destruct w; reflexivity | apply Hk]).
Qed.

Lemma traces_only_commit (ctx : Context) (h : Handle) :
  (forall o, kind (EvQuotaCommit ctx h o) = true) ->
  traces_only kind (QUOTAS_commit env ctx h).
Proof.
  intros Hk. apply traces_only_event. intros w. unfold QUOTAS_commit.
  eexists; exists (w_store w); eexists;
    (split; [destruct w; reflexivity | apply Hk]).
Qed.

Lemma traces_only_rollback (ctx : Context) (h : Handle) :
  (forall o, kind (EvQuotaRollback ctx h o) = true) ->
  traces_only kind (QUOTAS_rollback env ctx h).
Proof.
  intros Hk. apply traces_only_event. intros w. unfold QUOTAS_rollback.
  eexists; exists (w_store w); eexists;
    (split; [destruct w; reflexivity | apply Hk]).
Qed.

Lemma traces_only_l3driver (call : L3Call) :
  (forall o, kind (EvL3 call o) = true) ->
  traces_only kind (l3driver env call).
Proof.
  intros Hk. apply traces_only_event. intros w. unfold l3driver.
  eexists; exists (w_store w); eexists;
    (split; [destruct w; reflexivity | apply Hk]).
Qed.

Lemma traces_only_notify (ctx : Context) (event_type : string)
    (payload : list (string * option string)) :
  (forall o, kind (EvNotify event_type payload o) = true) ->
  traces_only kind (notify env ctx event_type payload).
Proof.
  intros Hk. apply traces_only_event. intros w. unfold notify.
  eexists; exists (w_store w); eexists;
    (split; [destruct w; reflexivity | apply Hk]).
Qed.

Lemma traces_only_rpc (ctx : Context) (call : RpcCall) :
  (forall o, kind (EvRpc call o) = true) ->
  traces_only kind (network_rpcapi env ctx call).
Proof.
  intros Hk. apply traces_only_event. intros w. unfold network_rpcapi.
  destruct (network_rpcapi_call env ctx call w) as [o st].
  eexists; exists st; eexists; (split; [reflexivity | apply Hk]).
Qed.

Lemma traces_only_dns (call : DnsCall) :
  (forall o, kind (EvDns call o) = true) ->
  traces_only kind (dns_manager env call).
Proof.
  intros Hk. apply traces_only_event. intros w. unfold dns_manager.
  eexists; exists (w_store w); eexists;
    (split; [destruct w; reflexivity | apply Hk]).
Qed.

Lemma traces_only_service_is_up (service : Service) :
  traces_only kind (servicegroup_api_service_is_up env service).
Proof.
  intros w. eexists; exists (w_store w), []. rewrite app_nil_r.
  destruct w; split; reflexivity.
Qed.

End Frames.

(** Takes a computation apart, down to its calls; leaves the tests that
    each call's event is of the kind. *)
Ltac frame :=
  repeat
    match goal with
    | |- forall _, _ => intro
    | |- traces_only _ (bind _ _) => apply traces_only_bind
    | |- traces_only _ (ret _) => apply traces_only_ret
    | |- traces_only _ (raise _) => apply traces_only_raise
    | |- traces_only _ (local _ _) => apply traces_only_local
    | |- traces_only _ (for_each _ _) => apply traces_only_for_each
    | |- traces_only _ (fold_m _ _ _) => apply traces_only_fold_m
    | |- traces_only _ (client_exceptions _ _ _) =>
        apply traces_only_client_exceptions
    | |- traces_only _ (servicegroup_api_service_is_up _ _) =>
        apply traces_only_service_is_up
    | |- traces_only _ (LOG _ _ _) => apply traces_only_LOG
    | |- traces_only _ (db_read _ _ _ _) => apply traces_only_db_read
    | |- traces_only _ (db_write _ _ _ _) => apply traces_only_db_write
    | |- traces_only _ (QUOTAS_reserve _ _ _) => apply traces_only_reserve
    | |- traces_only _ (QUOTAS_commit _ _ _) => apply traces_only_commit
    | |- traces_only _ (QUOTAS_rollback _ _ _) => apply traces_only_rollback
    | |- traces_only _ (l3driver _ _) => apply traces_only_l3driver
    | |- traces_only _ (notify _ _ _ _) => apply traces_only_notify
    | |- traces_only _ (network_rpcapi _ _ _) => apply traces_only_rpc
    | |- traces_only _ (dns_manager _ _) => apply traces_only_dns
    | |- traces_only _ (try_except _ _) => apply traces_only_try_except
    | H : Some _ = Some _ |- _ => injection H as <-
    | H : None = Some _ |- _ => discriminate H
    | H : match ?e with _ => _ end = Some _ |- _ => destruct e
    | |- traces_only _ (if ?b then _ else _) => destruct b
    | |- traces_only _ (match ?x with _ => _ end) => destruct x
    | |- traces_only _ (let '(_, _) := ?p in _) => destruct p
    end.

Ltac unfold_db :=
  unfold db_floating_ip_get_by_address, db_floating_ip_allocate_address,
    db_floating_ip_deallocate, db_floating_ip_fixed_ip_associate,
    db_floating_ip_disassociate, db_floating_ip_update, db_fixed_ip_get,
    db_fixed_ip_get_by_address, db_network_get, db_instance_get_by_uuid,
    db_service_get_by_host_and_topic, db_dnsdomain_list, db_dnsdomain_get.

Lemma dns_cleanup_traces (env : Env) (kind : Event -> bool) (ctx : Context)
    (address : string) :
  (forall e, is_dns_event e = true -> kind e = true) ->
  traces_only kind (_delete_all_entries_for_ip env ctx address).
Proof.
  intros Hk.
  unfold _delete_all_entries_for_ip, get_dns_domains, _prepare_domain_entry,
    get_dns_entries_by_address, delete_dns_entry.
  unfold_db. frame; try (apply Hk; reflexivity).
Qed.

Lemma traces_only_events {A} (kind : Event -> bool) (m : M A) (w : World) :
  traces_only kind m ->
  forallb kind (events_since w (world_of (m w))) = true.
Proof.
  intros H. destruct (H w) as (r & st & evs & -> & He).
  unfold world_of; simpl. rewrite events_since_app; exact He.
Qed.

Lemma opt_str_eqb_refl (a : option string) : opt_str_eqb a a = true.
Proof. apply opt_str_eqb_eq; reflexivity. Qed.

(** ** What the operations never do *)

(** Whatever the collaborators answer, [deallocate_floating_ip] never
    calls the L3 driver or the rpc API, never rolls a reservation back,
    and the only store write it makes is the release of the address it
    was given. *)
Theorem deallocate_only_releases (env : Env) (ctx : Context)
    (address : string) (affect_auto_assigned : bool) (w : World) :
  forallb (deallocation_call address)
    (events_since w
       (world_of
          (deallocate_floating_ip env ctx address affect_auto_assigned w)))
  = true.
Proof.
  apply traces_only_events.
  unfold deallocate_floating_ip, _floating_ip_owned_by_project.
  apply traces_only_client_exceptions.
  apply traces_only_bind; [unfold_db; frame; reflexivity|]. intros fip.
  destruct (negb affect_auto_assigned && fl_auto_assigned fip);
    [apply traces_only_ret|].
  apply traces_only_bind; [frame; reflexivity|]. intros _.
  destruct (truthy_opt_int (fl_fixed_ip_id fip)); [apply traces_only_raise|].
  apply traces_only_bind.
  { apply dns_cleanup_traces. intros [] He; try discriminate He; try reflexivity.
    destruct call; try discriminate He; reflexivity. }
  intros _. unfold_db. frame; try reflexivity.
  simpl. apply String.eqb_refl.
Qed.

(** Whatever the collaborators answer, [associate_floating_ip] and
    [disassociate_floating_ip] never call the quota engine or the DNS
    managers, never allocate, release or update a floating IP, and bind,
    unbind and drive only the floating address they were given. *)
Theorem association_only_binds (env : Env) (ctx : Context)
    (floating_address fixed_address : string) (affect_auto_assigned : bool)
    (w : World) :
  forallb (association_call floating_address)
    (events_since w
       (world_of
          (associate_floating_ip env ctx floating_address fixed_address
             affect_auto_assigned w))) = true /\
  forallb (association_call floating_address)
    (events_since w
       (world_of
          (disassociate_floating_ip env ctx floating_address
             affect_auto_assigned w))) = true.
Proof.
  assert (Hd : forall affect,
             traces_only (association_call floating_address)
               (disassociate_floating_ip env ctx floating_address affect)).
  { intros affect.
    unfold disassociate_floating_ip, _disassociate_floating_ip,
      _floating_ip_owned_by_project.
    unfold_db. frame; try reflexivity; simpl; apply String.eqb_refl. }
  split; apply traces_only_events; [|apply Hd].
  unfold associate_floating_ip, _associate_floating_ip,
    _floating_ip_owned_by_project.
  apply traces_only_client_exceptions.
  apply traces_only_bind; [unfold_db; frame; reflexivity|]. intros fip.
  destruct (negb affect_auto_assigned && fl_auto_assigned fip);
    [apply traces_only_ret|].
  apply traces_only_bind; [frame; reflexivity|]. intros _.
  cbv zeta.
  destruct (truthy_opt_int (fl_fixed_ip_id fip)).
  - apply traces_only_bind; [unfold_db; frame; reflexivity|]. intros x.
    destruct (String.eqb (fx_address (fst x)) fixed_address);
      [apply traces_only_ret|].
    apply traces_only_bind; [apply Hd|]. intros _.
    unfold_db. frame; try reflexivity; simpl; apply String.eqb_refl.
  - unfold_db. frame; try reflexivity; simpl; apply String.eqb_refl.
Qed.

(** Whatever the collaborators answer, [migrate_instance_start] only
    reads the store, clears [host] fields, removes forwarding rules and
    cleans conntrack entries, and [migrate_instance_finish] only reads the
    store, sets [host] fields to the destination and adds forwarding
    rules; neither calls the quota engine, the notifier or the rpc API, nor
    binds or unbinds an address. *)
Theorem migration_only_moves (env : Env) (ctx : Context)
    (instance_uuid : string) (floating_addresses : list string)
    (host source dest : option string) (w : World) :
  forallb (migration_call true None)
    (events_since w
       (world_of
          (migrate_instance_start env ctx instance_uuid floating_addresses
             source dest w))) = true /\
  forallb
    (migration_call false
       (if truthy_opt_str host && negb (truthy_opt_str dest)
        then host else dest))
    (events_since w
       (world_of
          (migrate_instance_finish env ctx instance_uuid floating_addresses
             host source dest w))) = true.
Proof.
  split; apply traces_only_events.
  - unfold migrate_instance_start, migrate_instance_start_address,
      _is_stale_floating_ip_address, _floating_ip_owned_by_project,
      stale_warning_start.
    unfold_db. frame; reflexivity.
  - unfold migrate_instance_finish, migrate_instance_finish_address,
      _is_stale_floating_ip_address, _floating_ip_owned_by_project,
      stale_warning_finish.
    unfold_db. cbv zeta.
    set (d := if truthy_opt_str host && negb (truthy_opt_str dest)
              then host else dest).
    frame; try reflexivity. simpl. apply opt_str_eqb_refl.
Qed.

(** ** Migrations with nothing to do *)

Lemma traces_only_reads_first {A} (env : Env) (ctx : Context) (call : DbCall)
    (answer : Store -> Res A) (k : A -> M unit) :
  (forall a, traces_only (fun _ => true) (k a)) ->
  forall w,
    exists r st failure evs,
      bind (db_read env ctx call answer) k w
      = (r, {| w_store := st;
               w_trace := w_trace w ++ EvDb ctx call failure :: evs |}).
Proof.
  intros Hk w. unfold bind, db_read.
  destruct (db_fault env ctx call w) as [e|].
  { exists (Raise e), (w_store w), (Some e), []. reflexivity. }
  destruct (answer (w_store w)) as [a|e]; cbn [raised].
  - destruct (Hk a (emit (EvDb ctx call None) w)) as (r & st & evs & -> & _).
    exists r, st, None, evs. unfold emit; cbn [w_store w_trace].
    rewrite <- app_assoc. reflexivity.
  - exists (Raise e), (w_store w), (Some e), []. reflexivity.
Qed.

Lemma migration_proceeds (addrs : list string) (source dest : option string) :
  addrs <> [] ->
  truthy_opt_str source = false \/ source <> dest ->
  nothing_to_migrate addrs source dest = false.
Proof.
  intros Hsome Hmove. unfold nothing_to_migrate.
  destruct addrs; [contradiction|]. cbn [truthy_list negb orb].
  destruct Hmove as [-> | Hmove]; [reflexivity|].
  apply opt_str_eqb_neq in Hmove. rewrite Hmove. apply andb_false_r.
Qed.

Lemma migration_stays (addrs : list string) (source dest : option string) :
  addrs = [] \/ (truthy_opt_str source = true /\ source = dest) ->
  nothing_to_migrate addrs source dest = true.
Proof.
  unfold nothing_to_migrate. intros [-> | [Hs <-]]; [reflexivity|].
  rewrite Hs, opt_str_eqb_refl. apply orb_true_r.
Qed.

Section FirstLookup.

Variable env : Env.
Variable ctx : Context.
Variable instance_uuid : string.

(** A start phase that has something to do begins with the lookup of the
    first listed address. *)
Lemma start_reads_first (a : string) (rest : list string)
    (source dest : option string) (w : World) :
  nothing_to_migrate (a :: rest) source dest = false ->
  hd_error
    (store_calls
       (events_since w
          (world_of
             (migrate_instance_start env ctx instance_uuid (a :: rest)
                source dest w))))
  = Some (Db_floating_ip_get_by_address a).
Proof.
  intros Hgo. unfold migrate_instance_start. rewrite Hgo.
  unfold LOG at 1. unfold bind at 1. cbn [for_each].
  unfold migrate_instance_start_address at 1.
  rewrite bind_assoc. unfold db_floating_ip_get_by_address at 1.
  match goal with
  | |- context [bind (db_read env ctx ?call ?answer) ?k ?w1] =>
      destruct (traces_only_reads_first env ctx call answer k) with (w := w1)
        as (r & st & failure & evs & ->)
  end.
  - intros f.
    unfold migrate_instance_start_address, _is_stale_floating_ip_address,
      _floating_ip_owned_by_project.
    unfold_db. frame; reflexivity.
  - unfold world_of, emit; cbn [snd w_trace].
    rewrite <- app_assoc, events_since_app. reflexivity.
Qed.

(** So does a finish phase, for the destination it uses. *)
Lemma finish_reads_first (a : string) (rest : list string)
    (host source dest : option string) (w : World) :
  nothing_to_migrate (a :: rest) source
    (if truthy_opt_str host && negb (truthy_opt_str dest) then host else dest)
  = false ->
  hd_error
    (store_calls
       (events_since w
          (world_of
             (migrate_instance_finish env ctx instance_uuid (a :: rest) host
                source dest w))))
  = Some (Db_floating_ip_get_by_address a).
Proof.
  intros Hgo. unfold migrate_instance_finish. cbv zeta. rewrite Hgo.
  unfold LOG at 1. unfold bind at 1. cbn [for_each].
  unfold migrate_instance_finish_address at 1.
  rewrite bind_assoc. unfold db_floating_ip_get_by_address at 1.
  match goal with
  | |- context [bind (db_read env ctx ?call ?answer) ?k ?w1] =>
      destruct (traces_only_reads_first env ctx call answer k) with (w := w1)
        as (r & st & failure & evs & ->)
  end.
  - intros f.
    unfold migrate_instance_finish_address, _is_stale_floating_ip_address,
      _floating_ip_owned_by_project.
    unfold_db. frame; reflexivity.
  - unfold world_of, emit; cbn [snd w_trace].
    rewrite <- app_assoc, events_since_app. reflexivity.
Qed.

End FirstLookup.

(** C9, as the code has it: [migrate_instance_start] returns at once,
    without a call to any collaborator, when the address list is empty or
    when [source] is given (not [None], not empty) and equals [dest]; so
    does [migrate_instance_finish], where the destination that is compared
    with [source] is [dest], or [host] when [host] is given and [dest] is
    not.  In every other case, so for a list that is not empty when
    [source] is absent, empty or differs from the destination, the phase
    does not return at once: its first store call is the lookup of the
    first listed address.  This is so in particular when [source] and
    [dest] are both absent. *)
Theorem migrate_nothing_to_do (env : Env) (ctx : Context)
    (instance_uuid : string) (floating_addresses : list string)
    (host source dest : option string) (w : World) :
  let destination :=
    if truthy_opt_str host && negb (truthy_opt_str dest) then host else dest
  in
  let started :=
    migrate_instance_start env ctx instance_uuid floating_addresses source
      dest w in
  let finished :=
    migrate_instance_finish env ctx instance_uuid floating_addresses host
      source dest w in
  (floating_addresses = [] \/
   (truthy_opt_str source = true /\ source = dest) ->
   started = (Ok tt, w)) /\
  (floating_addresses = [] \/
   (truthy_opt_str source = true /\
    (source = dest \/ source = destination)) ->
   finished = (Ok tt, w)) /\
  (forall a rest,
     floating_addresses = a :: rest ->
     truthy_opt_str source = false \/ source <> dest ->
     hd_error (store_calls (events_since w (world_of started)))
     = Some (Db_floating_ip_get_by_address a)) /\
  (forall a rest,
     floating_addresses = a :: rest ->
     truthy_opt_str source = false \/ source <> destination ->
     hd_error (store_calls (events_since w (world_of finished)))
     = Some (Db_floating_ip_get_by_address a)).
Proof.
  intros destination started finished.
  split; [|split; [|split]].
  - intros Hnothing. subst started. unfold migrate_instance_start.
    rewrite (migration_stays _ _ _ Hnothing). reflexivity.
  - intros Hnothing. subst finished. unfold migrate_instance_finish.
    cbv zeta. fold destination.
    rewrite migration_stays; [reflexivity|].
    destruct Hnothing as [Hempty | [Hs [Hd | Hd]]];
      [left; exact Hempty | | right; split; assumption].
    right. split; [exact Hs|]. subst destination dest.
    rewrite Hs, andb_false_r. reflexivity.
  - intros a rest -> Hmove. subst started.
    apply start_reads_first. apply migration_proceeds; [discriminate|].
    exact Hmove.
  - intros a rest -> Hmove. subst finished.
    apply finish_reads_first. apply migration_proceeds; [discriminate|].
    exact Hmove.
Qed.

Lemma migrate_nothing_to_do_witness :
  (migrate_instance_start Example.healthy Example.projA "uuid-1"
     ["172.24.4.1"] (Some "host1") (Some "host1") Example.world =
     (Ok tt, Example.world) /\
   migrate_instance_finish Example.healthy Example.projA "uuid-1"
     ["172.24.4.1"] (Some "host1") (Some "host1") (Some "host1")
     Example.world = (Ok tt, Example.world)) /\
  (hd_error
     (store_calls
        (events_since Example.world
           (world_of
              (migrate_instance_start Example.healthy Example.projA "uuid-1"
                 ["172.24.4.1"] None None Example.world))))
   = Some (Db_floating_ip_get_by_address "172.24.4.1") /\
   hd_error
     (store_calls
        (events_since Example.world
           (world_of
              (migrate_instance_finish Example.healthy Example.projA "uuid-1"
                 ["172.24.4.1"] None None None Example.world))))
   = Some (Db_floating_ip_get_by_address "172.24.4.1")).
Proof.
  split.
  - destruct (migrate_nothing_to_do Example.healthy Example.projA "uuid-1"
                ["172.24.4.1"] (Some "host1") (Some "host1") (Some "host1")
                Example.world) as (Hstart & Hfinish & _).
    split; [apply Hstart | apply Hfinish]; right; split;
      [reflexivity | reflexivity | reflexivity | left; reflexivity].
  - destruct (migrate_nothing_to_do Example.healthy Example.projA "uuid-1"
                ["172.24.4.1"] None None None Example.world)
      as (_ & _ & Hstart & Hfinish).
    split; [apply (Hstart "172.24.4.1" []) | apply (Hfinish "172.24.4.1" [])];
      try reflexivity; left; reflexivity.
Defined.

(** C9, as stated, fails: with [source] and [dest] both absent (and so
    equal) and one address to migrate, both phases read the store, call the
    driver and write the store. *)
Lemma migrate_absent_hosts_not_noop :
  let started :=
    migrate_instance_start Example.healthy Example.projA "uuid-1"
      ["172.24.4.1"] None None Example.world in
  let finished :=
    migrate_instance_finish Example.healthy Example.projA "uuid-1"
      ["172.24.4.1"] None None None Example.world in
  store_calls (w_trace (world_of started)) =
    [Db_floating_ip_get_by_address "172.24.4.1";
     Db_fixed_ip_get (Some 1) true;
     Db_floating_ip_update "172.24.4.1" None] /\
  removed_addresses (w_trace (world_of started)) = ["172.24.4.1"] /\
  store_calls (w_trace (world_of finished)) =
    [Db_floating_ip_get_by_address "172.24.4.1";
     Db_floating_ip_update "172.24.4.1" None;
     Db_fixed_ip_get (Some 1) true] /\
  added_addresses (w_trace (world_of finished)) = ["172.24.4.1"].
Proof. repeat split; reflexivity. Qed.

(** ** Deallocation *)

(** [deallocate_floating_ip] leaves an auto-assigned floating IP alone
    unless [affect_auto_assigned] is set: the call returns without an
    error, having only read the record; also for a caller that does not own
    the address, and also when the address is still bound. *)
Theorem deallocate_skips_auto_assigned (env : Env) (ctx : Context)
    (address : string) (w : World) (fip : FloatingIp)
    (Hfault : db_fault env ctx (Db_floating_ip_get_by_address address) w = None)
    (Hfip : StoreGateway.find_floating (w_store w) address = Some fip)
    (Hauto : fl_auto_assigned fip = true) :
  deallocate_floating_ip env ctx address false w =
    (Ok tt, emit (EvDb ctx (Db_floating_ip_get_by_address address) None) w).
Proof.
  unfold deallocate_floating_ip, client_exceptions.
  rewrite (bind_ok _ _ _ _ _ (fetch_floating_ip env ctx address w fip Hfault Hfip)).
  rewrite Hauto; reflexivity.
Qed.

Lemma deallocate_skips_auto_assigned_witness :
  deallocate_floating_ip Example.healthy Example.projB "172.24.4.4" false
    Example.world =
    (Ok tt,
     emit (EvDb Example.projB (Db_floating_ip_get_by_address "172.24.4.4") None)
       Example.world).
Proof.
  apply (deallocate_skips_auto_assigned Example.healthy Example.projB
           "172.24.4.4" Example.world
           (mkFloatingIp "172.24.4.4" "nova" (Some "projA") (Some 2) true
              (Some "host1") None));
    reflexivity.
Defined.

(** [deallocate_floating_ip] refuses an address that is still bound to a
    fixed IP: for a caller that passes the auto-assigned guard and the
    ownership check it raises [FloatingIpAssociated] for that address,
    before any DNS entry is deleted, any notification sent or any
    reservation taken; the store is unchanged. *)
Theorem deallocate_refuses_associated (env : Env) (ctx : Context)
    (address : string) (affect_auto_assigned : bool) (w : World)
    (fip : FloatingIp)
    (Hfault : db_fault env ctx (Db_floating_ip_get_by_address address) w = None)
    (Hfip : StoreGateway.find_floating (w_store w) address = Some fip)
    (Hguard : negb affect_auto_assigned && fl_auto_assigned fip = false)
    (Howned : owned_by ctx fip = true)
    (Hbound : truthy_opt_int (fl_fixed_ip_id fip) = true) :
  deallocate_floating_ip env ctx address affect_auto_assigned w =
    (Raise (FloatingIpAssociated address),
     emit (EvDb ctx (Db_floating_ip_get_by_address address) None) w).
Proof.
  unfold deallocate_floating_ip, client_exceptions.
  rewrite (bind_ok _ _ _ _ _ (fetch_floating_ip env ctx address w fip Hfault Hfip)).
  rewrite Hguard.
  rewrite (bind_ok _ _ _ _ _ (owner_passes ctx fip _ Howned)).
  rewrite Hbound, (find_floating_address _ _ _ Hfip). reflexivity.
Qed.

Lemma deallocate_refuses_associated_witness :
  deallocate_floating_ip Example.healthy Example.projA "172.24.4.1" false
    Example.world =
    (Raise (FloatingIpAssociated "172.24.4.1"),
     emit (EvDb Example.projA (Db_floating_ip_get_by_address "172.24.4.1") None)
       Example.world).
Proof.
  apply (deallocate_refuses_associated Example.healthy Example.projA
           "172.24.4.1" false Example.world
           (mkFloatingIp "172.24.4.1" "nova" (Some "projA") (Some 1) false
              (Some "host1") None));
    reflexivity.
Defined.

(** ** Disassociation *)

(** [disassociate_floating_ip] on a floating IP that is not bound raises
    [FloatingIpNotAssociated] for that address, for a caller that passes
    the auto-assigned guard and the ownership check; it has only read the
    record: the store is unchanged and no driver is called. *)
Theorem disassociate_refuses_unbound (env : Env) (ctx : Context)
    (address : string) (affect_auto_assigned : bool) (w : World)
    (fip : FloatingIp)
    (Hfault : db_fault env ctx (Db_floating_ip_get_by_address address) w = None)
    (Hfip : StoreGateway.find_floating (w_store w) address = Some fip)
    (Hguard : negb affect_auto_assigned && fl_auto_assigned fip = false)
    (Howned : owned_by ctx fip = true)
    (Hunbound : truthy_opt_int (fl_fixed_ip_id fip) = false) :
  disassociate_floating_ip env ctx address affect_auto_assigned w =
    (Raise (FloatingIpNotAssociated address),
     emit (EvDb ctx (Db_floating_ip_get_by_address address) None) w).
Proof.
  unfold disassociate_floating_ip, client_exceptions.
  rewrite (bind_ok _ _ _ _ _ (fetch_floating_ip env ctx address w fip Hfault Hfip)).
  rewrite Hguard.
  rewrite (bind_ok _ _ _ _ _ (owner_passes ctx fip _ Howned)).
  rewrite Hunbound, (find_floating_address _ _ _ Hfip). reflexivity.
Qed.

Lemma disassociate_refuses_unbound_witness :
  disassociate_floating_ip Example.healthy Example.projA "172.24.4.2" false
    Example.world =
    (Raise (FloatingIpNotAssociated "172.24.4.2"),
     emit (EvDb Example.projA (Db_floating_ip_get_by_address "172.24.4.2") None)
       Example.world).
Proof.
  apply (disassociate_refuses_unbound Example.healthy Example.projA
           "172.24.4.2" false Example.world
           (mkFloatingIp "172.24.4.2" "nova" (Some "projA") None false None
              None));
    reflexivity.
Defined.

Lemma traces_only_result {A} (kind : Event -> bool) (m : M A) (w w' : World)
    (r : Res A) :
  traces_only kind m -> m w = (r, w') ->
  forallb kind (events_since w w') = true.
Proof.
  intros H Hm. pose proof (traces_only_events kind m w H) as He.
  rewrite Hm in He. exact He.
Qed.

Section Reads.

Variable env : Env.
Variable kind : Event -> bool.

Lemma emits_only_ret {A} (a : A) : emits_only kind (ret a).
Proof.
  intros w. exists (Ok a), []. rewrite app_nil_r.
  destruct w; split; reflexivity.
Qed.

Lemma emits_only_raise {A} (e : exn) : emits_only kind (@raise A e).
Proof.
  intros w. exists (Raise e), []. rewrite app_nil_r.
  destruct w; split; reflexivity.
Qed.

Lemma emits_only_bind {A B} (m : M A) (k : A -> M B) :
  emits_only kind m -> (forall a, emits_only kind (k a)) ->
  emits_only kind (bind m k).
Proof.
  intros Hm Hk w. unfold bind.
  destruct (Hm w) as (r & evs & -> & He).
  destruct r as [a|e].
  - destruct (Hk a {| w_store := w_store w; w_trace := w_trace w ++ evs |})
      as (r' & evs' & -> & He').
    exists r', (evs ++ evs'). simpl. rewrite <- app_assoc.
    split; [reflexivity|]. rewrite forallb_app, He, He'; reflexivity.
  - exists (Raise e), evs. split; [reflexivity | exact He].
Qed.

Lemma emits_only_for_each {A} (l : list A) (body : A -> M unit) :
  (forall a, emits_only kind (body a)) ->
  emits_only kind (for_each l body).
Proof.
  intros Hb. induction l as [|a l IH]; cbn [for_each].
  - apply emits_only_ret.
  - apply emits_only_bind; [apply Hb | intros _; exact IH].
Qed.

Lemma emits_only_fold_m {A S} (l : list A) (body : S -> A -> M S) :
  (forall s a, emits_only kind (body s a)) ->
  forall acc, emits_only kind (fold_m l acc body).
Proof.
  intros Hb. induction l as [|a l IH]; intros acc; cbn [fold_m].
  - apply emits_only_ret.
  - apply emits_only_bind; [apply Hb | intros s; apply IH].
Qed.

Lemma emits_only_LOG (level : LogLevel) (message : string)
    (args : list (option string)) :
  kind (EvLog level message args) = true ->
  emits_only kind (LOG level message args).
Proof.
  intros Hk w. exists (Ok tt), [EvLog level message args].
  split; [reflexivity|]. simpl; rewrite Hk; reflexivity.
Qed.

Lemma emits_only_db_read {A} (ctx : Context) (call : DbCall)
    (answer : Store -> Res A) :
  (forall o, kind (EvDb ctx call o) = true) ->
  emits_only kind (db_read env ctx call answer).
Proof.
  intros Hk w. unfold db_read.
  destruct (db_fault env ctx call w);
    eexists; eexists; (split; [reflexivity|]); simpl; rewrite Hk; reflexivity.
Qed.

Lemma emits_only_dns (call : DnsCall) :
  (forall o, kind (EvDns call o) = true) ->
  emits_only kind (dns_manager env call).
Proof.
  intros Hk w. unfold dns_manager.
  eexists; eexists; (split; [reflexivity|]); simpl; rewrite Hk; reflexivity.
Qed.

End Reads.

Ltac reads :=
  repeat
    match goal with
    | |- forall _, _ => intro
    | |- emits_only _ (bind _ _) => apply emits_only_bind
    | |- emits_only _ (ret _) => apply emits_only_ret
    | |- emits_only _ (raise _) => apply emits_only_raise
    | |- emits_only _ (for_each _ _) => apply emits_only_for_each
    | |- emits_only _ (fold_m _ _ _) => apply emits_only_fold_m
    | |- emits_only _ (LOG _ _ _) => apply emits_only_LOG
    | |- emits_only _ (db_read _ _ _ _) => apply emits_only_db_read
    | |- emits_only _ (dns_manager _ _) => apply emits_only_dns
    | |- emits_only _ (if ?b then _ else _) => destruct b
    | |- emits_only _ (match ?x with _ => _ end) => destruct x
    end.

Lemma dns_cleanup_reads (env : Env) (ctx : Context) (address : string) :
  emits_only is_dns_event (_delete_all_entries_for_ip env ctx address).
Proof.
  unfold _delete_all_entries_for_ip, get_dns_domains, _prepare_domain_entry,
    get_dns_entries_by_address, delete_dns_entry.
  unfold_db. reads; reflexivity.
Qed.

Lemma dns_cleanup_keeps_store (env : Env) (ctx : Context) (address : string)
    (w w' : World) (r : Res unit) :
  _delete_all_entries_for_ip env ctx address w = (r, w') ->
  w_store w' = w_store w.
Proof.
  intros H. destruct (dns_cleanup_reads env ctx address w) as (r' & evs & E & _).
  rewrite H in E. injection E as _ ->. reflexivity.
Qed.

Section Deallocation.

Variable env : Env.
Variable ctx : Context.
Variable address : string.
Variable affect_auto_assigned : bool.
Variable w w2 : World.
Variable fip : FloatingIp.

Hypothesis Hdb : db_reliable env.
Hypothesis Hfip : StoreGateway.find_floating (w_store w) address = Some fip.
Hypothesis Hguard : negb affect_auto_assigned && fl_auto_assigned fip = false.
Hypothesis Howned : owned_by ctx fip = true.
Hypothesis Hunbound : truthy_opt_int (fl_fixed_ip_id fip) = false.
Hypothesis Hdns :
  _delete_all_entries_for_ip env ctx address
    (emit (EvDb ctx (Db_floating_ip_get_by_address address) None) w)
  = (Ok tt, w2).
Hypothesis Hnotify :
  forall event_type payload w',
    notifier_notify env ctx event_type payload w' = None.

(** The run of [deallocate_floating_ip] up to the reservation. *)
Lemma deallocate_reaches_reservation :
  forall k : FloatingIp -> M unit,
    client_exceptions env is_FloatingIpNotFoundForAddress
      (floating_ip <- db_floating_ip_get_by_address env ctx address ;;
       if negb affect_auto_assigned && fl_auto_assigned floating_ip
       then ret tt
       else
         _floating_ip_owned_by_project ctx floating_ip ;;
         if truthy_opt_int (fl_fixed_ip_id floating_ip)
         then raise (FloatingIpAssociated (fl_address floating_ip))
         else
           _delete_all_entries_for_ip env ctx (fl_address floating_ip) ;;
           notify env ctx "network.floating_ip.deallocate"
             [("project_id", fl_project_id floating_ip);
              ("floating_ip", Some (fl_address floating_ip))] ;;
           k floating_ip) w
    = client_exceptions env is_FloatingIpNotFoundForAddress (k fip)
        (emit
           (EvNotify "network.floating_ip.deallocate"
              [("project_id", fl_project_id fip); ("floating_ip", Some address)]
              None) w2).
Proof.
  intros k.
  pose proof (find_floating_address _ _ _ Hfip) as Ha.
  unfold client_exceptions.
  rewrite (bind_ok _ _ _ _ _
             (fetch_floating_ip env ctx address w fip (Hdb _ _ _) Hfip)).
  rewrite Hguard.
  rewrite (bind_ok _ _ _ _ _ (owner_passes ctx fip _ Howned)).
  rewrite Hunbound, Ha.
  rewrite (bind_ok _ _ _ _ _ Hdns).
  unfold notify at 1. unfold bind at 1. rewrite Hnotify. reflexivity.
Qed.

Ltac run_tail :=
  unfold client_exceptions, bind, try_except, QUOTAS_reserve, QUOTAS_commit,
    db_floating_ip_deallocate, db_write, local, result_of, world_of.

(** [deallocate_floating_ip] of an unbound address that is not
    auto-assigned, by a caller that passes the checks, when the DNS cleanup,
    the notifier, the quota engine and the store all serve their calls:
    after the notification the manager reserves [-1], releases the address
    in the store (its owning project is cleared) and only then commits the
    reservation.  The commit depends on what the reservation returned: for
    an empty list of reservations nothing is committed. *)
Theorem deallocate_commits_after_release (h : Handle) :
  fl_auto_assigned fip = false ->
  (forall w', quota_reserve env ctx (-1) w' = Ok h) ->
  (forall w', quota_commit env ctx h w' = None) ->
  let run := deallocate_floating_ip env ctx address affect_auto_assigned w in
  result_of run = Ok tt /\
  w_store (world_of run) =
    StoreGateway.update_floating address (StoreGateway.set_project None)
      (w_store w) /\
  events_since w2 (world_of run) =
    [EvNotify "network.floating_ip.deallocate"
       [("project_id", fl_project_id fip); ("floating_ip", Some address)] None;
     EvQuotaReserve ctx (-1) (Ok h);
     EvDb ctx (Db_floating_ip_deallocate address) None]
    ++ (if truthy_list h then [EvQuotaCommit ctx h None] else []).
Proof.
  intros Hquota Hreserve Hcommit run. subst run.
  unfold deallocate_floating_ip. cbv zeta.
  rewrite deallocate_reaches_reservation.
  rewrite Hquota. run_tail. cbn [negb]. tidy.
  rewrite Hreserve, Hdb. tidy.
  destruct h as [|r h']; cbn [truthy_opt_list truthy_list].
  - tidy. rewrite (dns_cleanup_keeps_store _ _ _ _ _ _ Hdns).
    rewrite events_since_app. repeat split.
  - rewrite Hcommit. tidy.
    rewrite (dns_cleanup_keeps_store _ _ _ _ _ _ Hdns).
    rewrite events_since_app. repeat split.
Qed.

(** A reservation that cannot be taken does not stop a deallocation:
    whatever [QUOTAS.reserve] raises, [deallocate_floating_ip] logs the
    failure, releases the address in the store and returns normally, with
    no commit. *)
Theorem deallocate_survives_quota_failure (e : exn) :
  fl_auto_assigned fip = false ->
  (forall w', quota_reserve env ctx (-1) w' = Raise e) ->
  let run := deallocate_floating_ip env ctx address affect_auto_assigned w in
  result_of run = Ok tt /\
  w_store (world_of run) =
    StoreGateway.update_floating address (StoreGateway.set_project None)
      (w_store w) /\
  events_since w2 (world_of run) =
    [EvNotify "network.floating_ip.deallocate"
       [("project_id", fl_project_id fip); ("floating_ip", Some address)] None;
     EvQuotaReserve ctx (-1) (Raise e);
     EvLog LogException "Failed to update usages deallocating floating IP" [];
     EvDb ctx (Db_floating_ip_deallocate address) None].
Proof.
  intros Hquota Hreserve run. subst run.
  unfold deallocate_floating_ip. cbv zeta.
  rewrite deallocate_reaches_reservation.
  rewrite Hquota. run_tail. cbn [negb]. tidy.
  rewrite Hreserve. tidy. rewrite Hdb. tidy.
  rewrite (dns_cleanup_keeps_store _ _ _ _ _ _ Hdns).
  rewrite events_since_app. repeat split.
Qed.

(** The deallocation of an auto-assigned address (with
    [affect_auto_assigned] set, or the guard would return) is outside the
    quota: after the notification the address is released in the store and
    the quota engine is not called. *)
Theorem deallocate_auto_assigned_skips_quota :
  fl_auto_assigned fip = true ->
  let run := deallocate_floating_ip env ctx address affect_auto_assigned w in
  result_of run = Ok tt /\
  w_store (world_of run) =
    StoreGateway.update_floating address (StoreGateway.set_project None)
      (w_store w) /\
  events_since w2 (world_of run) =
    [EvNotify "network.floating_ip.deallocate"
       [("project_id", fl_project_id fip); ("floating_ip", Some address)] None;
     EvDb ctx (Db_floating_ip_deallocate address) None].
Proof.
  intros Hauto run. subst run.
  unfold deallocate_floating_ip. cbv zeta.
  rewrite deallocate_reaches_reservation.
  rewrite Hauto. run_tail. cbn [negb]. tidy.
  rewrite Hdb. tidy.
  rewrite (dns_cleanup_keeps_store _ _ _ _ _ _ Hdns).
  rewrite events_since_app. repeat split.
Qed.

End Deallocation.

Lemma deallocate_commits_after_release_witness :
  let run :=
    deallocate_floating_ip Example.healthy Example.projA "172.24.4.2" false
      Example.world in
  result_of run = Ok tt /\
  option_map fl_project_id
    (StoreGateway.find_floating (w_store (world_of run)) "172.24.4.2")
  = Some None /\
  store_calls (w_trace (world_of run)) =
    [Db_floating_ip_get_by_address "172.24.4.2"; Db_dnsdomain_list;
     Db_floating_ip_deallocate "172.24.4.2"] /\
  commits_of ["reservation-1"] (w_trace (world_of run)) = 1%nat.
Proof.
  destruct (deallocate_commits_after_release Example.healthy Example.projA
              "172.24.4.2" false Example.world
              (world_of
                 (_delete_all_entries_for_ip Example.healthy Example.projA
                    "172.24.4.2"
                    (emit (EvDb Example.projA
                             (Db_floating_ip_get_by_address "172.24.4.2") None)
                       Example.world)))
              (mkFloatingIp "172.24.4.2" "nova" (Some "projA") None false None
                 None)
              (fun _ _ _ => eq_refl) eq_refl eq_refl eq_refl eq_refl eq_refl
              (fun _ _ _ => eq_refl) ["reservation-1"] eq_refl
              (fun _ => eq_refl) (fun _ => eq_refl))
    as (Hr & Hs & He).
  split; [exact Hr|]. repeat split; vm_compute; reflexivity.
Defined.

Lemma deallocate_survives_quota_failure_witness :
  let run :=
    deallocate_floating_ip Scenario.quota_down Example.projA "172.24.4.2"
      false Example.world in
  result_of run = Ok tt /\
  option_map fl_project_id
    (StoreGateway.find_floating (w_store (world_of run)) "172.24.4.2")
  = Some None /\
  commits_of ["reservation-1"] (w_trace (world_of run)) = 0%nat.
Proof.
  destruct (deallocate_survives_quota_failure Scenario.quota_down
              Example.projA "172.24.4.2" false Example.world
              (world_of
                 (_delete_all_entries_for_ip Scenario.quota_down Example.projA
                    "172.24.4.2"
                    (emit (EvDb Example.projA
                             (Db_floating_ip_get_by_address "172.24.4.2") None)
                       Example.world)))
              (mkFloatingIp "172.24.4.2" "nova" (Some "projA") None false None
                 None)
              (fun _ _ _ => eq_refl) eq_refl eq_refl eq_refl eq_refl eq_refl
              (fun _ _ _ => eq_refl) (OtherError "QuotaError") eq_refl
              (fun _ => eq_refl))
    as (Hr & Hs & He).
  split; [exact Hr|]. repeat split; vm_compute; reflexivity.
Defined.

Lemma deallocate_auto_assigned_skips_quota_witness :
  let run :=
    deallocate_floating_ip Example.healthy Example.projA "172.24.4.6" true
      Scenario.world_with_idle_auto in
  result_of run = Ok tt /\
  option_map fl_project_id
    (StoreGateway.find_floating (w_store (world_of run)) "172.24.4.6")
  = Some None /\
  filter is_quota_event (w_trace (world_of run)) = [].
Proof.
  destruct (deallocate_auto_assigned_skips_quota Example.healthy
              Example.projA "172.24.4.6" true Scenario.world_with_idle_auto
              (world_of
                 (_delete_all_entries_for_ip Example.healthy Example.projA
                    "172.24.4.6"
                    (emit (EvDb Example.projA
                             (Db_floating_ip_get_by_address "172.24.4.6") None)
                       Scenario.world_with_idle_auto)))
              (mkFloatingIp "172.24.4.6" "nova" (Some "projA") None true None
                 None)
              (fun _ _ _ => eq_refl) eq_refl eq_refl eq_refl eq_refl eq_refl
              (fun _ _ _ => eq_refl) eq_refl)
    as (Hr & Hs & He).
  split; [exact Hr|]. repeat split; vm_compute; reflexivity.
Defined.

(** ** Association *)

Lemma bind_ret_result {A B} (m : M A) (b b' : B) (w : World) :
  result_of (bind m (fun _ => ret b) w) = Ok b' -> b' = b.
Proof.
  unfold bind, ret, result_of. destruct (m w) as [[a|e] w']; simpl;
    intros H; [injection H as <-; reflexivity | discriminate].
Qed.

(** When [associate_floating_ip] returns, it returns the uuid of the
    instance whose fixed IP the floating IP was bound to before the call,
    if it was bound to another fixed address than the one asked for, and
    [None] in every other case: the address was not bound, it was already
    bound to the address asked for, or the auto-assigned guard returned. *)
Theorem associate_returns_previous_instance (env : Env) (ctx : Context)
    (floating_address fixed_address : string) (affect_auto_assigned : bool)
    (w : World) (fip : FloatingIp) (r : option string)
    (Hfault :
       db_fault env ctx (Db_floating_ip_get_by_address floating_address) w
       = None)
    (Hfip : StoreGateway.find_floating (w_store w) floating_address = Some fip)
    (Hreturns :
       result_of
         (associate_floating_ip env ctx floating_address fixed_address
            affect_auto_assigned w) = Ok r) :
  r = match StoreGateway.find_fixed (w_store w) (fl_fixed_ip_id fip) with
      | Some x =>
          if (negb affect_auto_assigned && fl_auto_assigned fip)
             || negb (truthy_opt_int (fl_fixed_ip_id fip))
             || String.eqb (fx_address x) fixed_address
          then None
          else fx_instance_uuid x
      | None => None
      end.
Proof.
  apply client_exceptions_ok in Hreturns.
  revert Hreturns. unfold associate_floating_ip.
  rewrite (bind_ok _ _ _ _ _
             (fetch_floating_ip env ctx floating_address w fip Hfault Hfip)).
  assert (Hnone : forall T (t : option T),
             match t with Some _ => @None string | None => None end = None)
    by (intros T []; reflexivity).
  destruct (negb affect_auto_assigned && fl_auto_assigned fip); cbn [orb].
  { intros H; injection H as <-.
    destruct (StoreGateway.find_fixed _ _); reflexivity. }
  intros H. apply bind_inv in H. destruct H as ([] & w1 & Hown & H).
  assert (Hs1 : w_store w1 = w_store w).
  { unfold _floating_ip_owned_by_project in Hown.
    destruct (is_admin ctx); [injection Hown as <-; reflexivity|].
    destruct (negb _); [|injection Hown as <-; reflexivity].
    destruct (fl_project_id fip); discriminate Hown. }
  cbv zeta in H.
  destruct (truthy_opt_int (fl_fixed_ip_id fip)); cbn [negb orb].
  - apply bind_inv in H. destruct H as (xn & w2 & Hget & H).
    unfold db_fixed_ip_get, db_read in Hget.
    destruct (db_fault env ctx _ w1); [discriminate Hget|].
    unfold StoreGateway.fixed_ip_get in Hget. rewrite Hs1 in Hget.
    destruct (StoreGateway.find_fixed (w_store w) (fl_fixed_ip_id fip))
      as [x|]; [|discriminate Hget].
    injection Hget as <- <-. cbn [fst StoreGateway.with_network] in H.
    destruct (String.eqb (fx_address x) fixed_address).
    + injection H as <-; reflexivity.
    + apply bind_inv in H. destruct H as ([] & w3 & _ & H).
      apply bind_inv in H. destruct H as (y & w4 & _ & H).
      apply bind_inv in H. destruct H as (n & w5 & _ & H).
      apply bind_inv in H. destruct H as (hst & w6 & _ & H).
      apply bind_ret_result in H. exact H.
  - apply bind_inv in H. destruct H as (y & w4 & _ & H).
    apply bind_inv in H. destruct H as (n & w5 & _ & H).
    apply bind_inv in H. destruct H as (hst & w6 & _ & H).
    apply bind_ret_result in H. rewrite H.
    destruct (StoreGateway.find_fixed _ _); reflexivity.
Qed.

Lemma associate_returns_previous_instance_witness :
  Some "uuid-1" =
  match StoreGateway.find_fixed (w_store Example.world) (Some 1) with
  | Some x =>
      if (negb false && false) || negb (truthy_opt_int (Some 1))
         || String.eqb (fx_address x) "10.0.0.6"
      then None
      else fx_instance_uuid x
  | None => None
  end.
Proof.
  exact (associate_returns_previous_instance Example.healthy Example.projA
           "172.24.4.1" "10.0.0.6" false Example.world
           (mkFloatingIp "172.24.4.1" "nova" (Some "projA") (Some 1) false
              (Some "host1") None)
           (Some "uuid-1") eq_refl eq_refl eq_refl).
Defined.

Lemma db_read_ok {A} (env : Env) (ctx : Context) (call : DbCall)
    (answer : Store -> Res A) (w : World) (a : A) :
  db_fault env ctx call w = None ->
  answer (w_store w) = Ok a ->
  db_read env ctx call answer w = (Ok a, emit (EvDb ctx call None) w).
Proof. intros Hf Ha. unfold db_read; rewrite Hf, Ha; reflexivity. Qed.

Lemma db_write_ok {A} (env : Env) (ctx : Context) (call : DbCall)
    (answer : Store -> Res A * Store) (w : World) (a : A) (st : Store) :
  db_fault env ctx call w = None ->
  answer (w_store w) = (Ok a, st) ->
  db_write env ctx call answer w =
    (Ok a, emit (EvDb ctx call None) (set_store st w)).
Proof. intros Hf Ha. unfold db_write; rewrite Hf, Ha; reflexivity. Qed.

Lemma notify_ok (env : Env) (ctx : Context) (event_type : string)
    (payload : list (string * option string)) (w : World) :
  notifier_reliable env ->
  notify env ctx event_type payload w =
    (Ok tt, emit (EvNotify event_type payload None) w).
Proof. intros H. unfold notify; rewrite H; reflexivity. Qed.

Lemma l3driver_ok (env : Env) (call : L3Call) (w : World) :
  driver_reliable env ->
  l3driver env call w = (Ok tt, emit (EvL3 call None) w).
Proof. intros H. unfold l3driver; rewrite H; reflexivity. Qed.

Lemma rpc_ok (env : Env) (ctx : Context) (call : RpcCall) (w : World) :
  rpc_reliable env ->
  network_rpcapi env ctx call w =
    (Ok tt,
     emit (EvRpc call None)
       (set_store (snd (network_rpcapi_call env ctx call w)) w)).
Proof.
  intros H. unfold network_rpcapi. specialize (H ctx call w).
  destruct (network_rpcapi_call env ctx call w) as [o st].
  simpl in H; subst o; reflexivity.
Qed.

(** Runs the next call of the computation in the goal: a store read or
    write whose answer is [Hans], with a store that is [db_reliable] by
    [Hdb]. *)
Ltac step_read Hdb Hans :=
  match goal with
  | |- context [bind (db_read ?env ?ctx ?call ?answer) ?k ?w0] =>
      rewrite (bind_ok _ k w0 _ _
                 (db_read_ok env ctx call answer w0 _ (Hdb _ _ _) Hans))
  end.

Ltac step_write Hdb Hans :=
  match goal with
  | |- context [bind (db_write ?env ?ctx ?call ?answer) ?k ?w0] =>
      rewrite (bind_ok _ k w0 _ _
                 (db_write_ok env ctx call answer w0 _ _ (Hdb _ _ _) Hans))
  end.

Ltac step_owner Howned :=
  match goal with
  | |- context [bind (_floating_ip_owned_by_project ?ctx ?f) ?k ?w0] =>
      rewrite (bind_ok _ k w0 _ _ (owner_passes ctx f w0 Howned))
  end.

(** Names the result and the final world of the run in the goal, and
    leaves the run as an equation to compute. *)
Ltac begin_run :=
  match goal with
  | |- context [result_of ?m] =>
      let r := fresh "r" in
      let w' := fresh "w'" in
      let Hrun := fresh "Hrun" in
      destruct m as [r w'] eqn:Hrun; revert Hrun
  | |- context [world_of ?m] =>
      let r := fresh "r" in
      let w' := fresh "w'" in
      let Hrun := fresh "Hrun" in
      destruct m as [r w'] eqn:Hrun; revert Hrun
  end.

Ltac end_run :=
  tidy;
  let H := fresh "H" in
  intros H; injection H as <- <-;
  unfold result_of, world_of; cbn [fst snd w_store w_trace].

Section Dispatch.

Variable env : Env.
Variable ctx : Context.
Variable floating_address : string.
Variable affect_auto_assigned : bool.
Variable w : World.
Variable fip : FloatingIp.

Hypothesis Hdb : db_reliable env.
Hypothesis Hfip :
  StoreGateway.find_floating (w_store w) floating_address = Some fip.
Hypothesis Hguard : negb affect_auto_assigned && fl_auto_assigned fip = false.
Hypothesis Howned : owned_by ctx fip = true.

Lemma fetch_answer :
  StoreGateway.floating_ip_get_by_address (w_store w) floating_address
  = Ok fip.
Proof.
  unfold StoreGateway.floating_ip_get_by_address; rewrite Hfip; reflexivity.
Qed.

(** The run of [associate_floating_ip] that ends in an rpc call. *)
Lemma associate_dispatch (fixed_address : string)
    (x : FixedIp) (n : Network)
    (Hrpc : rpc_reliable env)
    (Hunbound : truthy_opt_int (fl_fixed_ip_id fip) = false)
    (Hx : StoreGateway.find_fixed_by_address (w_store w) fixed_address
          = Some x)
    (Hn : StoreGateway.find_network (w_store w) (fx_network_id x) = Some n)
    (Hsingle : nw_multi_host n = false)
    (Hother : nw_host n <> self_host env) :
  let run :=
    associate_floating_ip env ctx floating_address fixed_address
      affect_auto_assigned w in
  result_of run = Ok None /\
  events_since w (world_of run) =
    [EvDb ctx (Db_floating_ip_get_by_address floating_address) None;
     EvDb ctx (Db_fixed_ip_get_by_address fixed_address) None;
     EvDb (elevated ctx) (Db_network_get (fx_network_id x)) None;
     EvRpc
       (Rpc_associate_floating_ip floating_address fixed_address
          (fl_interface fip) (nw_host n) (fx_instance_uuid x)) None].
Proof.
  intros run; subst run.
  apply opt_str_eqb_neq in Hother.
  assert (Ax : StoreGateway.fixed_ip_get_by_address (w_store w) fixed_address
               = Ok x)
    by (unfold StoreGateway.fixed_ip_get_by_address; rewrite Hx; reflexivity).
  assert (An : StoreGateway.network_get (w_store w) (fx_network_id x) = Ok n)
    by (unfold StoreGateway.network_get; rewrite Hn; reflexivity).
  begin_run.
  unfold associate_floating_ip, client_exceptions. cbv zeta. unfold_db.
  step_read Hdb fetch_answer. rewrite Hguard.
  step_owner Howned. rewrite Hunbound.
  step_read Hdb Ax. step_read Hdb An.
  rewrite Hsingle. unfold ret at 1. unfold bind at 1. rewrite Hother.
  match goal with
  | |- context [bind (network_rpcapi ?e ?c ?call) ?k ?w0] =>
      rewrite (bind_ok _ k w0 _ _ (rpc_ok e c call w0 Hrpc))
  end.
  end_run.
  rewrite events_since_app. split; reflexivity.
Qed.

Lemma try_except_ok {A} (body : M A) (handler : exn -> option (M A))
    (w0 w' : World) (a : A) :
  body w0 = (Ok a, w') -> try_except body handler w0 = (Ok a, w').
Proof. unfold try_except; intros ->; reflexivity. Qed.

(** [associate_floating_ip] for a floating IP that is not bound, when the
    fixed address is on a single-host network whose host is this manager,
    and the store, the driver and the notifier serve their calls: the
    store binds the floating IP to the fixed IP with this manager as its
    host, the driver's [add_floating_ip] is called once, the association
    is notified, and no previous instance is returned. *)
Theorem associate_binds_on_this_host (fixed_address : string)
    (x : FixedIp) (n : Network)
    (Hdriver : driver_reliable env)
    (Hnotifier : notifier_reliable env)
    (Hunbound : truthy_opt_int (fl_fixed_ip_id fip) = false)
    (Hfresh : fl_fixed_ip_id fip <> Some (fx_id x))
    (Hx : StoreGateway.find_fixed_by_address (w_store w) fixed_address
          = Some x)
    (Hn : StoreGateway.find_network (w_store w) (fx_network_id x) = Some n)
    (Hsingle : nw_multi_host n = false)
    (Hhere : nw_host n = self_host env) :
  let run :=
    associate_floating_ip env ctx floating_address fixed_address
      affect_auto_assigned w in
  result_of run = Ok None /\
  w_store (world_of run) =
    StoreGateway.update_floating floating_address
      (StoreGateway.set_binding (Some (fx_id x)) (self_host env)) (w_store w) /\
  events_since w (world_of run) =
    [EvDb ctx (Db_floating_ip_get_by_address floating_address) None;
     EvDb ctx (Db_fixed_ip_get_by_address fixed_address) None;
     EvDb (elevated ctx) (Db_network_get (fx_network_id x)) None;
     EvDb ctx
       (Db_floating_ip_fixed_ip_associate floating_address fixed_address
          (self_host env)) None;
     EvL3
       (L3_add_floating_ip floating_address fixed_address
          (str_or (CONF_public_interface env) (fl_interface fip)) (Some n))
       None;
     EvNotify "network.floating_ip.associate"
       [("project_id", project_id ctx); ("instance_id", fx_instance_uuid x);
        ("floating_ip", Some floating_address)] None].
Proof.
  intros run; subst run.
  apply opt_str_eqb_eq in Hhere.
  assert (Ax : StoreGateway.fixed_ip_get_by_address (w_store w) fixed_address
               = Ok x)
    by (unfold StoreGateway.fixed_ip_get_by_address; rewrite Hx; reflexivity).
  assert (An : StoreGateway.network_get (w_store w) (fx_network_id x) = Ok n)
    by (unfold StoreGateway.network_get; rewrite Hn; reflexivity).
  assert (Ab : StoreGateway.floating_ip_fixed_ip_associate (w_store w)
                 floating_address fixed_address (self_host env)
               = (Ok (Some (x, Some n)),
                  StoreGateway.update_floating floating_address
                    (StoreGateway.set_binding (Some (fx_id x)) (self_host env))
                    (w_store w))).
  { unfold StoreGateway.floating_ip_fixed_ip_associate.
    rewrite Hfip, Hx.
    destruct (opt_int_eqb (fl_fixed_ip_id fip) (Some (fx_id x))) eqn:He.
    - exfalso. apply Hfresh. destruct (fl_fixed_ip_id fip); [|discriminate].
      simpl in He. apply Z.eqb_eq in He. congruence.
    - unfold StoreGateway.with_network; rewrite Hn; reflexivity. }
  begin_run.
  unfold associate_floating_ip, _associate_floating_ip, client_exceptions.
  cbv zeta. unfold_db.
  step_read Hdb fetch_answer. rewrite Hguard.
  step_owner Howned. rewrite Hunbound.
  step_read Hdb Ax. step_read Hdb An.
  rewrite Hsingle. unfold ret at 1. unfold bind at 1. rewrite Hhere.
  rewrite bind_assoc.
  step_write Hdb Ab. cbv beta iota. rewrite bind_assoc.
  unfold bind at 1.
  match goal with
  | |- context [try_except (l3driver ?e ?call) ?h ?w0] =>
      rewrite (try_except_ok _ h w0 _ _ (l3driver_ok e call w0 Hdriver))
  end.
  unfold bind at 1. rewrite notify_ok by exact Hnotifier.
  end_run.
  rewrite events_since_app. repeat split.
Qed.

(** [disassociate_floating_ip] for a bound floating IP whose fixed IP is
    on a single-host network whose host is this manager, when the store,
    the driver and the notifier serve their calls: the store binding is
    cleared, the driver's [remove_floating_ip] is called once on the
    configured public interface, or else the record's (and not at all
    when neither is set), and the disassociation is notified. *)
Theorem disassociate_unbinds_on_this_host (x : FixedIp) (n : Network)
    (Hdriver : driver_reliable env)
    (Hnotifier : notifier_reliable env)
    (Hbound : truthy_opt_int (fl_fixed_ip_id fip) = true)
    (Hx : StoreGateway.find_fixed (w_store w) (fl_fixed_ip_id fip) = Some x)
    (Hn : StoreGateway.find_network (w_store w) (fx_network_id x) = Some n)
    (Hsingle : nw_multi_host n = false)
    (Hhere : nw_host n = self_host env) :
  let interface := str_or (CONF_public_interface env) (fl_interface fip) in
  let run :=
    disassociate_floating_ip env ctx floating_address affect_auto_assigned w
  in
  result_of run = Ok tt /\
  w_store (world_of run) =
    StoreGateway.update_floating floating_address
      (StoreGateway.set_binding None None) (w_store w) /\
  events_since w (world_of run) =
    [EvDb ctx (Db_floating_ip_get_by_address floating_address) None;
     EvDb ctx (Db_fixed_ip_get (fl_fixed_ip_id fip) false) None;
     EvDb (elevated ctx) (Db_network_get (fx_network_id x)) None;
     EvDb ctx (Db_floating_ip_disassociate floating_address) None]
    ++ (if truthy_opt_str interface
        then [EvL3
                (L3_remove_floating_ip floating_address (fx_address x)
                   interface (Some n)) None]
        else [])
    ++ [EvNotify "network.floating_ip.disassociate"
          [("project_id", project_id ctx);
           ("instance_id", fx_instance_uuid x);
           ("floating_ip", Some floating_address)] None].
Proof.
  intros interface run; subst run.
  apply opt_str_eqb_eq in Hhere.
  assert (Ax : StoreGateway.fixed_ip_get (w_store w) (fl_fixed_ip_id fip)
               = Ok (x, Some n)).
  { unfold StoreGateway.fixed_ip_get, StoreGateway.with_network.
    rewrite Hx, Hn; reflexivity. }
  assert (An : StoreGateway.network_get (w_store w) (fx_network_id x) = Ok n)
    by (unfold StoreGateway.network_get; rewrite Hn; reflexivity).
  assert (Au : StoreGateway.floating_ip_disassociate (w_store w)
                 floating_address
               = (Ok (Some (x, Some n)),
                  StoreGateway.update_floating floating_address
                    (StoreGateway.set_binding None None) (w_store w))).
  { unfold StoreGateway.floating_ip_disassociate, StoreGateway.with_network.
    rewrite Hfip, Hx. simpl. rewrite Hn; reflexivity. }
  begin_run.
  unfold disassociate_floating_ip, _disassociate_floating_ip,
    client_exceptions.
  cbv zeta. unfold_db.
  step_read Hdb fetch_answer. rewrite Hguard.
  step_owner Howned. rewrite Hbound. cbn [negb].
  step_read Hdb Ax. cbn [fst]. step_read Hdb An.
  rewrite Hsingle. unfold ret at 1. unfold bind at 1. rewrite Hhere.
  step_write Hdb Au. cbv beta iota. fold interface.
  destruct (truthy_opt_str interface).
  - rewrite (bind_ok _ _ _ _ _ (l3driver_ok _ _ _ Hdriver)).
    rewrite notify_ok by exact Hnotifier.
    end_run. rewrite events_since_app. repeat split.
  - unfold ret at 1. unfold bind at 1.
    rewrite notify_ok by exact Hnotifier.
    end_run. rewrite events_since_app. repeat split.
Qed.

(** [disassociate_floating_ip] for a bound floating IP whose fixed IP is
    on a multi-host network, when the network service of the instance's
    host is registered and up and that host is another manager: the call
    is sent to the instance's host by rpc, with the record's interface;
    this manager only reads the store and calls neither the driver nor the
    notifier. *)
Theorem disassociate_sends_to_instance_host (x : FixedIp) (n : Network)
    (i : Instance) (s : Service)
    (Hrpc : rpc_reliable env)
    (Hbound : truthy_opt_int (fl_fixed_ip_id fip) = true)
    (Hx : StoreGateway.find_fixed (w_store w) (fl_fixed_ip_id fip) = Some x)
    (Hn : StoreGateway.find_network (w_store w) (fx_network_id x) = Some n)
    (Hmulti : nw_multi_host n = true)
    (Hi : StoreGateway.instance_get_by_uuid (w_store w) (fx_instance_uuid x)
          = Ok i)
    (Hs : StoreGateway.service_get_by_host_and_topic (w_store w) (in_host i)
            (CONF_network_topic env) = Ok (Some s))
    (Hup : forall w', service_is_up env s w' = true)
    (Hother : in_host i <> self_host env) :
  let run :=
    disassociate_floating_ip env ctx floating_address affect_auto_assigned w
  in
  result_of run = Ok tt /\
  events_since w (world_of run) =
    [EvDb ctx (Db_floating_ip_get_by_address floating_address) None;
     EvDb ctx (Db_fixed_ip_get (fl_fixed_ip_id fip) false) None;
     EvDb (elevated ctx) (Db_network_get (fx_network_id x)) None;
     EvDb ctx (Db_instance_get_by_uuid (fx_instance_uuid x)) None;
     EvDb (elevated ctx)
       (Db_service_get_by_host_and_topic (in_host i) (CONF_network_topic env))
       None;
     EvRpc
       (Rpc_disassociate_floating_ip floating_address (fl_interface fip)
          (in_host i) (fx_instance_uuid x)) None].
Proof.
  intros run; subst run.
  apply opt_str_eqb_neq in Hother.
  assert (Ax : StoreGateway.fixed_ip_get (w_store w) (fl_fixed_ip_id fip)
               = Ok (x, Some n)).
  { unfold StoreGateway.fixed_ip_get, StoreGateway.with_network.
    rewrite Hx, Hn; reflexivity. }
  assert (An : StoreGateway.network_get (w_store w) (fx_network_id x) = Ok n)
    by (unfold StoreGateway.network_get; rewrite Hn; reflexivity).
  begin_run.
  unfold disassociate_floating_ip, client_exceptions.
  cbv zeta. unfold_db.
  step_read Hdb fetch_answer. rewrite Hguard.
  step_owner Howned. rewrite Hbound. cbn [negb].
  step_read Hdb Ax. cbn [fst]. step_read Hdb An.
  rewrite Hmulti.
  rewrite bind_assoc. step_read Hdb Hi.
  rewrite bind_assoc. step_read Hdb Hs.
  rewrite bind_assoc.
  unfold servicegroup_api_service_is_up at 1. unfold bind at 1.
  rewrite Hup. unfold ret at 1. unfold bind at 1. cbv beta iota.
  rewrite Hother.
  rewrite (rpc_ok _ _ _ _ Hrpc).
  end_run. rewrite events_since_app. repeat split.
Qed.

End Dispatch.

(** [associate_floating_ip] for a floating IP that is not bound, when the
    fixed address is on a single-host network whose host is another
    manager: the call is sent to that host by rpc, with the floating
    address, the fixed address, the record's interface and the instance;
    this manager reads the store and neither writes it nor calls the
    driver or the notifier. *)
Theorem associate_sends_to_network_host (env : Env) (ctx : Context)
    (floating_address fixed_address : string) (affect_auto_assigned : bool)
    (w : World) (fip : FloatingIp) (x : FixedIp) (n : Network)
    (Hdb : db_reliable env)
    (Hrpc : rpc_reliable env)
    (Hfip : StoreGateway.find_floating (w_store w) floating_address = Some fip)
    (Hguard : negb affect_auto_assigned && fl_auto_assigned fip = false)
    (Howned : owned_by ctx fip = true)
    (Hunbound : truthy_opt_int (fl_fixed_ip_id fip) = false)
    (Hx : StoreGateway.find_fixed_by_address (w_store w) fixed_address
          = Some x)
    (Hn : StoreGateway.find_network (w_store w) (fx_network_id x) = Some n)
    (Hsingle : nw_multi_host n = false)
    (Hother : nw_host n <> self_host env) :
  let run :=
    associate_floating_ip env ctx floating_address fixed_address
      affect_auto_assigned w in
  result_of run = Ok None /\
  events_since w (world_of run) =
    [EvDb ctx (Db_floating_ip_get_by_address floating_address) None;
     EvDb ctx (Db_fixed_ip_get_by_address fixed_address) None;
     EvDb (elevated ctx) (Db_network_get (fx_network_id x)) None;
     EvRpc
       (Rpc_associate_floating_ip floating_address fixed_address
          (fl_interface fip) (nw_host n) (fx_instance_uuid x)) None].
Proof.
  apply associate_dispatch; assumption.
Qed.

Lemma associate_sends_to_network_host_witness :
  let run :=
    associate_floating_ip Scenario.on_host2 Example.projA "172.24.4.2"
      "10.0.0.8" false Example.world in
  result_of run = Ok None /\
  events_since Example.world (world_of run) =
    [EvDb Example.projA (Db_floating_ip_get_by_address "172.24.4.2") None;
     EvDb Example.projA (Db_fixed_ip_get_by_address "10.0.0.8") None;
     EvDb (elevated Example.projA) (Db_network_get (Some 1)) None;
     EvRpc
       (Rpc_associate_floating_ip "172.24.4.2" "10.0.0.8" None (Some "host1")
          (Some "uuid-1")) None].
Proof.
  apply (associate_sends_to_network_host Scenario.on_host2 Example.projA
           "172.24.4.2" "10.0.0.8" false Example.world
           (mkFloatingIp "172.24.4.2" "nova" (Some "projA") None false None
              None)
           (mkFixedIp 4 "10.0.0.8" (Some "uuid-1") (Some 1))
           (mkNetwork 1 (Some "host1") false));
    try reflexivity; try discriminate.
  - intros c call w; reflexivity.
  - intros c call w; reflexivity.
Defined.

Lemma associate_binds_on_this_host_witness :
  let run :=
    associate_floating_ip Example.healthy Example.projA "172.24.4.2"
      "10.0.0.8" false Example.world in
  result_of run = Ok None /\
  w_store (world_of run) =
    StoreGateway.update_floating "172.24.4.2"
      (StoreGateway.set_binding (Some 4) (Some "host1")) Example.store /\
  events_since Example.world (world_of run) =
    [EvDb Example.projA (Db_floating_ip_get_by_address "172.24.4.2") None;
     EvDb Example.projA (Db_fixed_ip_get_by_address "10.0.0.8") None;
     EvDb (elevated Example.projA) (Db_network_get (Some 1)) None;
     EvDb Example.projA
       (Db_floating_ip_fixed_ip_associate "172.24.4.2" "10.0.0.8"
          (Some "host1")) None;
     EvL3
       (L3_add_floating_ip "172.24.4.2" "10.0.0.8" (Some "eth0")
          (Some (mkNetwork 1 (Some "host1") false))) None;
     EvNotify "network.floating_ip.associate"
       [("project_id", Some "projA"); ("instance_id", Some "uuid-1");
        ("floating_ip", Some "172.24.4.2")] None].
Proof.
  apply (associate_binds_on_this_host Example.healthy Example.projA
           "172.24.4.2" false Example.world
           (mkFloatingIp "172.24.4.2" "nova" (Some "projA") None false None
              None))
    with (x := mkFixedIp 4 "10.0.0.8" (Some "uuid-1") (Some 1))
         (n := mkNetwork 1 (Some "host1") false);
    try reflexivity; try discriminate.
  - intros c call w; reflexivity.
  - intros call w; reflexivity.
  - intros c t p w; reflexivity.
Defined.

Lemma disassociate_unbinds_on_this_host_witness :
  let run :=
    disassociate_floating_ip Example.healthy Example.projA "172.24.4.1" false
      Example.world in
  result_of run = Ok tt /\
  w_store (world_of run) =
    StoreGateway.update_floating "172.24.4.1"
      (StoreGateway.set_binding None None) Example.store /\
  events_since Example.world (world_of run) =
    [EvDb Example.projA (Db_floating_ip_get_by_address "172.24.4.1") None;
     EvDb Example.projA (Db_fixed_ip_get (Some 1) false) None;
     EvDb (elevated Example.projA) (Db_network_get (Some 1)) None;
     EvDb Example.projA (Db_floating_ip_disassociate "172.24.4.1") None;
     EvL3
       (L3_remove_floating_ip "172.24.4.1" "10.0.0.5" (Some "eth0")
          (Some (mkNetwork 1 (Some "host1") false))) None;
     EvNotify "network.floating_ip.disassociate"
       [("project_id", Some "projA"); ("instance_id", Some "uuid-1");
        ("floating_ip", Some "172.24.4.1")] None].
Proof.
  apply (disassociate_unbinds_on_this_host Example.healthy Example.projA
           "172.24.4.1" false Example.world
           (mkFloatingIp "172.24.4.1" "nova" (Some "projA") (Some 1) false
              (Some "host1") None))
    with (x := mkFixedIp 1 "10.0.0.5" (Some "uuid-1") (Some 1))
         (n := mkNetwork 1 (Some "host1") false);
    try reflexivity; try discriminate.
  - intros c call w; reflexivity.
  - intros call w; reflexivity.
  - intros c t p w; reflexivity.
Defined.

Lemma disassociate_sends_to_instance_host_witness :
  let run :=
    disassociate_floating_ip Example.healthy Example.projA "172.24.4.5" false
      Example.world in
  result_of run = Ok tt /\
  events_since Example.world (world_of run) =
    [EvDb Example.projA (Db_floating_ip_get_by_address "172.24.4.5") None;
     EvDb Example.projA (Db_fixed_ip_get (Some 3) false) None;
     EvDb (elevated Example.projA) (Db_network_get (Some 2)) None;
     EvDb Example.projA (Db_instance_get_by_uuid (Some "uuid-3")) None;
     EvDb (elevated Example.projA)
       (Db_service_get_by_host_and_topic (Some "host2") "network") None;
     EvRpc
       (Rpc_disassociate_floating_ip "172.24.4.5" None (Some "host2")
          (Some "uuid-3")) None].
Proof.
  apply (disassociate_sends_to_instance_host Example.healthy Example.projA
           "172.24.4.5" false Example.world
           (mkFloatingIp "172.24.4.5" "nova" (Some "projA") (Some 3) false
              (Some "host2") None))
    with (x := mkFixedIp 3 "10.0.1.7" (Some "uuid-3") (Some 2))
         (n := mkNetwork 2 None true)
         (i := mkInstance "uuid-3" (Some "host2"))
         (s := mkService (Some "host2") "network");
    try reflexivity; try discriminate.
  - intros c call w; reflexivity.
  - intros c call w; reflexivity.
Defined.

(** ** The local steps *)

(** When the store reports that the floating IP is already bound to the
    fixed IP, [_associate_floating_ip] stops after the store call: no
    driver call, no notification, and the store is unchanged. *)
Theorem local_association_already_bound (env : Env) (ctx : Context)
    (floating_address fixed_address : string) (interface : option string)
    (instance_uuid : option string) (w : World) (f : FloatingIp) (x : FixedIp)
    (Hfault :
       db_fault env ctx
         (Db_floating_ip_fixed_ip_associate floating_address fixed_address
            (self_host env)) w = None)
    (Hf : StoreGateway.find_floating (w_store w) floating_address = Some f)
    (Hx : StoreGateway.find_fixed_by_address (w_store w) fixed_address
          = Some x)
    (Hbound : fl_fixed_ip_id f = Some (fx_id x)) :
  _associate_floating_ip env ctx floating_address fixed_address interface
    instance_uuid w =
    (Ok tt,
     emit
       (EvDb ctx
          (Db_floating_ip_fixed_ip_associate floating_address fixed_address
             (self_host env)) None) w).
Proof.
  unfold _associate_floating_ip, db_floating_ip_fixed_ip_associate, db_write,
    bind.
  rewrite Hfault.
  unfold StoreGateway.floating_ip_fixed_ip_associate.
  rewrite Hf, Hx, Hbound. simpl. rewrite Z.eqb_refl. reflexivity.
Qed.

Lemma local_association_already_bound_witness :
  _associate_floating_ip Example.healthy Example.projA "172.24.4.1"
    "10.0.0.5" None (Some "uuid-1") Example.world =
    (Ok tt,
     emit
       (EvDb Example.projA
          (Db_floating_ip_fixed_ip_associate "172.24.4.1" "10.0.0.5"
             (Some "host1")) None) Example.world).
Proof.
  apply (local_association_already_bound Example.healthy Example.projA
           "172.24.4.1" "10.0.0.5" None (Some "uuid-1") Example.world
           (mkFloatingIp "172.24.4.1" "nova" (Some "projA") (Some 1) false
              (Some "host1") None)
           (mkFixedIp 1 "10.0.0.5" (Some "uuid-1") (Some 1)));
    reflexivity.
Defined.

(** A driver failure in [_disassociate_floating_ip] is not undone: when
    the driver's [remove_floating_ip] fails, its error is raised as it is,
    nothing is notified, and the store keeps the floating IP unbound (the
    store unbinds before the driver is called, and there is no handler
    that would bind it again). *)
Theorem disassociate_driver_failure_stays_unbound (env : Env) (ctx : Context)
    (address : string) (interface : option string)
    (instance_uuid : option string) (w : World) (fixed_address : string)
    (network : option Network) (message : string) :
  let device := str_or (CONF_public_interface env) interface in
  let run :=
    _disassociate_floating_ip env ctx address interface instance_uuid w in
  In (EvL3 (L3_remove_floating_ip address fixed_address device network)
        (Some (ProcessExecutionError message)))
     (events_since w (world_of run)) ->
  result_of run = Raise (ProcessExecutionError message) /\
  events_since w (world_of run) =
    [EvDb ctx (Db_floating_ip_disassociate address) None;
     EvL3 (L3_remove_floating_ip address fixed_address device network)
       (Some (ProcessExecutionError message))] /\
  exists f,
    StoreGateway.find_floating (w_store (world_of run)) address = Some f /\
    fl_fixed_ip_id f = None.
Proof.
  intros device run Hfail. subst run. revert Hfail.
  unfold _disassociate_floating_ip, db_floating_ip_disassociate, db_write,
    bind, l3driver, notify.
  fold device.
  destruct (db_fault env ctx (Db_floating_ip_disassociate address) w) as [e|].
  { unfold world_of; simpl; rewrite events_since_emit.
    intros [H|[]]; discriminate. }
  unfold StoreGateway.floating_ip_disassociate.
  destruct (StoreGateway.find_floating (w_store w) address) as [f|] eqn:Hf;
    [| unfold world_of; tidy; rewrite events_since_app;
       intros [H|[]]; discriminate].
  assert (Hunbound :
    exists f',
      StoreGateway.find_floating
        (StoreGateway.update_floating address
           (StoreGateway.set_binding None None) (w_store w)) address
      = Some f' /\ fl_fixed_ip_id f' = None).
  { rewrite find_floating_update by apply set_binding_address.
    rewrite String.eqb_refl, Hf. simpl. eexists; split; reflexivity. }
  destruct (StoreGateway.find_fixed (w_store w) (fl_fixed_ip_id f)) as [x|];
    cbn [option_map StoreGateway.with_network];
    [| unfold world_of; tidy; rewrite events_since_app;
       intros [H|[]]; discriminate].
  destruct (truthy_opt_str device).
  - match goal with
    | |- context [l3driver_call env ?c ?w1] =>
        destruct (l3driver_call env c w1) as [msg|]
    end; cbn [option_map outcome].
    + unfold world_of, result_of; tidy. rewrite events_since_app.
      intros [H|[H|[]]]; [discriminate H|].
      injection H as Hx Hn Hm. subst.
      split; [reflexivity|]. split; [reflexivity | exact Hunbound].
    + unfold world_of; tidy.
      destruct (notifier_notify env ctx _ _ _); tidy;
        rewrite events_since_app;
        intros [H|[H|[H|[]]]]; discriminate.
  - unfold world_of; tidy.
    destruct (notifier_notify env ctx _ _ _); tidy;
      rewrite events_since_app;
      intros [H|[H|[]]]; discriminate.
Qed.

Lemma disassociate_driver_failure_stays_unbound_witness :
  let run :=
    _disassociate_floating_ip Scenario.remove_fails Example.projA
      "172.24.4.1" None (Some "uuid-1") Example.world in
  result_of run =
    Raise (ProcessExecutionError "Unexpected error while running command.") /\
  option_map fl_fixed_ip_id
    (StoreGateway.find_floating (w_store (world_of run)) "172.24.4.1")
  = Some None.
Proof.
  destruct (disassociate_driver_failure_stays_unbound Scenario.remove_fails
              Example.projA "172.24.4.1" None (Some "uuid-1") Example.world
              "10.0.0.5" (Some (mkNetwork 1 (Some "host1") false))
              "Unexpected error while running command.")
    as (Hr & He & f & Hf & Hu).
  - vm_compute; right; left; reflexivity.
  - split; [exact Hr | reflexivity].
Defined.

(** ** More on migration *)

Lemma recorded_host_update (st : Store) (a b : string) (h : option string)
    (f : FloatingIp) :
  StoreGateway.find_floating st a = Some f ->
  recorded_host
    (StoreGateway.update_floating a (StoreGateway.set_host h) st) b
  = if String.eqb b a then Some h else recorded_host st b.
Proof.
  intros Hf. unfold recorded_host.
  rewrite find_floating_update by apply set_host_address.
  destruct (String.eqb b a) eqn:Hba; [|reflexivity].
  apply String.eqb_eq in Hba; subst b. rewrite Hf; reflexivity.
Qed.

Lemma for_each_app {A} (l1 l2 : list A) (body : A -> M unit) (w : World) :
  for_each (l1 ++ l2) body w =
  bind (for_each l1 body) (fun _ => for_each l2 body) w.
Proof.
  revert w. induction l1 as [|a l1 IH]; intros w; cbn [for_each app].
  - reflexivity.
  - unfold bind in *.
    destruct (body a w) as [[[]|e] w1]; [apply IH | reflexivity].
Qed.

Section MigrationHosts.

Variable env : Env.
Variable ctx : Context.
Variable instance_uuid : string.
Hypothesis Hdb : db_reliable env.
Hypothesis Hl3 : driver_reliable env.

(** The hosts the store records after the loop of
    [migrate_instance_start]. *)
Lemma start_loop_hosts (st0 : Store) (addrs : list string) :
  forall w,
    same_but_hosts st0 (w_store w) ->
    Forall (recorded ctx st0) addrs ->
    forall b,
      recorded_host
        (w_store
           (world_of
              (for_each addrs
                 (migrate_instance_start_address env ctx instance_uuid) w))) b
      = if str_in b addrs && negb (stale_address ctx st0 b)
        then Some None
        else recorded_host (w_store w) b.
Proof.
  induction addrs as [|a rest IH]; intros w Hsame Hrec b.
  - reflexivity.
  - inversion Hrec as [|? ? Ha Hrest]; subst.
    destruct (recorded_now ctx st0 (w_store w) a Hsame Ha)
      as (f & Hf & Hst & Hx).
    destruct (start_address_step env ctx instance_uuid Hdb Hl3 a w f Hf Hx)
      as (evs1 & Hstep & _).
    cbn [for_each]. rewrite (bind_ok _ _ _ _ _ Hstep).
    match type of Hstep with _ = (_, ?x) => set (w1 := x) in * end.
    assert (Hsame1 : same_but_hosts st0 (w_store w1)).
    { subst w1; simpl. destruct (stale ctx f); [exact Hsame|].
      apply same_but_hosts_update; exact Hsame. }
    rewrite (IH w1 Hsame1 Hrest b).
    unfold str_in; cbn [existsb]. fold (str_in b rest).
    assert (H1 : recorded_host (w_store w1) b =
                 if String.eqb b a && negb (stale ctx f)
                 then Some None else recorded_host (w_store w) b).
    { subst w1; simpl. destruct (stale ctx f).
      - rewrite andb_false_r; reflexivity.
      - rewrite andb_true_r. apply recorded_host_update with (f := f).
        exact Hf. }
    rewrite H1.
    destruct (String.eqb b a) eqn:Hba.
    + apply String.eqb_eq in Hba; subst b. rewrite <- Hst.
      destruct (stale ctx f); cbn [negb andb orb].
      * rewrite andb_false_r; reflexivity.
      * destruct (str_in a rest); reflexivity.
    + cbn [orb andb].
      destruct (str_in b rest && negb (stale_address ctx st0 b)); reflexivity.
Qed.

(** The hosts the store records after the loop of
    [migrate_instance_finish]. *)
Lemma finish_loop_hosts (dest : option string) (st0 : Store)
    (addrs : list string) :
  forall w,
    same_but_hosts st0 (w_store w) ->
    Forall (recorded ctx st0) addrs ->
    forall b,
      recorded_host
        (w_store
           (world_of
              (for_each addrs
                 (migrate_instance_finish_address env ctx instance_uuid dest)
                 w))) b
      = if str_in b addrs && negb (stale_address ctx st0 b)
        then Some dest
        else recorded_host (w_store w) b.
Proof.
  induction addrs as [|a rest IH]; intros w Hsame Hrec b.
  - reflexivity.
  - inversion Hrec as [|? ? Ha Hrest]; subst.
    destruct (recorded_now ctx st0 (w_store w) a Hsame Ha)
      as (f & Hf & Hst & Hx).
    destruct (finish_address_step env ctx instance_uuid Hdb Hl3 dest a w f
                Hf Hx)
      as (evs1 & Hstep & _).
    cbn [for_each]. rewrite (bind_ok _ _ _ _ _ Hstep).
    match type of Hstep with _ = (_, ?x) => set (w1 := x) in * end.
    assert (Hsame1 : same_but_hosts st0 (w_store w1)).
    { subst w1; simpl. destruct (stale ctx f); [exact Hsame|].
      apply same_but_hosts_update; exact Hsame. }
    rewrite (IH w1 Hsame1 Hrest b).
    unfold str_in; cbn [existsb]. fold (str_in b rest).
    assert (H1 : recorded_host (w_store w1) b =
                 if String.eqb b a && negb (stale ctx f)
                 then Some dest else recorded_host (w_store w) b).
    { subst w1; simpl. destruct (stale ctx f).
      - rewrite andb_false_r; reflexivity.
      - rewrite andb_true_r. apply recorded_host_update with (f := f).
        exact Hf. }
    rewrite H1.
    destruct (String.eqb b a) eqn:Hba.
    + apply String.eqb_eq in Hba; subst b. rewrite <- Hst.
      destruct (stale ctx f); cbn [negb andb orb].
      * rewrite andb_false_r; reflexivity.
      * destruct (str_in a rest); reflexivity.
    + cbn [orb andb].
      destruct (str_in b rest && negb (stale_address ctx st0 b)); reflexivity.
Qed.

End MigrationHosts.

(** A record is what it is but for its host, and its host. *)
Lemma same_but_hosts_record (st st' : Store) (a : string) :
  same_but_hosts st st' ->
  recorded_host st' a = recorded_host st a ->
  StoreGateway.find_floating st' a = StoreGateway.find_floating st a.
Proof.
  intros (_ & _ & Hsame) Hhost. specialize (Hsame a).
  unfold recorded_host in Hhost.
  destruct (StoreGateway.find_floating st' a) as [f'|],
           (StoreGateway.find_floating st a) as [f|];
    try discriminate; [|reflexivity].
  cbn [option_map] in *. injection Hhost as Hhost.
  destruct f', f. cbn in *. injection Hsame as -> -> -> -> -> ->.
  subst. reflexivity.
Qed.

(** C8, as the code has it.  The destination of the finish phase is
    [dest], or [host] when [host] is given and [dest] is not.  For a
    non-empty address list, [source <> dest] and [source] different from
    that destination too, with a store and a driver that serve their calls
    and a record for every listed address and, for those that are not
    stale, the fixed IP they are bound to: [migrate_instance_start]
    followed by [migrate_instance_finish] both return normally; afterwards
    the store records the destination as the host of every listed address
    that is not stale; the finish phase calls the driver's
    [add_floating_ip] once for each entry of the list that is not stale,
    in order, and for no other address (the start phase calls
    [remove_floating_ip] for the same entries); each phase skips every
    stale entry with its warning; and the record of a stale address is the
    same after each phase as it was before the migration. *)
Theorem migration_moves_bindings (env : Env) (ctx : Context)
    (instance_uuid : string) (floating_addresses : list string)
    (host source dest : option string) (w : World)
    (Hdb : db_reliable env)
    (Hl3 : driver_reliable env)
    (Hsome : floating_addresses <> [])
    (Hmove : source <> dest)
    (Hmove' :
       source <>
       (if truthy_opt_str host && negb (truthy_opt_str dest)
        then host else dest))
    (Hrec : Forall (recorded ctx (w_store w)) floating_addresses) :
  let destination :=
    if truthy_opt_str host && negb (truthy_opt_str dest) then host else dest
  in
  let started :=
    migrate_instance_start env ctx instance_uuid floating_addresses source
      dest w in
  let finished :=
    migrate_instance_finish env ctx instance_uuid floating_addresses host
      source dest (world_of started) in
  let is_stale := stale_address ctx (w_store w) in
  result_of started = Ok tt /\
  result_of finished = Ok tt /\
  (forall a,
     In a floating_addresses -> is_stale a = false ->
     recorded_host (w_store (world_of finished)) a = Some destination) /\
  added_addresses (events_since (world_of started) (world_of finished))
  = filter (fun a => negb (is_stale a)) floating_addresses /\
  removed_addresses (events_since w (world_of started))
  = filter (fun a => negb (is_stale a)) floating_addresses /\
  skipped_addresses stale_warning_start (events_since w (world_of started))
  = filter is_stale floating_addresses /\
  skipped_addresses stale_warning_finish
    (events_since (world_of started) (world_of finished))
  = filter is_stale floating_addresses /\
  (forall a,
     is_stale a = true ->
     StoreGateway.find_floating (w_store (world_of started)) a
     = StoreGateway.find_floating (w_store w) a /\
     StoreGateway.find_floating (w_store (world_of finished)) a
     = StoreGateway.find_floating (w_store w) a).
Proof.
  intros destination started finished is_stale.
  pose proof (something_to_migrate _ _ _ Hsome Hmove) as Hgo.
  pose proof (something_to_migrate _ _ _ Hsome Hmove') as Hgo'.
  fold destination in Hgo'.
  set (log1 := EvLog LogInfo
                 "Starting migration network for instance %(instance_uuid)s"
                 [Some instance_uuid]).
  set (log2 := EvLog LogInfo
                 "Finishing migration network for instance %(instance_uuid)s"
                 [Some instance_uuid]).
  destruct (start_loop env ctx instance_uuid Hdb Hl3 (w_store w)
              floating_addresses (emit log1 w)
              (same_but_hosts_refl _) Hrec)
    as (st1 & evs1 & Hstart & Hsame1 & Hrem1 & Hskip1 & Hadd1).
  pose proof (start_loop_hosts env ctx instance_uuid Hdb Hl3 (w_store w)
                floating_addresses (emit log1 w)
                (same_but_hosts_refl _) Hrec) as Hhosts1.
  rewrite Hstart in Hhosts1. unfold world_of in Hhosts1.
  cbn [snd w_store emit] in Hhosts1.
  assert (Hstarted :
    started = (Ok tt, {| w_store := st1;
                         w_trace := w_trace (emit log1 w) ++ evs1 |})).
  { subst started. unfold migrate_instance_start. rewrite Hgo.
    unfold LOG at 1. unfold bind at 1. exact Hstart. }
  set (w1 := {| w_store := st1; w_trace := w_trace (emit log1 w) ++ evs1 |})
    in *.
  destruct (finish_loop env ctx instance_uuid Hdb Hl3 destination (w_store w)
              floating_addresses (emit log2 w1) Hsame1 Hrec)
    as (st2 & evs2 & Hfinish & Hsame2 & Hadd2 & Hskip2 & Hrem2 & Hhosts).
  pose proof (finish_loop_hosts env ctx instance_uuid Hdb Hl3 destination
                (w_store w) floating_addresses (emit log2 w1) Hsame1 Hrec)
    as Hhosts2.
  rewrite Hfinish in Hhosts2. unfold world_of in Hhosts2.
  cbn [snd w_store emit] in Hhosts2.
  assert (Hfinished :
    finished = (Ok tt, {| w_store := st2;
                          w_trace := w_trace (emit log2 w1) ++ evs2 |})).
  { subst finished. rewrite Hstarted. unfold world_of; cbn [snd].
    unfold migrate_instance_finish. cbv zeta. fold destination.
    rewrite Hgo'. unfold LOG at 1. unfold bind at 1. exact Hfinish. }
  rewrite Hfinished, Hstarted. unfold world_of, result_of. cbn [fst snd].
  assert (E1 : events_since w w1 = log1 :: evs1).
  { apply events_since_trace. unfold emit; simpl.
    rewrite <- app_assoc; reflexivity. }
  assert (E2 : events_since w1
                 {| w_store := st2;
                    w_trace := w_trace (emit log2 w1) ++ evs2 |}
               = log2 :: evs2).
  { apply events_since_trace. unfold emit; simpl.
    rewrite <- app_assoc; reflexivity. }
  rewrite E1, E2. cbn [w_store].
  split; [reflexivity|]. split; [reflexivity|].
  split.
  { intros a Hin Ha. apply Hhosts. left; split; assumption. }
  change (log1 :: evs1) with ([log1] ++ evs1).
  change (log2 :: evs2) with ([log2] ++ evs2).
  rewrite removed_addresses_app, !skipped_addresses_app, added_addresses_app.
  rewrite Hrem1, Hskip1, Hadd2, Hskip2.
  repeat (split; [reflexivity|]).
  intros a Ha.
  assert (H1 : recorded_host st1 a = recorded_host (w_store w) a).
  { rewrite Hhosts1. fold (is_stale a). rewrite Ha, andb_false_r.
    reflexivity. }
  assert (H2 : recorded_host st2 a = recorded_host (w_store w) a).
  { rewrite Hhosts2. fold (is_stale a). rewrite Ha, andb_false_r.
    exact H1. }
  split; apply same_but_hosts_record; assumption.
Qed.

Lemma migration_moves_bindings_witness :
  let addresses := ["172.24.4.1"; "172.24.4.2"; "172.24.4.3"] in
  let started :=
    migrate_instance_start Example.healthy Example.projA "uuid-1" addresses
      (Some "host1") None Example.world in
  let finished :=
    migrate_instance_finish Example.healthy Example.projA "uuid-1" addresses
      (Some "host2") (Some "host1") None (world_of started) in
  result_of started = Ok tt /\
  result_of finished = Ok tt /\
  recorded_host (w_store (world_of finished)) "172.24.4.1"
  = Some (Some "host2") /\
  added_addresses (events_since (world_of started) (world_of finished))
  = ["172.24.4.1"] /\
  skipped_addresses stale_warning_finish
    (events_since (world_of started) (world_of finished))
  = ["172.24.4.2"; "172.24.4.3"] /\
  StoreGateway.find_floating (w_store (world_of finished)) "172.24.4.2"
  = StoreGateway.find_floating Example.store "172.24.4.2".
Proof.
  destruct (migration_moves_bindings Example.healthy Example.projA "uuid-1"
              ["172.24.4.1"; "172.24.4.2"; "172.24.4.3"]
              (Some "host2") (Some "host1") None Example.world)
    as (H1 & H2 & H3 & H4 & _ & _ & H7 & H8).
  - intros ctx call w; reflexivity.
  - intros call w; reflexivity.
  - discriminate.
  - discriminate.
  - discriminate.
  - repeat constructor; eexists; (split; [reflexivity|]);
      intros H; try discriminate H; eexists; reflexivity.
  - split; [exact H1|]. split; [exact H2|].
    split; [apply H3; [left; reflexivity | reflexivity]|].
    split; [exact H4|]. split; [exact H7|].
    apply (H8 "172.24.4.2"). reflexivity.
Defined.

(** C8, as stated, fails: [source <> dest] does not make the finish phase
    move the addresses to [dest].  With the owned and bound address
    172.24.4.1, [source] host1 and no [dest]: when the finish phase is
    given host1 as [host], which then stands in for [dest] and equals
    [source], it returns at once and makes no [add_floating_ip] call; when
    it is given host3, the store records host3 for the address, not
    [dest]. *)
Lemma migration_host_stands_in_for_dest :
  let started :=
    migrate_instance_start Example.healthy Example.projA "uuid-1"
      ["172.24.4.1"] (Some "host1") None Example.world in
  let finished_at_source :=
    migrate_instance_finish Example.healthy Example.projA "uuid-1"
      ["172.24.4.1"] (Some "host1") (Some "host1") None (world_of started) in
  let finished_elsewhere :=
    migrate_instance_finish Example.healthy Example.projA "uuid-1"
      ["172.24.4.1"] (Some "host3") (Some "host1") None (world_of started) in
  Some "host1" <> (None : option string) /\
  stale_address Example.projA Example.store "172.24.4.1" = false /\
  result_of started = Ok tt /\
  result_of finished_at_source = Ok tt /\
  added_addresses
    (events_since (world_of started) (world_of finished_at_source)) = [] /\
  result_of finished_elsewhere = Ok tt /\
  recorded_host (w_store (world_of finished_elsewhere)) "172.24.4.1"
  = Some (Some "host3") /\
  recorded_host (w_store (world_of finished_elsewhere)) "172.24.4.1"
  <> Some None.
Proof. repeat split; try reflexivity; discriminate. Qed.


(** [migrate_instance_start], under the conditions of a migration that
    has something to do and a store and driver that serve their calls,
    clears the recorded [host] of every listed floating IP that is not
    stale, and leaves the recorded host of every other floating IP, the
    stale ones among them, as it was. *)
Theorem migrate_start_clears_hosts (env : Env) (ctx : Context)
    (instance_uuid : string) (floating_addresses : list string)
    (source dest : option string) (w : World)
    (Hdb : db_reliable env)
    (Hl3 : driver_reliable env)
    (Hsome : floating_addresses <> [])
    (Hmove : source <> dest)
    (Hrec : Forall (recorded ctx (w_store w)) floating_addresses) :
  let started :=
    migrate_instance_start env ctx instance_uuid floating_addresses source
      dest w in
  forall address,
    recorded_host (w_store (world_of started)) address =
    if str_in address floating_addresses
       && negb (stale_address ctx (w_store w) address)
    then Some None
    else recorded_host (w_store w) address.
Proof.
  intros started address. subst started.
  unfold migrate_instance_start.
  rewrite (something_to_migrate _ _ _ Hsome Hmove).
  unfold bind at 1. unfold LOG at 1.
  apply (start_loop_hosts env ctx instance_uuid Hdb Hl3 (w_store w)
           floating_addresses
           (emit (EvLog LogInfo
                    "Starting migration network for instance %(instance_uuid)s"
                    [Some instance_uuid]) w)
           (same_but_hosts_refl _) Hrec address).
Qed.

Lemma migrate_start_clears_hosts_witness :
  let started :=
    migrate_instance_start Example.healthy Example.projA "uuid-1"
      ["172.24.4.1"; "172.24.4.2"] (Some "host1") (Some "host2")
      Example.world in
  recorded_host (w_store (world_of started)) "172.24.4.1" = Some None /\
  recorded_host (w_store (world_of started)) "172.24.4.5"
  = Some (Some "host2").
Proof.
  pose proof (migrate_start_clears_hosts Example.healthy Example.projA
                "uuid-1" ["172.24.4.1"; "172.24.4.2"] (Some "host1")
                (Some "host2") Example.world) as H.
  assert (Hrec : Forall (recorded Example.projA Example.store)
                   ["172.24.4.1"; "172.24.4.2"]).
  { repeat constructor; eexists; (split; [reflexivity|]);
      intros H0; try discriminate H0; eexists; reflexivity. }
  specialize (H (fun _ _ _ => eq_refl) (fun _ _ => eq_refl)).
  split; [apply (H ltac:(discriminate) ltac:(discriminate) Hrec "172.24.4.1")
         | apply (H ltac:(discriminate) ltac:(discriminate) Hrec "172.24.4.5")].
Defined.

(** A listed address without a record stops [migrate_instance_start]: the
    lookup's [FloatingIpNotFoundForAddress] is raised (it is not a stale
    address, which would be skipped), the addresses listed before it have
    been handled, and those listed after it are not looked at: the run is
    the same without them. *)
Theorem migrate_start_stops_at_missing_record (env : Env) (ctx : Context)
    (instance_uuid : string) (before : list string) (address : string)
    (after : list string) (source dest : option string) (w : World)
    (Hdb : db_reliable env)
    (Hl3 : driver_reliable env)
    (Hmove : source <> dest)
    (Hrec : Forall (recorded ctx (w_store w)) before)
    (Hmissing : StoreGateway.find_floating (w_store w) address = None) :
  let started :=
    migrate_instance_start env ctx instance_uuid
      (before ++ address :: after) source dest w in
  result_of started = Raise (FloatingIpNotFoundForAddress address) /\
  removed_addresses (events_since w (world_of started))
  = filter (fun a => negb (stale_address ctx (w_store w) a)) before /\
  started =
    migrate_instance_start env ctx instance_uuid (before ++ [address]) source
      dest w.
Proof.
  intros started. subst started.
  assert (Hgo : forall l, nothing_to_migrate (before ++ address :: l) source
                            dest = false).
  { intros l. apply something_to_migrate; [|exact Hmove].
    destruct before; discriminate. }
  destruct (start_loop env ctx instance_uuid Hdb Hl3 (w_store w) before
              (emit (EvLog LogInfo
                       "Starting migration network for instance %(instance_uuid)s"
                       [Some instance_uuid]) w)
              (same_but_hosts_refl _) Hrec)
    as (st1 & evs1 & Hloop & Hsame1 & Hrem1 & _).
  assert (Hnone : StoreGateway.find_floating st1 address = None).
  { destruct Hsame1 as (_ & _ & H). specialize (H address).
    rewrite Hmissing in H.
    destruct (StoreGateway.find_floating st1 address);
      [discriminate | reflexivity]. }
  assert (Hall : forall l0,
    migrate_instance_start env ctx instance_uuid
      (before ++ address :: l0) source dest w =
      (Raise (FloatingIpNotFoundForAddress address),
       {| w_store := st1;
          w_trace :=
            w_trace w ++
            ([EvLog LogInfo
                "Starting migration network for instance %(instance_uuid)s"
                [Some instance_uuid]] ++ evs1) ++
            [EvDb ctx (Db_floating_ip_get_by_address address)
               (Some (FloatingIpNotFoundForAddress address))] |})).
  { intros l0. unfold migrate_instance_start. rewrite Hgo.
    unfold bind at 1. unfold LOG at 1.
    rewrite for_each_app. rewrite (bind_ok _ _ _ _ _ Hloop).
    cbn [for_each]. unfold migrate_instance_start_address at 1.
    unfold db_floating_ip_get_by_address, db_read, bind.
    rewrite Hdb. cbn [w_store].
    unfold StoreGateway.floating_ip_get_by_address. rewrite Hnone.
    tidy. reflexivity. }
  rewrite (Hall after), (Hall []).
  unfold result_of, world_of; cbn [fst snd].
  rewrite events_since_app.
  split; [reflexivity|]. split; [|reflexivity].
  rewrite !removed_addresses_app, Hrem1. simpl. apply app_nil_r.
Qed.

Lemma migrate_start_stops_at_missing_record_witness :
  let started :=
    migrate_instance_start Example.healthy Example.projA "uuid-1"
      (["172.24.4.1"] ++ "172.24.4.9" :: ["172.24.4.5"]) (Some "host1")
      (Some "host2") Example.world in
  result_of started = Raise (FloatingIpNotFoundForAddress "172.24.4.9") /\
  removed_addresses (events_since Example.world (world_of started))
  = ["172.24.4.1"].
Proof.
  destruct (migrate_start_stops_at_missing_record Example.healthy
              Example.projA "uuid-1" ["172.24.4.1"] "172.24.4.9"
              ["172.24.4.5"] (Some "host1") (Some "host2") Example.world)
    as (Hr & Hrem & _).
  - intros c call w; reflexivity.
  - intros call w; reflexivity.
  - discriminate.
  - repeat constructor; eexists; (split; [reflexivity|]);
      intros H0; try discriminate H0; eexists; reflexivity.
  - reflexivity.
  - split; [exact Hr | exact Hrem].
Defined.

(** ** DNS domains and entries *)

Lemma find_domain (st : Store) (name : string) :
  In name (map dd_domain (dnsdomains st)) ->
  exists ref,
    find (fun d => String.eqb (dd_domain d) name) (dnsdomains st) = Some ref /\
    dd_domain ref = name.
Proof.
  induction (dnsdomains st) as [|d l IH]; simpl; [intros []|].
  intros [Hd|Hin].
  - exists d. subst name. rewrite String.eqb_refl. split; reflexivity.
  - destruct (String.eqb (dd_domain d) name) eqn:He.
    + exists d. split; [reflexivity | apply String.eqb_eq; exact He].
    + apply IH; exact Hin.
Qed.

Lemma warnings_app (l1 l2 : list Event) :
  warnings (l1 ++ l2) = warnings l1 ++ warnings l2.
Proof. apply flat_map_app. Qed.

Lemma dns_deletions_app (l1 l2 : list Event) :
  dns_deletions (l1 ++ l2) = dns_deletions l1 ++ dns_deletions l2.
Proof. apply flat_map_app. Qed.

Lemma dns_lookups_app (l1 l2 : list Event) :
  dns_lookups (l1 ++ l2) = dns_lookups l1 ++ dns_lookups l2.
Proof. apply flat_map_app. Qed.

Section Domains.

Variable env : Env.
Variable ctx : Context.
Variable floating_domains instance_domains : list string.

Hypothesis Hdb : db_reliable env.
Hypothesis Hfloating :
  forall w, dns_call env Dns_floating_get_domains w = Ok floating_domains.
Hypothesis Hinstance :
  forall w, dns_call env Dns_instance_get_domains w = Ok instance_domains.

(** The loop of [get_dns_domains]. *)
Lemma domains_loop (names : list string) :
  forall (w : World) (domains : list DomainEntry),
    (forall name, In name names ->
                  In name (map dd_domain (dnsdomains (w_store w)))) ->
    exists entries evs,
      fold_m names domains
        (fun domains db_domain =>
           if str_in db_domain floating_domains
              || str_in db_domain instance_domains
           then
             domain_entry <- _prepare_domain_entry env ctx db_domain ;;
             ret (domains ++ [domain_entry])
           else
             LOG LogWarn
               "Database inconsistency: DNS domain |%s| is registered in the Nova db but not visible to either the floating or instance DNS driver. It will be ignored."
               [Some db_domain] ;;
             ret domains) w
      = (Ok (domains ++ entries),
         {| w_store := w_store w; w_trace := w_trace w ++ evs |}) /\
      map de_domain entries
      = filter (domain_visible floating_domains instance_domains) names /\
      warnings evs
      = map (fun name => [Some name])
          (filter
             (fun name =>
                negb (domain_visible floating_domains instance_domains name))
             names) /\
      dns_deletions evs = [] /\
      dns_lookups evs = [].
Proof.
  induction names as [|name rest IH]; intros w domains Hin.
  - exists [], []. rewrite !app_nil_r. destruct w. repeat split.
  - cbn [fold_m filter].
    change (str_in name floating_domains || str_in name instance_domains)
      with (domain_visible floating_domains instance_domains name).
    destruct (domain_visible floating_domains instance_domains name)
      eqn:Hv; cbn [negb].
    + destruct (find_domain (w_store w) name (Hin name (or_introl eq_refl)))
        as (ref & Hfind & Hname).
      assert (Hprep : exists entry,
        _prepare_domain_entry env ctx name w =
          (Ok entry, emit (EvDb ctx (Db_dnsdomain_get name) None) w) /\
        de_domain entry = name).
      { unfold _prepare_domain_entry, db_dnsdomain_get.
        unfold bind. rewrite (db_read_ok env ctx _ _ w (Some ref) (Hdb _ _ _)).
        2:{ unfold StoreGateway.dnsdomain_get; rewrite Hfind; reflexivity. }
        destruct (String.eqb (dd_scope ref) "private");
          eexists; (split; [reflexivity|]); reflexivity. }
      destruct Hprep as (entry & Hprep & Hentry).
      rewrite bind_assoc. rewrite (bind_ok _ _ _ _ _ Hprep).
      unfold ret at 1. unfold bind at 1.
      destruct (IH (emit (EvDb ctx (Db_dnsdomain_get name) None) w)
                  (domains ++ [entry]))
        as (entries & evs & Hrun & Hmap & Hwarn & Hdel & Hlook).
      { intros n Hn. apply Hin. right; exact Hn. }
      exists (entry :: entries), (EvDb ctx (Db_dnsdomain_get name) None :: evs).
      rewrite Hrun. tidy.
      split; [reflexivity|]. rewrite Hentry, Hmap.
      split; [reflexivity|]. split; [exact Hwarn|].
      split; [exact Hdel | exact Hlook].
    + rewrite bind_assoc. unfold LOG at 1. unfold bind at 1.
      unfold ret at 1. unfold bind at 1.
      match goal with
      | |- context [fold_m rest domains _ ?w1] =>
          destruct (IH w1 domains)
            as (entries & evs & Hrun & Hmap & Hwarn & Hdel & Hlook)
      end.
      { intros n Hn. apply Hin. right; exact Hn. }
      eexists entries, (_ :: evs).
      rewrite Hrun. tidy.
      split; [reflexivity|]. split; [exact Hmap|].
      split; [|split; [exact Hdel | exact Hlook]].
      cbn [warnings flat_map app map]. fold (warnings evs).
      rewrite Hwarn. reflexivity.
Qed.

(** The run of [get_dns_domains]. *)
Lemma get_dns_domains_run (w : World) :
  let names := map dd_domain (dnsdomains (w_store w)) in
  exists entries evs,
    get_dns_domains env ctx w =
      (Ok entries, {| w_store := w_store w; w_trace := w_trace w ++ evs |}) /\
    map de_domain entries
    = filter (domain_visible floating_domains instance_domains) names /\
    warnings evs
    = map (fun name => [Some name])
        (filter
           (fun name =>
              negb (domain_visible floating_domains instance_domains name))
           names) /\
    dns_deletions evs = [] /\
    dns_lookups evs = [].
Proof.
  intros names. unfold get_dns_domains, db_dnsdomain_list.
  rewrite (bind_ok _ _ _ _ _
             (db_read_ok env ctx _ _ w names (Hdb _ _ _) eq_refl)).
  unfold dns_manager at 1 2. unfold bind at 1. rewrite Hfloating.
  unfold bind at 1. rewrite Hinstance. cbn [raised].
  match goal with
  | |- context [fold_m names [] _ ?w1] =>
      destruct (domains_loop names w1 [])
        as (entries & evs & Hrun & Hmap & Hwarn & Hdel & Hlook)
  end.
  { intros n Hn; exact Hn. }
  rewrite Hrun. tidy.
  eexists entries, (_ :: _ :: _ :: evs). split; [reflexivity|].
  split; [exact Hmap|]. split; [exact Hwarn|].
  split; [exact Hdel | exact Hlook].
Qed.

(** [get_dns_domains] returns, in the order of the domain table, one
    entry for each registered domain that the floating or the instance DNS
    driver lists; a registered domain that neither lists is left out, with
    one warning each.  The store is only read. *)
Theorem get_dns_domains_drops_unknown (w : World) :
  let names := map dd_domain (dnsdomains (w_store w)) in
  let run := get_dns_domains env ctx w in
  exists entries,
    result_of run = Ok entries /\
    map de_domain entries
    = filter (domain_visible floating_domains instance_domains) names /\
    warnings (events_since w (world_of run))
    = map (fun name => [Some name])
        (filter
           (fun name =>
              negb (domain_visible floating_domains instance_domains name))
           names) /\
    w_store (world_of run) = w_store w.
Proof.
  intros names run. subst run.
  destruct (get_dns_domains_run w)
    as (entries & evs & Hrun & Hmap & Hwarn & _).
  exists entries. rewrite Hrun. unfold result_of, world_of; cbn [fst snd].
  rewrite events_since_app. repeat split; assumption.
Qed.

Variable entries_of : string -> string -> list string.

Hypothesis Hentries :
  forall address domain w,
    dns_call env (Dns_floating_get_entries_by_address address domain) w
    = Ok (entries_of address domain).
Hypothesis Hdelete :
  forall name domain w,
    raised (dns_call env (Dns_floating_delete_entry name domain) w) = None.

(** The inner loop of [_delete_all_entries_for_ip]. *)
Lemma delete_entries_loop (domain : string) (names : list string) :
  forall w : World,
    exists evs,
      for_each names (fun name => delete_dns_entry env ctx name domain) w
      = (Ok tt, {| w_store := w_store w; w_trace := w_trace w ++ evs |}) /\
      dns_deletions evs = map (fun name => (name, domain)) names /\
      dns_lookups evs = [].
Proof.
  induction names as [|name rest IH]; intros w.
  - exists []. rewrite app_nil_r. destruct w. repeat split.
  - cbn [for_each]. unfold delete_dns_entry at 1, dns_manager.
    rewrite bind_assoc. unfold bind at 1.
    pose proof (Hdelete name domain w) as Hd.
    destruct (dns_call env (Dns_floating_delete_entry name domain) w)
      as [r|e] eqn:Hcall; [|discriminate Hd].
    cbn [raised]. unfold ret at 1. unfold bind at 1.
    match goal with
    | |- context [for_each rest _ ?w1] =>
        destruct (IH w1) as (evs & Hrun & Hdel & Hlook)
    end.
    eexists (_ :: evs). rewrite Hrun. tidy.
    split; [reflexivity|]. split; [|exact Hlook].
    cbn [dns_deletions flat_map app map]. fold (dns_deletions evs).
    rewrite Hdel. reflexivity.
Qed.

(** The outer loop of [_delete_all_entries_for_ip]. *)
Lemma delete_domains_loop (address : string) (entries : list DomainEntry) :
  forall w : World,
    exists evs,
      for_each entries
        (fun domain =>
           names <- get_dns_entries_by_address env ctx address
                      (de_domain domain) ;;
           for_each names
             (fun name => delete_dns_entry env ctx name (de_domain domain))) w
      = (Ok tt, {| w_store := w_store w; w_trace := w_trace w ++ evs |}) /\
      dns_lookups evs = map de_domain entries /\
      dns_deletions evs
      = flat_map
          (fun domain =>
             map (fun name => (name, domain)) (entries_of address domain))
          (map de_domain entries).
Proof.
  induction entries as [|entry rest IH]; intros w.
  - exists []. rewrite app_nil_r. destruct w. repeat split.
  - cbn [for_each]. rewrite bind_assoc.
    unfold get_dns_entries_by_address at 1, dns_manager.
    unfold bind at 1. rewrite Hentries. cbn [raised].
    match goal with
    | |- context [bind (for_each (entries_of address (de_domain entry)) _)
                    _ ?w1] =>
        destruct (delete_entries_loop (de_domain entry)
                    (entries_of address (de_domain entry)) w1)
          as (evs1 & Hrun1 & Hdel1 & Hlook1)
    end.
    rewrite (bind_ok _ _ _ _ _ Hrun1).
    match goal with
    | |- context [for_each rest _ ?w2] =>
        destruct (IH w2) as (evs2 & Hrun2 & Hlook2 & Hdel2)
    end.
    eexists (_ :: evs1 ++ evs2). rewrite Hrun2. tidy.
    split; [reflexivity|].
    rewrite dns_lookups_app, dns_deletions_app, Hlook1, Hlook2, Hdel1, Hdel2.
    split; reflexivity.
Qed.

(** [_delete_all_entries_for_ip] asks the floating DNS manager for the
    entries of the address once in each registered domain that a DNS driver
    lists, in the order of the domain table, and deletes exactly the entries
    it is given, each in the domain it was found in.  Domains no driver
    lists are not looked at. *)
Theorem delete_all_entries_visits_visible_domains
    (address : string) (w : World) :
  let domains :=
    filter (domain_visible floating_domains instance_domains)
      (map dd_domain (dnsdomains (w_store w))) in
  let run := _delete_all_entries_for_ip env ctx address w in
  result_of run = Ok tt /\
  dns_lookups (events_since w (world_of run)) = domains /\
  dns_deletions (events_since w (world_of run))
  = flat_map
      (fun domain =>
         map (fun name => (name, domain)) (entries_of address domain))
      domains /\
  w_store (world_of run) = w_store w.
Proof.
  intros domains run. subst run domains.
  unfold _delete_all_entries_for_ip.
  destruct (get_dns_domains_run w)
    as (entries & evs & Hrun & Hmap & _ & Hdel & Hlook).
  rewrite (bind_ok _ _ _ _ _ Hrun).
  match goal with
  | |- context [for_each entries _ ?w1] =>
      destruct (delete_domains_loop address entries w1)
        as (evs2 & Hrun2 & Hlook2 & Hdel2)
  end.
  rewrite Hrun2. unfold result_of, world_of; cbn [fst snd w_store w_trace].
  rewrite <- app_assoc, events_since_app.
  rewrite dns_lookups_app, dns_deletions_app, Hdel, Hlook, Hlook2, Hdel2, Hmap.
  repeat split.
Qed.

End Domains.

Lemma get_dns_domains_drops_unknown_witness :
  let run :=
    get_dns_domains Scenario.dns_listing Example.projA
      Scenario.world_with_domains in
  exists entries,
    result_of run = Ok entries /\
    map de_domain entries = ["example.org"; "internal"] /\
    warnings (events_since Scenario.world_with_domains (world_of run))
    = [[Some "stale.org"]] /\
    w_store (world_of run) = w_store Scenario.world_with_domains.
Proof.
  apply (get_dns_domains_drops_unknown Scenario.dns_listing Example.projA
           ["example.org"] ["internal"]).
  - intros c call w; reflexivity.
  - intros w; reflexivity.
  - intros w; reflexivity.
Defined.

Lemma delete_all_entries_visits_visible_domains_witness :
  let run :=
    _delete_all_entries_for_ip Scenario.dns_listing Example.projA
      "172.24.4.1" Scenario.world_with_domains in
  result_of run = Ok tt /\
  dns_lookups (events_since Scenario.world_with_domains (world_of run))
  = ["example.org"; "internal"] /\
  dns_deletions (events_since Scenario.world_with_domains (world_of run))
  = [("www", "example.org"); ("mail", "example.org")] /\
  w_store (world_of run) = w_store Scenario.world_with_domains.
Proof.
  refine (delete_all_entries_visits_visible_domains Scenario.dns_listing
            Example.projA ["example.org"] ["internal"] _ _ _
            Scenario.dns_listing_entries _ _ "172.24.4.1"
            Scenario.world_with_domains).
  - intros c call w; reflexivity.
  - intros w; reflexivity.
  - intros w; reflexivity.
  - intros address domain w. unfold Scenario.dns_listing_entries.
    cbn [dns_call Scenario.dns_listing Scenario.with_dns].
    destruct (String.eqb address "172.24.4.1" && String.eqb domain "example.org");
      reflexivity.
  - intros name domain w; reflexivity.
Defined.

(** ** Setting up the floating IPs of a host *)

Lemma driver_calls_app (l1 l2 : list Event) :
  driver_calls (l1 ++ l2) = driver_calls l1 ++ driver_calls l2.
Proof. apply flat_map_app. Qed.

Lemma logs_no_driver_calls (evs : list Event) :
  forallb is_log_event evs = true -> driver_calls evs = [].
Proof.
  induction evs as [|e evs IH]; [reflexivity|].
  cbn [forallb]. intros H. apply andb_prop in H as [He Hevs].
  destruct e; try discriminate He. cbn. apply IH; exact Hevs.
Qed.

Section HostSetupProperties.

Variable env : Env.
Variable admin_context : Context.
Variable db_floating_ip_get_all_by_host :
  Context -> option string -> M (list FloatingIp).
Variable is_NotFound : exn -> bool.
Variable LOG_debug : DebugRecord -> M unit.

Hypothesis Hdb : db_reliable env.
Hypothesis Hdebug : forall record, only_logs (LOG_debug record).

(** The lookup of the fixed IP in the loop of [init_host_floating_ips]. *)
Lemma host_setup_lookup (id : option Z) (w : World) :
  exists evs,
    try_except
      (fixed_ip <- db_fixed_ip_get env admin_context id true ;;
       ret (Some fixed_ip))
      (fun e =>
         match e with
         | FixedIpNotFound _ =>
             Some (LOG_debug (DebugFixedIpNotFound id) ;; ret None)
         | _ => None
         end) w
    = (Ok (option_map (StoreGateway.with_network (w_store w))
             (StoreGateway.find_fixed (w_store w) id)),
       {| w_store := w_store w; w_trace := w_trace w ++ evs |}) /\
    driver_calls evs = [].
Proof.
  unfold try_except, db_fixed_ip_get, db_read, bind.
  rewrite (Hdb admin_context _ w). unfold StoreGateway.fixed_ip_get.
  destruct (StoreGateway.find_fixed (w_store w) id) as [x|].
  - eexists [_]. tidy. split; reflexivity.
  - cbn [raised].
    match goal with
    | |- context [LOG_debug ?r ?w1] =>
        destruct (Hdebug r w1) as ([] & evs & Hlog & Hevs); rewrite Hlog
    end.
    eexists (_ :: evs). tidy. split; [reflexivity|].
    cbn. apply logs_no_driver_calls; exact Hevs.
Qed.

(** With a driver that accepts every call, the loop of
    [init_host_floating_ips] makes the calls of [host_setup_calls]. *)
Lemma host_setup_loop (Hdriver : driver_reliable env)
    (floating : list FloatingIp) :
  forall w : World,
    exists evs,
      for_each floating (init_host_floating_ip env admin_context LOG_debug) w
      = (Ok tt, {| w_store := w_store w; w_trace := w_trace w ++ evs |}) /\
      driver_calls evs
      = flat_map (host_setup_calls env (w_store w)) floating.
Proof.
  induction floating as [|f rest IH]; intros w.
  - exists []. rewrite app_nil_r. destruct w. split; reflexivity.
  - cbn [for_each flat_map]. unfold init_host_floating_ip at 1.
    unfold host_setup_calls at 1. cbv zeta.
    destruct (truthy_opt_int (fl_fixed_ip_id f)).
    + rewrite bind_assoc.
      destruct (host_setup_lookup (fl_fixed_ip_id f) w)
        as (evs1 & Hlook & Hcalls1).
      rewrite (bind_ok _ _ _ _ _ Hlook).
      destruct (StoreGateway.find_fixed (w_store w) (fl_fixed_ip_id f))
        as [x|]; cbn [option_map].
      * unfold StoreGateway.with_network.
        unfold try_except, bind. rewrite (l3driver_ok env _ _ Hdriver).
        match goal with
        | |- context [for_each rest _ ?w1] =>
            destruct (IH w1) as (evs2 & Hrun & Hcalls2)
        end.
        rewrite Hrun. eexists (evs1 ++ _ :: evs2). tidy.
        split; [reflexivity|].
        rewrite driver_calls_app, Hcalls1. cbn [app driver_calls flat_map].
        fold (driver_calls evs2). rewrite Hcalls2. reflexivity.
      * unfold ret at 1. unfold bind at 1.
        match goal with
        | |- context [for_each rest _ ?w1] =>
            destruct (IH w1) as (evs2 & Hrun & Hcalls2)
        end.
        rewrite Hrun. exists (evs1 ++ evs2). tidy.
        split; [reflexivity|].
        rewrite driver_calls_app, Hcalls1, Hcalls2. reflexivity.
    + unfold ret at 1. unfold bind at 1.
      destruct (IH w) as (evs2 & Hrun & Hcalls2).
      rewrite Hrun. exists evs2. split; [reflexivity | exact Hcalls2].
Qed.

(** [init_host_floating_ips], when the store lists the floating IPs of the
    host and serves its calls and the driver accepts every call: it returns,
    and after the listing the driver is called once for each listed
    floating IP that is bound to a fixed IP the store has, in the order of
    the listing, with [add_floating_ip] for the floating address, the fixed
    address, the configured public interface or else the floating IP's
    own, and the network of the fixed IP.  The other floating IPs are
    passed over, and the store is left as the listing left it. *)
Theorem init_host_adds_bound_floating_ips
    (Hdriver : driver_reliable env)
    (w w1 : World) (floating : list FloatingIp)
    (Hlisted :
       db_floating_ip_get_all_by_host admin_context (self_host env) w
       = (Ok floating, w1)) :
  let run :=
    init_host_floating_ips env admin_context db_floating_ip_get_all_by_host
      is_NotFound LOG_debug w in
  result_of run = Ok tt /\
  driver_calls (events_since w1 (world_of run))
  = flat_map (host_setup_calls env (w_store w1)) floating /\
  w_store (world_of run) = w_store w1.
Proof.
  intros run.
  destruct (host_setup_loop Hdriver floating w1) as (evs & Hrun & Hcalls).
  assert (Hwhole : run
                   = (Ok tt, {| w_store := w_store w1;
                                w_trace := w_trace w1 ++ evs |})).
  { subst run. unfold init_host_floating_ips.
    unfold try_except at 1. unfold bind at 1 2. rewrite Hlisted.
    unfold ret at 1. exact Hrun. }
  rewrite Hwhole. unfold result_of, world_of; cbn [fst snd w_store].
  rewrite events_since_app. repeat split. exact Hcalls.
Qed.

(** Whatever the driver does, the loop of [init_host_floating_ips] leaves
    the store alone and raises nothing but [NoFloatingIpInterface], after
    a failed [add_floating_ip]. *)
Lemma host_setup_loop_failure (floating : list FloatingIp) :
  forall w : World,
    exists r evs,
      for_each floating (init_host_floating_ip env admin_context LOG_debug) w
      = (r, {| w_store := w_store w; w_trace := w_trace w ++ evs |}) /\
      forall e,
        r = Raise e ->
        exists f fixed network message,
          In f floating /\
          e = NoFloatingIpInterface
                (str_or (CONF_public_interface env) (fl_interface f)) /\
          In (EvL3
                (L3_add_floating_ip (fl_address f) fixed
                   (str_or (CONF_public_interface env) (fl_interface f))
                   network)
                (Some (ProcessExecutionError message))) evs.
Proof.
  induction floating as [|f rest IH]; intros w.
  - exists (Ok tt), []. rewrite app_nil_r. destruct w.
    split; [reflexivity | discriminate].
  - assert (Hrest :
      forall w1,
        w_store w1 = w_store w ->
        (exists evs1, w_trace w1 = w_trace w ++ evs1) ->
        exists r evs,
          for_each rest (init_host_floating_ip env admin_context LOG_debug) w1
          = (r, {| w_store := w_store w; w_trace := w_trace w ++ evs |}) /\
          forall e,
            r = Raise e ->
            exists f0 fixed network message,
              In f0 (f :: rest) /\
              e = NoFloatingIpInterface
                    (str_or (CONF_public_interface env) (fl_interface f0)) /\
              In (EvL3
                    (L3_add_floating_ip (fl_address f0) fixed
                       (str_or (CONF_public_interface env) (fl_interface f0))
                       network)
                    (Some (ProcessExecutionError message))) evs).
    { intros w1 Hst [evs1 Htr].
      destruct (IH w1) as (r & evs2 & Hrun & Hfail).
      exists r, (evs1 ++ evs2). rewrite Hrun, Hst, Htr, <- app_assoc.
      split; [reflexivity|].
      intros e He. destruct (Hfail e He) as (f0 & x & n & m & Hin & -> & Hev).
      exists f0, x, n, m. split; [right; exact Hin|].
      split; [reflexivity|]. apply in_or_app; right; exact Hev. }
    cbn [for_each]. unfold init_host_floating_ip at 1. cbv zeta.
    destruct (truthy_opt_int (fl_fixed_ip_id f)).
    + rewrite bind_assoc.
      destruct (host_setup_lookup (fl_fixed_ip_id f) w)
        as (evs1 & Hlook & _).
      rewrite (bind_ok _ _ _ _ _ Hlook).
      destruct (StoreGateway.find_fixed (w_store w) (fl_fixed_ip_id f))
        as [x|]; cbn [option_map].
      * unfold StoreGateway.with_network.
        unfold try_except, l3driver. unfold bind at 1.
        destruct (l3driver_call env _ _) as [message|] eqn:Hcall;
          cbn [option_map outcome].
        -- match goal with
           | |- context [bind (LOG_debug ?r) _ ?w1] =>
               destruct (Hdebug r w1) as ([] & evs2 & Hlog & _)
           end.
           rewrite (bind_ok _ _ _ _ _ Hlog). unfold raise.
           eexists _, (evs1 ++ _ :: evs2). tidy.
           split; [reflexivity|].
           intros e He. injection He as <-.
           exists f, (fx_address x),
             (StoreGateway.find_network (w_store w) (fx_network_id x)),
             message.
           split; [left; reflexivity|]. split; [reflexivity|].
           apply in_or_app; right; left; reflexivity.
        -- apply Hrest; [reflexivity|].
           eexists (evs1 ++ [_]). tidy. reflexivity.
      * unfold ret at 1. unfold bind at 1.
        apply Hrest; [reflexivity | exists evs1; reflexivity].
    + unfold ret at 1. unfold bind at 1.
      apply Hrest; [reflexivity | exists []; symmetry; apply app_nil_r].
Qed.

(** [init_host_floating_ips], when the store lists the floating IPs of the
    host and serves its calls, whatever the driver does: the store is left
    as the listing left it, and the only exception the set-up raises is
    [NoFloatingIpInterface], naming the configured public interface or
    else the floating IP's own, after the driver failed the
    [add_floating_ip] of a listed floating IP on that interface, whatever
    the message of the failure. *)
Theorem init_host_reports_failed_add_as_no_interface
    (w w1 : World) (floating : list FloatingIp)
    (Hlisted :
       db_floating_ip_get_all_by_host admin_context (self_host env) w
       = (Ok floating, w1)) :
  let run :=
    init_host_floating_ips env admin_context db_floating_ip_get_all_by_host
      is_NotFound LOG_debug w in
  w_store (world_of run) = w_store w1 /\
  forall e,
    result_of run = Raise e ->
    exists f fixed network message,
      In f floating /\
      e = NoFloatingIpInterface
            (str_or (CONF_public_interface env) (fl_interface f)) /\
      In (EvL3
            (L3_add_floating_ip (fl_address f) fixed
               (str_or (CONF_public_interface env) (fl_interface f))
               network)
            (Some (ProcessExecutionError message)))
         (events_since w1 (world_of run)).
Proof.
  intros run.
  destruct (host_setup_loop_failure floating w1) as (r & evs & Hrun & Hfail).
  assert (Hwhole : run
                   = (r, {| w_store := w_store w1;
                            w_trace := w_trace w1 ++ evs |})).
  { subst run. unfold init_host_floating_ips.
    unfold try_except at 1. unfold bind at 1 2. rewrite Hlisted.
    unfold ret at 1. exact Hrun. }
  rewrite Hwhole. unfold result_of, world_of; cbn [fst snd w_store].
  rewrite events_since_app. split; [reflexivity | exact Hfail].
Qed.

End HostSetupProperties.

Lemma init_host_adds_bound_floating_ips_witness :
  let run :=
    init_host_floating_ips Example.healthy Scenario.admin
      Scenario.list_by_host Scenario.row_missing Scenario.debug_dropped
      Scenario.world_with_dangling in
  result_of run = Ok tt /\
  driver_calls (events_since Scenario.world_with_dangling (world_of run))
  = [L3_add_floating_ip "172.24.4.1" "10.0.0.5" (Some "eth0")
       (Some (mkNetwork 1 (Some "host1") false));
     L3_add_floating_ip "172.24.4.4" "10.0.0.6" (Some "eth0")
       (Some (mkNetwork 1 (Some "host1") false))] /\
  w_store (world_of run) = w_store Scenario.world_with_dangling.
Proof.
  refine (init_host_adds_bound_floating_ips Example.healthy Scenario.admin
            Scenario.list_by_host Scenario.row_missing Scenario.debug_dropped
            _ _ _ Scenario.world_with_dangling Scenario.world_with_dangling
            _ eq_refl).
  - intros c call w; reflexivity.
  - intros record w. exists tt, []. rewrite app_nil_r. destruct w.
    split; reflexivity.
  - intros call w; reflexivity.
Defined.

Lemma init_host_reports_failed_add_as_no_interface_witness :
  let run :=
    init_host_floating_ips Scenario.add_fails Scenario.admin
      Scenario.list_by_host Scenario.row_missing Scenario.debug_dropped
      Scenario.world_with_dangling in
  result_of run = Raise (NoFloatingIpInterface (Some "eth0")) /\
  w_store (world_of run) = w_store Scenario.world_with_dangling /\
  exists f fixed network message,
    In f (filter (fun f => opt_str_eqb (fl_host f) (Some "host1"))
            (floating_ips (w_store Scenario.world_with_dangling))) /\
    NoFloatingIpInterface (Some "eth0")
    = NoFloatingIpInterface
        (str_or (CONF_public_interface Scenario.add_fails) (fl_interface f)) /\
    In (EvL3
          (L3_add_floating_ip (fl_address f) fixed
             (str_or (CONF_public_interface Scenario.add_fails)
                (fl_interface f))
             network)
          (Some (ProcessExecutionError message)))
       (events_since Scenario.world_with_dangling (world_of run)).
Proof.
  split; [reflexivity|].
  assert (Hdebug : forall record, only_logs (Scenario.debug_dropped record)).
  { intros record w. exists tt, []. rewrite app_nil_r. destruct w.
    split; reflexivity. }
  destruct (init_host_reports_failed_add_as_no_interface Scenario.add_fails
              Scenario.admin Scenario.list_by_host Scenario.row_missing
              Scenario.debug_dropped (fun c call w => eq_refl) Hdebug
              Scenario.world_with_dangling Scenario.world_with_dangling
              _ eq_refl) as [Hstore Hfail].
  split; [exact Hstore|].
  apply Hfail. reflexivity.
Defined.

(** ** A driver failure while finishing a migration *)

Lemma no_driver_calls_in (evs : list Event) (call : L3Call)
    (failure : option exn) :
  driver_calls evs = [] -> ~ In (EvL3 call failure) evs.
Proof.
  induction evs as [|e evs IH]; intros Hcalls Hin; [exact Hin|].
  destruct Hin as [He|Hin].
  - subst e. discriminate Hcalls.
  - destruct e; try discriminate Hcalls; apply IH; assumption.
Qed.

Lemma in_round_tail (ctx : Context) (read : DbCall) (evs tail : list Event)
    (call : L3Call) (failure : option exn) :
  driver_calls evs = [] ->
  In (EvL3 call failure) (EvDb ctx read None :: evs ++ tail) ->
  In (EvL3 call failure) tail.
Proof.
  intros Hnone [H|H]; [discriminate H|].
  apply in_app_or in H as [H|H]; [|exact H].
  exfalso. exact (no_driver_calls_in _ _ _ Hnone H).
Qed.

Section FinishFailure.

Variable env : Env.
Variable ctx : Context.
Variable instance_uuid : string.
Variable dest : option string.

(** One round of the loop of [migrate_instance_finish]: a call of the
    driver that failed is the last thing the round did, and the store
    records the new host by then. *)
Lemma finish_step_failure (a : string) (w0 : World) :
  exists r st evs,
    migrate_instance_finish_address env ctx instance_uuid dest a w0
    = (r, {| w_store := st; w_trace := w_trace w0 ++ evs |}) /\
    (r = Ok tt -> forall call e, ~ In (EvL3 call (Some e)) evs) /\
    (forall address fixed interface network message,
       In (EvL3 (L3_add_floating_ip address fixed interface network)
             (Some (ProcessExecutionError message))) evs ->
       r = Raise (ProcessExecutionError message) /\
       recorded_host st address = Some dest).
Proof.
  unfold migrate_instance_finish_address.
  unfold db_floating_ip_get_by_address, db_read at 1. unfold bind at 1.
  destruct (db_fault env ctx (Db_floating_ip_get_by_address a) w0)
    as [e|] eqn:Hfault.
  { eexists _, _, [_]. split; [reflexivity|].
    split; [discriminate|].
    intros address fixed interface network message [H|[]]; discriminate H. }
  unfold StoreGateway.floating_ip_get_by_address.
  destruct (StoreGateway.find_floating (w_store w0) a) as [f|] eqn:Hfind.
  2:{ eexists _, _, [_]. split; [reflexivity|].
      split; [discriminate|].
      intros address fixed interface network message [H|[]]; discriminate H. }
  cbn [raised].
  match goal with
  | |- context [bind (_is_stale_floating_ip_address ctx f) _ ?w1] =>
      destruct (is_stale_answer ctx f w1) as (evs1 & Hstale & _ & Hnone & _)
  end.
  rewrite (bind_ok _ _ _ _ _ Hstale).
  pose proof (find_floating_address _ _ _ Hfind) as Ha.
  unfold emit; cbn [w_store w_trace].
  assert (Hquiet :
    forall (r : Res unit) st tr tail,
      tr = w_trace w0
           ++ EvDb ctx (Db_floating_ip_get_by_address a) None :: evs1 ++ tail ->
      (forall call e, ~ In (EvL3 call (Some e)) tail) ->
      exists r0 st0 evs,
        (r, {| w_store := st; w_trace := tr |})
        = (r0, {| w_store := st0; w_trace := w_trace w0 ++ evs |}) /\
        (r0 = Ok tt -> forall call e, ~ In (EvL3 call (Some e)) evs) /\
        (forall address fixed interface network message,
           In (EvL3 (L3_add_floating_ip address fixed interface network)
                 (Some (ProcessExecutionError message))) evs ->
           r0 = Raise (ProcessExecutionError message) /\
           recorded_host st0 address = Some dest)).
  { intros r st tr tail -> Htail.
    exists r, st, (EvDb ctx (Db_floating_ip_get_by_address a) None
                   :: evs1 ++ tail).
    split; [reflexivity|].
    split.
    - intros _ call e Hin. apply in_round_tail in Hin; [|exact Hnone].
      exact (Htail _ _ Hin).
    - intros address fixed interface network message Hin.
      apply in_round_tail in Hin; [|exact Hnone].
      destruct (Htail _ _ Hin). }
  destruct (stale ctx f).
  { unfold LOG, emit; cbn [w_store w_trace].
    eapply Hquiet; [rewrite <- !app_assoc; reflexivity|].
    intros call e [H|[]]; discriminate H. }
  unfold db_floating_ip_update, db_write at 1. unfold bind at 1.
  destruct (db_fault env ctx (Db_floating_ip_update (fl_address f) dest) _)
    as [e|].
  { unfold emit; cbn [w_store w_trace].
    eapply Hquiet; [rewrite <- !app_assoc; reflexivity|].
    intros call e0 [H|[]]; discriminate H. }
  cbn [w_store]. unfold StoreGateway.floating_ip_update.
  rewrite Ha, Hfind. cbn [raised].
  unfold db_fixed_ip_get, db_read at 1. unfold bind at 1.
  unfold emit, set_store; cbn [w_store w_trace].
  destruct (db_fault env ctx (Db_fixed_ip_get (fl_fixed_ip_id f) true) _)
    as [e|].
  { eapply Hquiet; [rewrite <- !app_assoc; reflexivity|].
    intros call e0 [H|[H|[]]]; discriminate H. }
  unfold StoreGateway.fixed_ip_get.
  destruct (StoreGateway.find_fixed _ (fl_fixed_ip_id f)) as [x|].
  2:{ cbn [raised].
      eapply Hquiet; [rewrite <- !app_assoc; reflexivity|].
      intros call e0 [H|[H|[]]]; discriminate H. }
  cbn [raised]. unfold StoreGateway.with_network. unfold l3driver.
  destruct (l3driver_call env _ _) as [message0|]; cbn [option_map outcome].
  2:{ unfold emit; cbn [w_store w_trace].
      eapply Hquiet; [rewrite <- !app_assoc; reflexivity|].
      intros call e0 [H|[H|[H|[]]]]; discriminate H. }
  unfold emit; cbn [w_store w_trace].
  eexists _, _,
    (EvDb ctx (Db_floating_ip_get_by_address a) None :: evs1 ++ [_; _; _]).
  split; [rewrite <- !app_assoc; reflexivity|].
  split; [discriminate|].
  intros address fixed interface network message Hin.
  apply in_round_tail in Hin; [|exact Hnone].
  destruct Hin as [H|[H|[H|[]]]]; try discriminate H.
  injection H as <- _ _ _ <-. split; [reflexivity|].
  rewrite (recorded_host_update _ _ _ _ _ Hfind), String.eqb_refl.
  reflexivity.
Qed.

(** The loop of [migrate_instance_finish]. *)
Lemma finish_loop_failure (addrs : list string) :
  forall w0 : World,
    exists r st evs,
      for_each addrs
        (migrate_instance_finish_address env ctx instance_uuid dest) w0
      = (r, {| w_store := st; w_trace := w_trace w0 ++ evs |}) /\
      (r = Ok tt -> forall call e, ~ In (EvL3 call (Some e)) evs) /\
      (forall address fixed interface network message,
         In (EvL3 (L3_add_floating_ip address fixed interface network)
               (Some (ProcessExecutionError message))) evs ->
         r = Raise (ProcessExecutionError message) /\
         recorded_host st address = Some dest).
Proof.
  induction addrs as [|a rest IH]; intros w0.
  - exists (Ok tt), (w_store w0), []. rewrite app_nil_r. destruct w0.
    split; [reflexivity|]. split; [intros _ call e []|].
    intros address fixed interface network message [].
  - cbn [for_each]. unfold bind.
    destruct (finish_step_failure a w0) as (r1 & st1 & evs1 & Hstep & Hok1 & Hbad1).
    rewrite Hstep. destruct r1 as [[]|e].
    + destruct (IH {| w_store := st1; w_trace := w_trace w0 ++ evs1 |})
        as (r2 & st2 & evs2 & Hrest & Hok2 & Hbad2).
      rewrite Hrest. exists r2, st2, (evs1 ++ evs2).
      cbn [w_trace]. rewrite <- app_assoc. split; [reflexivity|].
      split.
      * intros Hr call e Hin. apply in_app_or in Hin as [Hin|Hin].
        -- exact (Hok1 eq_refl _ _ Hin).
        -- exact (Hok2 Hr _ _ Hin).
      * intros address fixed interface network message Hin.
        apply in_app_or in Hin as [Hin|Hin].
        -- destruct (Hok1 eq_refl _ _ Hin).
        -- exact (Hbad2 _ _ _ _ _ Hin).
    + exists (Raise e), st1, evs1. split; [reflexivity|].
      split; [discriminate | exact Hbad1].
Qed.

End FinishFailure.

(** A driver failure in [migrate_instance_finish] is not undone: when the
    driver fails to add the forwarding of a listed address, whatever else
    the collaborators answer, the driver's error is raised as it is and
    the store already records the destination as the host of that address
    (the host is updated before the driver is called, and no handler sets
    it back). *)
Theorem migrate_finish_failed_add_keeps_new_host (env : Env) (ctx : Context)
    (instance_uuid : string) (floating_addresses : list string)
    (host source dest : option string) (w : World)
    (address fixed : string) (interface : option string)
    (network : option Network) (message : string) :
  let run :=
    migrate_instance_finish env ctx instance_uuid floating_addresses host
      source dest w in
  In (EvL3 (L3_add_floating_ip address fixed interface network)
        (Some (ProcessExecutionError message)))
     (events_since w (world_of run)) ->
  result_of run = Raise (ProcessExecutionError message) /\
  recorded_host (w_store (world_of run)) address
  = Some (if truthy_opt_str host && negb (truthy_opt_str dest)
          then host else dest).
Proof.
  intros run.
  set (dest' := if truthy_opt_str host && negb (truthy_opt_str dest)
                then host else dest).
  assert (Hwhole :
    exists r st evs,
      run = (r, {| w_store := st; w_trace := w_trace w ++ evs |}) /\
      (forall address fixed interface network message,
         In (EvL3 (L3_add_floating_ip address fixed interface network)
               (Some (ProcessExecutionError message))) evs ->
         r = Raise (ProcessExecutionError message) /\
         recorded_host st address = Some dest')).
  { subst run. unfold migrate_instance_finish. cbv zeta. fold dest'.
    destruct (nothing_to_migrate floating_addresses source dest').
    - exists (Ok tt), (w_store w), []. rewrite app_nil_r. destruct w.
      split; [reflexivity|].
      intros address0 fixed0 interface0 network0 message0 [].
    - unfold LOG at 1. unfold bind at 1.
      match goal with
      | |- context [for_each floating_addresses _ ?w1] =>
          destruct (finish_loop_failure env ctx instance_uuid dest'
                      floating_addresses w1)
            as (r & st & evs & Hrun & _ & Hbad)
      end.
      rewrite Hrun. eexists r, st, (_ :: evs).
      unfold emit; cbn [w_store w_trace]. rewrite <- app_assoc.
      split; [reflexivity|].
      intros address0 fixed0 interface0 network0 message0 [H|Hin];
        [discriminate H|].
      exact (Hbad _ _ _ _ _ Hin). }
  destruct Hwhole as (r & st & evs & -> & Hbad).
  unfold result_of, world_of; cbn [fst snd w_store].
  rewrite events_since_app. intros Hin. exact (Hbad _ _ _ _ _ Hin).
Qed.

Lemma migrate_finish_failed_add_keeps_new_host_witness :
  let run :=
    migrate_instance_finish Scenario.add_fails Example.projA "uuid-1"
      ["172.24.4.1"; "172.24.4.5"] None (Some "host1") (Some "host2")
      Example.world in
  result_of run
  = Raise (ProcessExecutionError "Unexpected error while running command.") /\
  recorded_host (w_store (world_of run)) "172.24.4.1" = Some (Some "host2").
Proof.
  apply (migrate_finish_failed_add_keeps_new_host Scenario.add_fails
           Example.projA "uuid-1" ["172.24.4.1"; "172.24.4.5"] None
           (Some "host1") (Some "host2") Example.world "172.24.4.1"
           "10.0.0.5" (Some "eth0") (Some (mkNetwork 1 (Some "host1") false))
           "Unexpected error while running command.").
  vm_compute. do 4 right. left. reflexivity.
Defined.

(** ** A driver failure while starting a migration *)

Section StartFailure.

Variable env : Env.
Variable ctx : Context.
Variable instance_uuid : string.

(** One round of the loop of [migrate_instance_start]: the round touches
    the recorded host of its own address only, and not before the driver
    has served both calls. *)
Lemma start_step_failure (a : string) (w0 : World) :
  exists r st evs,
    migrate_instance_start_address env ctx instance_uuid a w0
    = (r, {| w_store := st; w_trace := w_trace w0 ++ evs |}) /\
    (r = Ok tt -> forall call e, ~ In (EvL3 call (Some e)) evs) /\
    (forall b, b <> a ->
               recorded_host st b = recorded_host (w_store w0) b) /\
    (forall address fixed interface network message,
       In (EvL3 (L3_remove_floating_ip address fixed interface network)
             (Some (ProcessExecutionError message))) evs ->
       r = Raise (ProcessExecutionError message) /\
       st = w_store w0 /\ address = a).
Proof.
  unfold migrate_instance_start_address.
  unfold db_floating_ip_get_by_address, db_read at 1. unfold bind at 1.
  destruct (db_fault env ctx (Db_floating_ip_get_by_address a) w0)
    as [e|] eqn:Hfault.
  { eexists _, _, [_]. split; [reflexivity|].
    split; [discriminate|]. split; [reflexivity|].
    intros address fixed interface network message [H|[]]; discriminate H. }
  unfold StoreGateway.floating_ip_get_by_address.
  destruct (StoreGateway.find_floating (w_store w0) a) as [f|] eqn:Hfind.
  2:{ eexists _, _, [_]. split; [reflexivity|].
      split; [discriminate|]. split; [reflexivity|].
      intros address fixed interface network message [H|[]]; discriminate H. }
  cbn [raised].
  match goal with
  | |- context [bind (_is_stale_floating_ip_address ctx f) _ ?w1] =>
      destruct (is_stale_answer ctx f w1) as (evs1 & Hstale & _ & Hnone & _)
  end.
  rewrite (bind_ok _ _ _ _ _ Hstale).
  pose proof (find_floating_address _ _ _ Hfind) as Ha.
  unfold emit; cbn [w_store w_trace].
  assert (Hquiet :
    forall (r : Res unit) st tr tail,
      tr = w_trace w0
           ++ EvDb ctx (Db_floating_ip_get_by_address a) None :: evs1 ++ tail ->
      (forall call e,
         In (EvL3 call (Some e)) tail ->
         r <> Ok tt /\
         forall address fixed interface network,
           call <> L3_remove_floating_ip address fixed interface network) ->
      (forall b, b <> a ->
                 recorded_host st b = recorded_host (w_store w0) b) ->
      exists r0 st0 evs,
        (r, {| w_store := st; w_trace := tr |})
        = (r0, {| w_store := st0; w_trace := w_trace w0 ++ evs |}) /\
        (r0 = Ok tt -> forall call e, ~ In (EvL3 call (Some e)) evs) /\
        (forall b, b <> a ->
                   recorded_host st0 b = recorded_host (w_store w0) b) /\
        (forall address fixed interface network message,
           In (EvL3 (L3_remove_floating_ip address fixed interface network)
                 (Some (ProcessExecutionError message))) evs ->
           r0 = Raise (ProcessExecutionError message) /\
           st0 = w_store w0 /\ address = a)).
  { intros r st tr tail -> Htail Hhosts.
    exists r, st, (EvDb ctx (Db_floating_ip_get_by_address a) None
                   :: evs1 ++ tail).
    split; [reflexivity|].
    split; [|split; [exact Hhosts|]].
    - intros Hr call e Hin. apply in_round_tail in Hin; [|exact Hnone].
      destruct (Htail _ _ Hin) as [Hne _]. exact (Hne Hr).
    - intros address fixed interface network message Hin.
      apply in_round_tail in Hin; [|exact Hnone].
      destruct (Htail _ _ Hin) as [_ Hne].
      destruct (Hne address fixed interface network eq_refl). }
  destruct (stale ctx f).
  { unfold LOG, emit; cbn [w_store w_trace].
    eapply Hquiet; [rewrite <- !app_assoc; reflexivity| |reflexivity].
    intros call e [H|[]]; discriminate H. }
  cbv zeta.
  unfold db_fixed_ip_get, db_read at 1. unfold bind at 1.
  cbn [w_store w_trace].
  destruct (db_fault env ctx (Db_fixed_ip_get (fl_fixed_ip_id f) true) _)
    as [e|].
  { unfold emit; cbn [w_store w_trace].
    eapply Hquiet; [rewrite <- !app_assoc; reflexivity| |reflexivity].
    intros call e0 [H|[]]; discriminate H. }
  unfold StoreGateway.fixed_ip_get.
  destruct (StoreGateway.find_fixed (w_store w0) (fl_fixed_ip_id f)) as [x|].
  2:{ unfold emit; cbn [w_store w_trace raised].
      eapply Hquiet; [rewrite <- !app_assoc; reflexivity| |reflexivity].
      intros call e0 [H|[]]; discriminate H. }
  cbn [raised]. unfold StoreGateway.with_network.
  unfold l3driver at 1. unfold bind at 1.
  destruct (l3driver_call env (L3_remove_floating_ip _ _ _ _) _)
    as [message0|]; cbn [option_map outcome].
  { unfold emit; cbn [w_store w_trace].
    eexists _, _,
      (EvDb ctx (Db_floating_ip_get_by_address a) None :: evs1 ++ [_; _]).
    split; [rewrite <- !app_assoc; reflexivity|].
    split; [discriminate|]. split; [reflexivity|].
    intros address fixed interface network message Hin.
    apply in_round_tail in Hin; [|exact Hnone].
    destruct Hin as [H|[H|[]]]; try discriminate H.
    injection H as <- _ _ _ <-. repeat split. exact Ha. }
  unfold l3driver at 1. unfold bind at 1.
  destruct (l3driver_call env (L3_clean_conntrack _) _)
    as [message0|]; cbn [option_map outcome].
  { unfold emit; cbn [w_store w_trace].
    eapply Hquiet; [rewrite <- !app_assoc; reflexivity| |reflexivity].
    intros call e0 [H|[H|[H|[]]]]; try discriminate H.
    injection H as <- _. split; discriminate. }
  unfold db_floating_ip_update, db_write.
  unfold emit; cbn [w_store w_trace].
  destruct (db_fault env ctx (Db_floating_ip_update (fl_address f) None) _)
    as [e|].
  { unfold emit; cbn [w_store w_trace].
    eapply Hquiet; [rewrite <- !app_assoc; reflexivity| |reflexivity].
    intros call e0 [H|[H|[H|[H|[]]]]]; discriminate H. }
  unfold StoreGateway.floating_ip_update. rewrite Ha, Hfind.
  unfold emit, set_store; cbn [w_store w_trace raised].
  eapply Hquiet; [rewrite <- !app_assoc; reflexivity| |].
  - intros call e0 [H|[H|[H|[H|[]]]]]; discriminate H.
  - intros b Hb. rewrite (recorded_host_update _ _ _ _ _ Hfind).
    destruct (String.eqb b a) eqn:Hba; [|reflexivity].
    apply String.eqb_eq in Hba. destruct (Hb Hba).
Qed.

(** The loop of [migrate_instance_start], over addresses listed once. *)
Lemma start_loop_failure (addrs : list string) :
  NoDup addrs ->
  forall w0 : World,
    exists r st evs,
      for_each addrs (migrate_instance_start_address env ctx instance_uuid) w0
      = (r, {| w_store := st; w_trace := w_trace w0 ++ evs |}) /\
      (r = Ok tt -> forall call e, ~ In (EvL3 call (Some e)) evs) /\
      (forall b, ~ In b addrs ->
                 recorded_host st b = recorded_host (w_store w0) b) /\
      (forall address fixed interface network message,
         In (EvL3 (L3_remove_floating_ip address fixed interface network)
               (Some (ProcessExecutionError message))) evs ->
         r = Raise (ProcessExecutionError message) /\
         recorded_host st address = recorded_host (w_store w0) address /\
         In address addrs).
Proof.
  induction 1 as [|a rest Hnotin Hnodup IH]; intros w0.
  - exists (Ok tt), (w_store w0), []. rewrite app_nil_r. destruct w0.
    split; [reflexivity|]. split; [intros _ call e []|].
    split; [reflexivity|].
    intros address fixed interface network message [].
  - cbn [for_each]. unfold bind.
    destruct (start_step_failure a w0)
      as (r1 & st1 & evs1 & Hstep & Hok1 & Hhosts1 & Hbad1).
    rewrite Hstep. destruct r1 as [[]|e].
    + destruct (IH {| w_store := st1; w_trace := w_trace w0 ++ evs1 |})
        as (r2 & st2 & evs2 & Hrest & Hok2 & Hout2 & Hbad2).
      rewrite Hrest. exists r2, st2, (evs1 ++ evs2).
      cbn [w_trace w_store] in *. rewrite <- app_assoc.
      split; [reflexivity|].
      split; [|split].
      * intros Hr call e Hin. apply in_app_or in Hin as [Hin|Hin].
        -- exact (Hok1 eq_refl _ _ Hin).
        -- exact (Hok2 Hr _ _ Hin).
      * intros b Hb. rewrite Hout2 by (intros Hin; apply Hb; right; exact Hin).
        apply Hhosts1. intros ->. apply Hb; left; reflexivity.
      * intros address fixed interface network message Hin.
        apply in_app_or in Hin as [Hin|Hin].
        -- destruct (Hok1 eq_refl _ _ Hin).
        -- destruct (Hbad2 _ _ _ _ _ Hin) as (Hr & Hhost & Hlisted).
           split; [exact Hr|]. split; [|right; exact Hlisted].
           rewrite Hhost. apply Hhosts1. intros ->. exact (Hnotin Hlisted).
    + exists (Raise e), st1, evs1. split; [reflexivity|].
      split; [discriminate|]. split.
      * intros b Hb. apply Hhosts1. intros ->. apply Hb; left; reflexivity.
      * intros address fixed interface network message Hin.
        destruct (Hbad1 _ _ _ _ _ Hin) as (Hr & -> & ->).
        split; [exact Hr|]. split; [reflexivity | left; reflexivity].
Qed.

End StartFailure.

(** A driver failure in [migrate_instance_start] leaves the address with
    its host: when the driver fails to remove the forwarding of a listed
    address, whatever else the collaborators answer, the driver's error is
    raised as it is and the store records for that address the host it
    recorded before the call (the host is cleared only after the driver
    has served both of its calls), provided no address is listed twice. *)
Theorem migrate_start_failed_remove_keeps_host (env : Env) (ctx : Context)
    (instance_uuid : string) (floating_addresses : list string)
    (source dest : option string) (w : World)
    (address fixed : string) (interface : option string)
    (network : option Network) (message : string)
    (Honce : NoDup floating_addresses) :
  let run :=
    migrate_instance_start env ctx instance_uuid floating_addresses source
      dest w in
  In (EvL3 (L3_remove_floating_ip address fixed interface network)
        (Some (ProcessExecutionError message)))
     (events_since w (world_of run)) ->
  result_of run = Raise (ProcessExecutionError message) /\
  recorded_host (w_store (world_of run)) address
  = recorded_host (w_store w) address.
Proof.
  intros run.
  assert (Hwhole :
    exists r st evs,
      run = (r, {| w_store := st; w_trace := w_trace w ++ evs |}) /\
      (forall address fixed interface network message,
         In (EvL3 (L3_remove_floating_ip address fixed interface network)
               (Some (ProcessExecutionError message))) evs ->
         r = Raise (ProcessExecutionError message) /\
         recorded_host st address = recorded_host (w_store w) address)).
  { subst run. unfold migrate_instance_start.
    destruct (nothing_to_migrate floating_addresses source dest).
    - exists (Ok tt), (w_store w), []. rewrite app_nil_r. destruct w.
      split; [reflexivity|].
      intros address0 fixed0 interface0 network0 message0 [].
    - unfold LOG at 1. unfold bind at 1.
      match goal with
      | |- context [for_each floating_addresses _ ?w1] =>
          destruct (start_loop_failure env ctx instance_uuid
                      floating_addresses Honce w1)
            as (r & st & evs & Hrun & _ & _ & Hbad)
      end.
      rewrite Hrun. eexists r, st, (_ :: evs).
      unfold emit; cbn [w_store w_trace]. rewrite <- app_assoc.
      split; [reflexivity|].
      intros address0 fixed0 interface0 network0 message0 [H|Hin];
        [discriminate H|].
      destruct (Hbad _ _ _ _ _ Hin) as (Hr & Hhost & _).
      split; [exact Hr | exact Hhost]. }
  destruct Hwhole as (r & st & evs & -> & Hbad).
  unfold result_of, world_of; cbn [fst snd w_store].
  rewrite events_since_app. intros Hin. exact (Hbad _ _ _ _ _ Hin).
Qed.

Lemma migrate_start_failed_remove_keeps_host_witness :
  let run :=
    migrate_instance_start Scenario.remove_fails Example.projA "uuid-1"
      ["172.24.4.1"; "172.24.4.5"] (Some "host1") (Some "host2")
      Example.world in
  result_of run
  = Raise (ProcessExecutionError "Unexpected error while running command.") /\
  recorded_host (w_store (world_of run)) "172.24.4.1"
  = recorded_host (w_store Example.world) "172.24.4.1".
Proof.
  apply (migrate_start_failed_remove_keeps_host Scenario.remove_fails
           Example.projA "uuid-1" ["172.24.4.1"; "172.24.4.5"]
           (Some "host1") (Some "host2") Example.world "172.24.4.1"
           "10.0.0.5" (Some "eth0") (Some (mkNetwork 1 (Some "host1") false))
           "Unexpected error while running command.").
  - repeat constructor; simpl; intuition discriminate.
  - vm_compute. do 3 right. left. reflexivity.
Defined.
